(** * Bid decision engine: spec matcher, cost composer, margin strategist,
      priority ranker

    A shallow embedding of the scoring and pricing code of the repository
    ([techathon_app/agents/tech_agent.py],
    [resources/catalogue/agents/pricing_agent.py],
    [legacy_agents/Agents/pricing_Agent/pricing_agent.py],
    [techathon_app/agents/priority_agent.py]) and the properties its
    specification states about it.

    Conventions of the embedding.
    - A Python [float] is an exact rational ([Q]); every comparison of two
      floats is a comparison of rationals.  Binary rounding error, infinities
      and NaN are outside the model, and so are the strings ([inf], [nan])
      that convert to them.
    - A Python [str] is a [string] of 8-bit characters; case mapping,
      whitespace and the regular-expression classes [\d] and [\w] are the
      ASCII ones.
    - A JSON object read with [.get] is a finite map from keys to values.
    - A computation that can raise returns a [result]; [try/except] blocks
      are written out where the source has them. *)

From Stdlib Require Import ZArith QArith Qpower Qround Qabs Qminmax Lia Lqa.
From Stdlib Require Import String Ascii List Bool Permutation Sorted DecimalString.
From stdpp Require Import gmap strings.
Import ListNotations.

Local Open Scope string_scope.
Local Open Scope Z_scope.

(* ===================================================================== *)
(** ** Python values, strings and builtins                                *)
(* ===================================================================== *)

Module Py.

(** Exceptions raised by the modelled code. *)
Inductive exn : Type :=
| ValueError | TypeError | KeyError | IndexError | ZeroDivisionError
| AttributeError.

Inductive result (A : Type) : Type :=
| Ok (a : A)
| Raise (e : exn).
Arguments Ok {A} a.
Arguments Raise {A} e.

Definition bind {A B : Type} (r : result A) (k : A -> result B) : result B :=
  match r with
  | Ok a => k a
  | Raise e => Raise e
  end.

(** [try: c  except: d] with a bare [except]. *)
Definition try_except {A : Type} (c : result A) (d : A) : A :=
  match c with
  | Ok a => a
  | Raise _ => d
  end.

Definition is_ok {A : Type} (r : result A) : bool :=
  match r with
  | Ok _ => true
  | Raise _ => false
  end.

(** *** Characters and strings *)

Definition char_between (lo hi : nat) (c : ascii) : bool :=
  let n := nat_of_ascii c in (lo <=? n)%nat && (n <=? hi)%nat.

(** [str.isspace] on the ASCII range: TAB..CR, FS..US and the blank. *)
Definition is_space (c : ascii) : bool :=
  char_between 9 13 c || char_between 28 32 c.

Definition is_digit (c : ascii) : bool := char_between 48 57 c.
Definition is_upper (c : ascii) : bool := char_between 65 90 c.
Definition is_lower (c : ascii) : bool := char_between 97 122 c.
Definition is_alpha (c : ascii) : bool := is_upper c || is_lower c.

Definition lower_char (c : ascii) : ascii :=
  if is_upper c then ascii_of_nat (nat_of_ascii c + 32) else c.

Definition upper_char (c : ascii) : ascii :=
  if is_lower c then ascii_of_nat (nat_of_ascii c - 32) else c.

Fixpoint map_string (f : ascii -> ascii) (s : string) : string :=
  match s with
  | EmptyString => EmptyString
  | String c s' => String (f c) (map_string f s')
  end.

Definition lower : string -> string := map_string lower_char.
Definition upper : string -> string := map_string upper_char.

Fixpoint lstrip (s : string) : string :=
  match s with
  | EmptyString => EmptyString
  | String c s' => if is_space c then lstrip s' else s
  end.

Fixpoint rstrip (s : string) : string :=
  match s with
  | EmptyString => EmptyString
  | String c s' =>
      let r := rstrip s' in
      if is_space c && (r =? "")%string then EmptyString else String c r
  end.

(** [s.strip()] *)
Definition strip (s : string) : string := rstrip (lstrip s).

(** [sub in s] for two strings. *)
Fixpoint contains (sub s : string) : bool :=
  String.prefix sub s
  || match s with
     | EmptyString => false
     | String _ s' => contains sub s'
     end.

(** Scan of [s.replace(old, new)] for a non-empty [old]: [skip] counts the
    characters of a match still to be dropped. *)
Fixpoint replace_from (old new s : string) (skip : nat) : string :=
  match s with
  | EmptyString => EmptyString
  | String c s' =>
      match skip with
      | S k => replace_from old new s' k
      | O =>
          if String.prefix old s
          then String.append new (replace_from old new s' (String.length old - 1))
          else String c (replace_from old new s' 0)
      end
  end.

Fixpoint intersperse (new s : string) : string :=
  match s with
  | EmptyString => EmptyString
  | String c s' => String c (String.append new (intersperse new s'))
  end.

(** [s.replace(old, new)] *)
Definition replace (old new s : string) : string :=
  match old with
  | EmptyString => String.append new (intersperse new s)
  | String _ _ => replace_from old new s 0
  end.

Fixpoint take_while (p : ascii -> bool) (s : string) : string :=
  match s with
  | EmptyString => EmptyString
  | String c s' => if p c then String c (take_while p s') else EmptyString
  end.

(** [s.split()]: the maximal runs of non-whitespace characters. *)
Fixpoint split_ws (s : string) : list string :=
  match s with
  | EmptyString => []
  | String c s' =>
      if is_space c then split_ws s'
      else match s' with
           | EmptyString => [String c EmptyString]
           | String d _ =>
               if is_space d then String c EmptyString :: split_ws s'
               else match split_ws s' with
                    | w :: ws => String c w :: ws
                    | [] => [String c EmptyString]
                    end
           end
  end.

(** [s.title()]: a letter is upper-cased after a non-letter and lower-cased
    after a letter. *)
Fixpoint title_from (s : string) (prev_alpha : bool) : string :=
  match s with
  | EmptyString => EmptyString
  | String c s' =>
      String (if prev_alpha then lower_char c else upper_char c)
             (title_from s' (is_alpha c))
  end.

Definition title (s : string) : string := title_from s false.

(** *** Regular expressions used by the agents *)

(** Offset of the [")"] that closes a lazy [\(.*?\)] match: the first
    [")"] not preceded by a line feed ([.] does not match it). *)
Fixpoint close_paren (s : string) : option nat :=
  match s with
  | EmptyString => None
  | String c s' =>
      if (c =? ")")%char then Some O
      else if (c =? "010")%char then None
      else option_map S (close_paren s')
  end.

Fixpoint strip_parens_from (s : string) (skip : nat) : string :=
  match s with
  | EmptyString => EmptyString
  | String c s' =>
      match skip with
      | S k => strip_parens_from s' k
      | O =>
          if (c =? "(")%char
          then match close_paren s' with
               | Some n => strip_parens_from s' (S n)
               | None => String c (strip_parens_from s' 0)
               end
          else String c (strip_parens_from s' 0)
      end
  end.

(** [re.sub(r"\(.*?\)", "", s)] *)
Definition strip_parens (s : string) : string := strip_parens_from s 0.

Definition four_digits (s : string) : bool :=
  match s with
  | String a (String b (String c (String d _))) =>
      is_digit a && is_digit b && is_digit c && is_digit d
  | _ => false
  end.

Fixpoint strip_years_from (s : string) (skip : nat) : string :=
  match s with
  | EmptyString => EmptyString
  | String c s' =>
      match skip with
      | S k => strip_years_from s' k
      | O =>
          if (c =? ":")%char && four_digits s'
          then strip_years_from s' 4
          else String c (strip_years_from s' 0)
      end
  end.

(** [re.sub(r":\d{4}", "", s)] *)
Definition strip_years (s : string) : string := strip_years_from s 0.

Definition is_num_char (c : ascii) : bool := is_digit c || (c =? ".")%char.

(** [re.findall(r"[\d\.]+", s)[0]]; [None] is the [IndexError] of an empty
    list of matches. *)
Fixpoint first_number_run (s : string) : option string :=
  match s with
  | EmptyString => None
  | String c s' =>
      if is_num_char c then Some (take_while is_num_char s)
      else first_number_run s'
  end.

Definition is_word_char (c : ascii) : bool :=
  is_alpha c || is_digit c || (c =? "_")%char.

(** [re.findall(r"\w+", s)]: the maximal runs of word characters. *)
Fixpoint word_runs (s : string) : list string :=
  match s with
  | EmptyString => []
  | String c s' =>
      if negb (is_word_char c) then word_runs s'
      else match s' with
           | EmptyString => [String c EmptyString]
           | String d _ =>
               if negb (is_word_char d) then String c EmptyString :: word_runs s'
               else match word_runs s' with
                    | w :: ws => String c w :: ws
                    | [] => [String c EmptyString]
                    end
           end
  end.

(** *** Numbers *)

Definition digit_value (c : ascii) : Z := Z.of_nat (nat_of_ascii c - 48).

Fixpoint digits_value (s : string) (acc : Z) : Z :=
  match s with
  | EmptyString => acc
  | String c s' => digits_value s' (10 * acc + digit_value c)
  end.

Definition split_sign (s : string) : bool * string :=
  match s with
  | String c r =>
      if (c =? "-")%char then (true, r)
      else if (c =? "+")%char then (false, r)
      else (false, s)
  | EmptyString => (false, s)
  end.

Definition Qpow10 (e : Z) : Q := Qpower (10 # 1) e.

(** The whitespace [float] accepts around an ASCII string: TAB..CR and
    the blank. *)
Definition is_c_space (c : ascii) : bool :=
  char_between 9 13 c || (c =? " ")%char.

Fixpoint c_lstrip (s : string) : string :=
  match s with
  | EmptyString => EmptyString
  | String c s' => if is_c_space c then c_lstrip s' else s
  end.

Fixpoint c_rstrip (s : string) : string :=
  match s with
  | EmptyString => EmptyString
  | String c s' =>
      let r := c_rstrip s' in
      if is_c_space c && (r =? "")%string then EmptyString else String c r
  end.

Definition c_strip (s : string) : string := c_rstrip (c_lstrip s).

(** A run of digits in which single underscores may separate digits: the
    digits read and the rest of the string.  [prev_digit] tells whether
    the character before was a digit of the run. *)
Fixpoint span_digits (s : string) (prev_digit : bool) : string * string :=
  match s with
  | EmptyString => (EmptyString, EmptyString)
  | String c s' =>
      if is_digit c then
        let '(d, r) := span_digits s' true in (String c d, r)
      else if prev_digit && (c =? "_")%char
              && match s' with
                 | String d _ => is_digit d
                 | EmptyString => false
                 end
      then span_digits s' false
      else (EmptyString, s)
  end.

(** The characters a number can start with. *)
Definition numeric_start (c : ascii) : bool :=
  is_digit c || (c =? "-")%char || (c =? "+")%char || (c =? ".")%char.

(** [float(s)] for a string: surrounding whitespace, an optional sign, a
    decimal mantissa with at least one digit and an optional exponent.
    [None] is [ValueError].  (Python also reads [inf], [infinity] and
    [nan], which are not floats of the model.) *)
Definition parse_float (s0 : string) : option Q :=
  let '(neg, s1) := split_sign (c_strip s0) in
  let '(ip, r1) := span_digits s1 false in
  let '(fp, r2) :=
    match r1 with
    | String c r =>
        if (c =? ".")%char then span_digits r false
        else (EmptyString, r1)
    | EmptyString => (EmptyString, r1)
    end in
  if (ip =? "")%string && (fp =? "")%string then None
  else
    let mant := digits_value (String.append ip fp) 0 in
    let signed := if neg then (- mant)%Z else mant in
    let fexp := (- Z.of_nat (String.length fp))%Z in
    match r2 with
    | EmptyString => Some (inject_Z signed * Qpow10 fexp)%Q
    | String c r3 =>
        if (c =? "e")%char || (c =? "E")%char then
          let '(eneg, r4) := split_sign r3 in
          let '(ed, r5) := span_digits r4 false in
          if (ed =? "")%string || negb (r5 =? "")%string
          then None
          else
            let e := digits_value ed 0 in
            Some (inject_Z signed * Qpow10 (fexp + (if eneg then - e else e)))%Q
        else None
    end.

Definition Qltb (x y : Q) : bool := negb (Qle_bool y x).

(** Nearest integer, ties to the even one. *)
Definition round_half_even (x : Q) : Z :=
  let f := Qfloor x in
  match (x - inject_Z f ?= 1 # 2)%Q with
  | Lt => f
  | Gt => f + 1
  | Eq => if Z.even f then f else f + 1
  end.

(** [round(x, n)] *)
Definition round (x : Q) (n : nat) : Q :=
  (inject_Z (round_half_even (x * Qpow10 (Z.of_nat n))) / Qpow10 (Z.of_nat n))%Q.

(** [math.ceil(x)] *)
Definition ceil (x : Q) : Z := Qceiling x.

(** [int(x)] of a float: truncation toward zero. *)
Definition trunc (x : Q) : Z :=
  if Qle_bool 0 x then Qfloor x else Qceiling x.

(** *** JSON values *)

(** A JSON scalar.  [SFloat m k] is the decimal literal [m / 10^k]. *)
Inductive scalar : Type :=
| SNone
| SBool (b : bool)
| SInt (z : Z)
| SFloat (m : Z) (k : nat)
| SStr (s : string).

(** A value stored under a key: a scalar or a list of scalars. *)
Inductive value : Type :=
| VScalar (x : scalar)
| VList (l : list scalar).

Definition VNone : value := VScalar SNone.
Definition VStr (s : string) : value := VScalar (SStr s).
Definition VInt (z : Z) : value := VScalar (SInt z).
Definition VFloat (m : Z) (k : nat) : value := VScalar (SFloat m k).

Definition dict : Type := gmap string value.

(** [d.get(k)] *)
Definition get (d : dict) (k : string) : value := default VNone (d !! k).

(** [d.get(k, dflt)] *)
Definition get_or (d : dict) (k : string) (dflt : value) : value :=
  default dflt (d !! k).

Definition scalar_truthy (x : scalar) : bool :=
  match x with
  | SNone => false
  | SBool b => b
  | SInt z => negb (z =? 0)
  | SFloat m _ => negb (m =? 0)
  | SStr s => negb (s =? "")%string
  end.

(** Truth value of [v] in [if v], [not v], [a or b]. *)
Definition truthy (v : value) : bool :=
  match v with
  | VScalar x => scalar_truthy x
  | VList l => negb (Nat.eqb (List.length l) 0)
  end.

(** [a or b] *)
Definition py_or (a b : value) : value := if truthy a then a else b.

Definition str_of_Z (z : Z) : string := NilZero.string_of_int (Z.to_int z).

Fixpoint zero_pad_to (fuel width : nat) (s : string) : string :=
  match fuel with
  | O => s
  | S fuel' =>
      if (String.length s <? width)%nat
      then zero_pad_to fuel' width (String "0" s)
      else s
  end.

(** [s.zfill(width)] for a string of digits. *)
Definition zero_pad (width : nat) (s : string) : string :=
  zero_pad_to width width s.

Fixpoint rstrip_zeros (s : string) : string :=
  match s with
  | EmptyString => EmptyString
  | String c s' =>
      let r := rstrip_zeros s' in
      if (c =? "0")%char && (r =? "")%string then EmptyString else String c r
  end.

(** [str(x)] of a float given by a decimal literal, in positional
    notation (the notation Python prints for magnitudes from 1e-4 up to
    1e16). *)
Definition str_of_decimal (m : Z) (k : nat) : string :=
  let a := Z.abs m in
  let p := 10 ^ Z.of_nat k in
  let frac := rstrip_zeros (zero_pad k (str_of_Z (a mod p))) in
  String.append (if m <? 0 then "-" else "")
    (String.append (str_of_Z (a / p))
       (String.append "." (if (frac =? "")%string then "0" else frac))).

Definition hex_digit (n : nat) : ascii :=
  if (n <? 10)%nat then ascii_of_nat (48 + n) else ascii_of_nat (87 + n).

Definition repr_char (quote c : ascii) : string :=
  let n := nat_of_ascii c in
  if (c =? quote)%char || (c =? "\")%char then String "\" (String c EmptyString)
  else if (c =? "009")%char then "\t"
  else if (c =? "010")%char then "\n"
  else if (c =? "013")%char then "\r"
  else if (n <? 32)%nat || (n =? 127)%nat
       then String "\" (String "x" (String (hex_digit (n / 16))
              (String (hex_digit (n mod 16)) EmptyString)))
  else String c EmptyString.

Fixpoint concat_map_chars (f : ascii -> string) (s : string) : string :=
  match s with
  | EmptyString => EmptyString
  | String c s' => String.append (f c) (concat_map_chars f s')
  end.

(** [repr(s)] of a string: single quotes unless the string holds one and
    no double quote. *)
Definition dquote : ascii := ascii_of_nat 34.

Definition repr_str (s : string) : string :=
  let q : ascii :=
    if contains "'" s && negb (contains (String dquote EmptyString) s)
    then dquote else "'"%char in
  String q (String.append (concat_map_chars (repr_char q) s) (String q EmptyString)).

Definition str_of_scalar (x : scalar) : string :=
  match x with
  | SNone => "None"
  | SBool true => "True"
  | SBool false => "False"
  | SInt z => str_of_Z z
  | SFloat m k => str_of_decimal m k
  | SStr s => s
  end.

Definition repr_scalar (x : scalar) : string :=
  match x with
  | SStr s => repr_str s
  | _ => str_of_scalar x
  end.

Fixpoint join (sep : string) (l : list string) : string :=
  match l with
  | [] => EmptyString
  | [x] => x
  | x :: rest => String.append x (String.append sep (join sep rest))
  end.

(** [str(v)] *)
Definition str (v : value) : string :=
  match v with
  | VScalar x => str_of_scalar x
  | VList l => String.append "[" (String.append (join ", " (List.map repr_scalar l)) "]")
  end.

Definition Q_of_decimal (m : Z) (k : nat) : Q :=
  (inject_Z m * Qpow10 (- Z.of_nat k))%Q.

(** [float(v)] *)
Definition float (v : value) : result Q :=
  match v with
  | VScalar SNone => Raise TypeError
  | VScalar (SBool b) => Ok (if b then 1 else 0)%Q
  | VScalar (SInt z) => Ok (inject_Z z)
  | VScalar (SFloat m k) => Ok (Q_of_decimal m k)
  | VScalar (SStr s) =>
      match parse_float s with
      | Some q => Ok q
      | None => Raise ValueError
      end
  | VList _ => Raise TypeError
  end.

(** [for s in v] after the [isinstance(v, str)] wrapping of the matcher:
    the elements iterated over, or [TypeError] for a value that is neither
    a list nor a string. *)
Definition iter_wrapped (v : value) : result (list scalar) :=
  match v with
  | VScalar (SStr s) => Ok [SStr s]
  | VList l => Ok l
  | VScalar _ => Raise TypeError
  end.

End Py.

Notation "'do' x <- c ; k" := (Py.bind c (fun x => k))
  (at level 10, x name, c at level 100, k at level 200, only parsing).


(* ===================================================================== *)
(** ** Spec matcher: [techathon_app/agents/tech_agent.py]                 *)
(* ===================================================================== *)

Module Tech.
Import Py.

(** A catalogue product, as [find_best_matches] reads it. *)
Record sku : Type := {
  product_id : value;
  product_name : value;
  technical_specs : dict;
  commercial : dict
}.

(** An extracted RFP line item. *)
Record line_item : Type := {
  lot_id : value;
  raw_description : value;
  quantity : value;
  technical_attributes : dict
}.

Record breakdown_row : Type := {
  spec : string;
  requested : value;
  actual : value;
  status : string
}.

Record match_result : Type := {
  m_lot_id : value;
  rfp_description : value;
  matched_sku_id : value;
  matched_sku_name : value;
  match_score : Q;
  m_quantity : value;
  technical_breakdown : list breakdown_row;
  commercial_ref : dict
}.

Definition mem (x : string) (l : list string) : bool :=
  existsb (String.eqb x) l.

(** [RealTechAgent.normalize] *)
Definition normalize (v : value) : option string :=
  match v with
  | VScalar SNone => None
  | _ => Some (lower (strip (str v)))
  end.

Definition mat_map : list (string * string) :=
  [("aluminum", "aluminium"); ("al", "aluminium"); ("alu", "aluminium");
   ("cu", "copper"); ("copper", "copper"); ("aluminium", "aluminium")].

Fixpoint assoc (k : string) (l : list (string * string)) : option string :=
  match l with
  | [] => None
  | (k', v) :: rest => if (k =? k')%string then Some v else assoc k rest
  end.

(** [RealTechAgent.normalize_material] *)
Definition normalize_material (v : value) : option string :=
  match normalize v with
  | None => None
  | Some n0 =>
      if (n0 =? "")%string then None
      else
        let n := strip (strip_parens n0) in
        match assoc n mat_map with
        | Some m => Some m
        | None =>
            let tokens := split_ws n in
            if mem "al" tokens || mem "aluminum" tokens
               || mem "aluminium" tokens || mem "alu" tokens
            then Some "aluminium"
            else if mem "cu" tokens || mem "copper" tokens
            then Some "copper"
            else Some n
        end
  end.

(** [RealTechAgent.is_not_specified] *)
Definition is_not_specified (v : value) : bool :=
  match v with
  | VScalar SNone => true
  | VScalar (SStr s) =>
      let stripped := strip s in
      (upper stripped =? "NOT SPECIFIED")%string || (stripped =? "")%string
  | _ => false
  end.

(** [RealTechAgent.normalize_standard], applied to one entry of a list of
    standards. *)
Definition normalize_standard (s : scalar) : option string :=
  if negb (scalar_truthy s) then None
  else
    let s1 := lower (strip (str_of_scalar s)) in
    let s2 := strip_parens s1 in
    let s3 := strip_years s2 in
    Some (strip (replace "part-" "part " s3)).

(** [RealTechAgent.match_cross_section] *)
Definition match_cross_section (rfp_val inv_val : value) : result Q :=
  if is_not_specified rfp_val then Ok 1%Q
  else
    match float rfp_val, float inv_val with
    | Ok r, Ok i =>
        if Qeq_bool r 0 then Raise ZeroDivisionError
        else
          let score := (1 - Qabs (i - r) / r)%Q in
          Ok (Qmax 0 (round score 3))
    | _, _ => Ok 0%Q
    end.

(** The candidate side of [match_standards]: [isinstance] wrapping, then
    [(inv_list or [])], then iteration. *)
Definition inv_entries (inv_list : value) : result (list scalar) :=
  match inv_list with
  | VScalar (SStr s) => Ok [SStr s]
  | VList l => Ok l
  | VScalar x => if scalar_truthy x then Raise TypeError else Ok []
  end.

Definition satisfied (inv_norm : gset (option string)) (std : option string) : bool :=
  if bool_decide (std = Some "isi marked") then true
  else bool_decide (std ∈ inv_norm).

(** [RealTechAgent.match_standards] *)
Definition match_standards (rfp_list inv_list : value) : result Q :=
  if negb (truthy rfp_list) then Ok 1%Q
  else
    do rl <- iter_wrapped rfp_list;
    let rfp_norm := List.map normalize_standard rl in
    do il <- inv_entries inv_list;
    let inv_norm : gset (option string) :=
      list_to_set (List.map normalize_standard il) in
    let total := List.length rfp_norm in
    if Nat.eqb total 0 then Ok 1%Q
    else
      let per_std_weight := (1 / inject_Z (Z.of_nat total))%Q in
      let score :=
        fold_left
          (fun acc std => if satisfied inv_norm std then (acc + per_std_weight)%Q else acc)
          rfp_norm 0%Q in
      Ok (round score 3).

(** [RealTechAgent.normalize_voltage] *)
Definition normalize_voltage (v : value) : Q :=
  if negb (truthy v) then 0%Q
  else
    let s := strip (replace "V" "" (replace "VOLTS" "" (upper (str v)))) in
    match first_number_run s with
    | None => 0%Q
    | Some run =>
        match parse_float run with
        | None => 0%Q
        | Some val =>
            if contains "K" (upper (str v)) || Qltb val 50
            then (val * 1000)%Q
            else val
        end
    end.

(** The [weights] table of [calculate_weighted_score]. *)
Definition weights (field : string) : Q :=
  if (field =? "voltage_grade")%string then 20
  else if (field =? "core_count")%string then 15
  else if (field =? "cross_section_sqmm")%string then 15
  else if (field =? "conductor_material")%string then 15
  else if (field =? "insulation")%string then 10
  else if (field =? "sheath")%string then 5
  else if (field =? "armour_type")%string then 5
  else if (field =? "standards")%string then 15
  else 0.

(** Points added to [score] by each step of [calculate_weighted_score]. *)
Definition voltage_points (rfp inv : dict) : Q :=
  let rfp_v := normalize_voltage (get rfp "voltage_grade") in
  let inv_v := normalize_voltage (get inv "voltage_grade") in
  if Qeq_bool rfp_v inv_v then weights "voltage_grade"
  else if negb (Qeq_bool rfp_v 0) && negb (Qeq_bool inv_v 0)
          && Qltb (Qabs (rfp_v - inv_v) / rfp_v) (1 # 10)
  then (weights "voltage_grade" * (1 # 2))%Q
  else 0%Q.

Definition core_points (rfp inv : dict) : Q :=
  try_except
    (do r <- float (get_or rfp "core_count" (VInt 0));
     do i <- float (get_or inv "core_count" (VInt 0));
     Ok (if Qeq_bool r i then weights "core_count" else 0%Q))
    0%Q.

Definition size_points (rfp inv : dict) : result Q :=
  do sz_score <- match_cross_section (get rfp "cross_section_sqmm")
                                     (get inv "cross_section_sqmm");
  Ok (weights "cross_section_sqmm" * sz_score)%Q.

Definition material_points (rfp inv : dict) : Q :=
  let r_mat := normalize_material (get rfp "conductor_material") in
  let i_mat := normalize_material (get inv "conductor_material") in
  if bool_decide (r_mat = i_mat) then weights "conductor_material" else 0%Q.

Definition standards_points (rfp inv : dict) : result Q :=
  do std_score <- match_standards (get rfp "standards") (get inv "standards");
  Ok (weights "standards" * std_score)%Q.

Definition text_points (field : string) (rfp inv : dict) : Q :=
  match normalize (get rfp field), normalize (get inv field) with
  | Some r_val, Some i_val =>
      if negb (r_val =? "")%string && negb (i_val =? "")%string
         && (contains r_val i_val || contains i_val r_val)
      then weights field
      else 0%Q
  | _, _ => 0%Q
  end.

Definition max_score : Q :=
  (0 + weights "voltage_grade" + weights "core_count"
   + weights "cross_section_sqmm" + weights "conductor_material"
   + weights "standards" + weights "insulation" + weights "sheath"
   + weights "armour_type")%Q.

(** [RealTechAgent.calculate_weighted_score] *)
Definition calculate_weighted_score (rfp inv : dict) : result Q :=
  let score := (0 + voltage_points rfp inv)%Q in
  let score := (score + core_points rfp inv)%Q in
  do sz <- size_points rfp inv;
  let score := (score + sz)%Q in
  let score := (score + material_points rfp inv)%Q in
  do st <- standards_points rfp inv;
  let score := (score + st)%Q in
  let score := (score + text_points "insulation" rfp inv)%Q in
  let score := (score + text_points "sheath" rfp inv)%Q in
  let score := (score + text_points "armour_type" rfp inv)%Q in
  Ok (round (score / max_score * 100) 1).

(** [RealTechAgent.compute_match_score] *)
Definition compute_match_score (rfp_attrs inv_specs : dict) : result Q :=
  calculate_weighted_score rfp_attrs inv_specs.

Definition breakdown_fields : list string :=
  ["voltage_grade"; "core_count"; "cross_section_sqmm";
   "conductor_material"; "insulation"].

Definition breakdown_entry (rfp_specs sku_specs : dict) (f : string) : breakdown_row :=
  let r_val := get_or rfp_specs f (VStr "N/A") in
  let s_val := get_or sku_specs f (VStr "N/A") in
  let is_match :=
    if (f =? "conductor_material")%string then
      bool_decide (normalize_material (VStr (str r_val))
                   = normalize_material (VStr (str s_val)))
    else if (f =? "voltage_grade")%string then
      Qeq_bool (normalize_voltage r_val) (normalize_voltage s_val)
    else
      bool_decide (normalize (VStr (str r_val)) = normalize (VStr (str s_val))) in
  {| spec := title (replace "_" " " f);
     requested := r_val;
     actual := s_val;
     status := if is_match then "Match" else "Mismatch" |}.

(** [RealTechAgent.generate_breakdown] *)
Definition generate_breakdown (rfp_specs : dict) (best : option sku) : list breakdown_row :=
  match best with
  | None => []
  | Some s => List.map (breakdown_entry rfp_specs (technical_specs s)) breakdown_fields
  end.

(** The inner loop of [find_best_matches] over the inventory. *)
Fixpoint scan_inventory (attrs : dict) (inventory : list sku)
    (best_match : option sku) (highest_score : Q) : result (option sku * Q) :=
  match inventory with
  | [] => Ok (best_match, highest_score)
  | s :: rest =>
      do score <- compute_match_score attrs (technical_specs s);
      if Qltb highest_score score
      then scan_inventory attrs rest (Some s) score
      else scan_inventory attrs rest best_match highest_score
  end.

Definition match_item (inventory : list sku) (item : line_item) : result match_result :=
  do found <- scan_inventory (technical_attributes item) inventory None (-1)%Q;
  let best_match := fst found in
  let highest_score := snd found in
  Ok {| m_lot_id := lot_id item;
        rfp_description := raw_description item;
        matched_sku_id :=
          match best_match with
          | Some s => product_id s
          | None => VStr "NO_MATCH"
          end;
        matched_sku_name :=
          match best_match with
          | Some s => product_name s
          | None => VStr "No Suitable Product Found"
          end;
        match_score := highest_score;
        m_quantity := quantity item;
        technical_breakdown := generate_breakdown (technical_attributes item) best_match;
        commercial_ref :=
          match best_match with
          | Some s => commercial s
          | None => ∅
          end |}.

(** [RealTechAgent.find_best_matches] *)
Fixpoint find_best_matches (inventory : list sku) (line_items : list line_item)
    : result (list match_result) :=
  match line_items with
  | [] => Ok []
  | item :: rest =>
      do r <- match_item inventory item;
      do rs <- find_best_matches inventory rest;
      Ok (r :: rs)
  end.

(** The quantity and drum estimate of one item in
    [calculate_testing_costs]:
    [qty = float(item.get("quantity") or 0)], [drums = max(1, qty / 500)]. *)
Definition testing_qty (item : match_result) : result Q :=
  float (py_or (m_quantity item) (VInt 0)).

Definition testing_drums (qty : Q) : Q := Qmax 1 (qty / 500).

End Tech.

(* ===================================================================== *)
(** ** Cost composer and margin strategist:
       [resources/catalogue/agents/pricing_agent.py]                      *)
(* ===================================================================== *)

Module Pricing.
Import Py.

(** The [CONFIG] dictionary, one field per leaf. *)
Record config : Type := {
  ANNUAL_COST_OF_CAPITAL : Q;
  TARGET_NET_MARGIN : Q;
  MIN_SURVIVAL_MARGIN : Q;
  HEDGING_BUFFER_PCT : Q;
  GST_RATE : Q;
  FACTORY_OVERHEAD_RATE : Q;
  OVERLOAD_PREMIUM : Q;
  IDLE_DISCOUNT : Q;
  FUEL_SURCHARGE_PCT : Q;
  INSURANCE_PCT : Q;
  HANDLING_PER_TON : Q;
  STEEL_DRUM_COST : Q;
  WOODEN_DRUM_COST : Q;
  HV_BASE_COST : Q;
  LV_BASE_COST : Q
}.

Definition CONFIG : config := {|
  ANNUAL_COST_OF_CAPITAL := 12 # 100;
  TARGET_NET_MARGIN := 22 # 100;
  MIN_SURVIVAL_MARGIN := 4 # 100;
  HEDGING_BUFFER_PCT := 2 # 100;
  GST_RATE := 18 # 100;
  FACTORY_OVERHEAD_RATE := 12 # 100;
  OVERLOAD_PREMIUM := 5 # 100;
  IDLE_DISCOUNT := 3 # 100;
  FUEL_SURCHARGE_PCT := 10 # 100;
  INSURANCE_PCT := 5 # 1000;
  HANDLING_PER_TON := 500;
  STEEL_DRUM_COST := 12000;
  WOODEN_DRUM_COST := 4500;
  HV_BASE_COST := 15000;
  LV_BASE_COST := 5000
|}.

(** The numeric keys of [pricing_config] in [settings.json] that
    [PricingEngine.__init__] reads. *)
Record pricing_settings : Type := {
  base_margin_percent : option Q;
  packaging_cost_per_drum : option Q
}.

Definition set_target_margin (c : config) (m : Q) : config :=
  {| ANNUAL_COST_OF_CAPITAL := ANNUAL_COST_OF_CAPITAL c;
     TARGET_NET_MARGIN := m;
     MIN_SURVIVAL_MARGIN := MIN_SURVIVAL_MARGIN c;
     HEDGING_BUFFER_PCT := HEDGING_BUFFER_PCT c;
     GST_RATE := GST_RATE c;
     FACTORY_OVERHEAD_RATE := FACTORY_OVERHEAD_RATE c;
     OVERLOAD_PREMIUM := OVERLOAD_PREMIUM c;
     IDLE_DISCOUNT := IDLE_DISCOUNT c;
     FUEL_SURCHARGE_PCT := FUEL_SURCHARGE_PCT c;
     INSURANCE_PCT := INSURANCE_PCT c;
     HANDLING_PER_TON := HANDLING_PER_TON c;
     STEEL_DRUM_COST := STEEL_DRUM_COST c;
     WOODEN_DRUM_COST := WOODEN_DRUM_COST c;
     HV_BASE_COST := HV_BASE_COST c;
     LV_BASE_COST := LV_BASE_COST c |}.

Definition set_drum_costs (c : config) (wooden steel : Q) : config :=
  {| ANNUAL_COST_OF_CAPITAL := ANNUAL_COST_OF_CAPITAL c;
     TARGET_NET_MARGIN := TARGET_NET_MARGIN c;
     MIN_SURVIVAL_MARGIN := MIN_SURVIVAL_MARGIN c;
     HEDGING_BUFFER_PCT := HEDGING_BUFFER_PCT c;
     GST_RATE := GST_RATE c;
     FACTORY_OVERHEAD_RATE := FACTORY_OVERHEAD_RATE c;
     OVERLOAD_PREMIUM := OVERLOAD_PREMIUM c;
     IDLE_DISCOUNT := IDLE_DISCOUNT c;
     FUEL_SURCHARGE_PCT := FUEL_SURCHARGE_PCT c;
     INSURANCE_PCT := INSURANCE_PCT c;
     HANDLING_PER_TON := HANDLING_PER_TON c;
     STEEL_DRUM_COST := steel;
     WOODEN_DRUM_COST := wooden;
     HV_BASE_COST := HV_BASE_COST c;
     LV_BASE_COST := LV_BASE_COST c |}.

(** The configuration built by [PricingEngine.__init__]: a copy of
    [CONFIG] with the settings applied; [None] is an absent
    [settings.json]. *)
Definition engine_config (settings : option pricing_settings) : config :=
  match settings with
  | None => CONFIG
  | Some s =>
      let c1 :=
        match base_margin_percent s with
        | Some p => set_target_margin CONFIG (p / 100)%Q
        | None => CONFIG
        end in
      match packaging_cost_per_drum s with
      | Some d => set_drum_costs c1 d (d * (25 # 10))%Q
      | None => c1
      end
  end.

(** *** Reference tables.  A field read with [.get(k, d)] is an [option];
    a field read with [r[k]] is required. *)

Record bom_item : Type := {
  bi_material_id : value;
  bi_quantity : option value
}.

Record product : Type := {
  p_product_id : value;
  bill_of_materials : list bom_item;
  bill_of_materials_enriched : list bom_item;
  base_manufacturing_cost : option Q;
  approx_weight_kg_km : option Q
}.

Record material : Type := {
  material_id : value;
  material_name : value;
  base_cost_per_unit : option Q;
  current_market_factor : option Q;
  volatility_risk_level : value
}.

Record competitor : Type := {
  name : string;
  competitor_id : value;
  pricing_intelligence : option dict;
  performance_metrics : option dict;
  tier : option value
}.

Record zone : Type := {
  zone_code : value;
  zone_type : string;
  transport_rate_per_ton_km : option Q;
  surcharge_multiplier : option Q;
  risk_factor_percent : option Q
}.

Record client : Type := {
  client_name : string;
  payment_terms : option string;
  loyalty_status : value
}.

Record batch : Type := {
  production_line_id : option string;
  utilization_percent : Q
}.

Record test : Type := {
  test_id : value;
  test_name : string;
  base_test_cost : option Q;
  test_category : option string
}.

(** [Database.data] *)
Record database : Type := {
  PRODUCTS : list product;
  MATERIALS : list material;
  COMPETITORS : list competitor;
  LOGISTICS : list zone;
  CLIENTS : list client;
  FACTORY : list batch;
  TESTS : list test
}.

(** [a == b] on scalars: numbers compare by value, [True] and [False] are
    1 and 0. *)
Definition scalar_num (x : scalar) : option Q :=
  match x with
  | SBool b => Some (if b then 1 else 0)%Q
  | SInt z => Some (inject_Z z)
  | SFloat m k => Some (Q_of_decimal m k)
  | _ => None
  end.

Definition scalar_eq (a b : scalar) : bool :=
  match a, b with
  | SNone, SNone => true
  | SStr s, SStr t => (s =? t)%string
  | _, _ =>
      match scalar_num a, scalar_num b with
      | Some x, Some y => Qeq_bool x y
      | _, _ => false
      end
  end.

Fixpoint scalars_eq (l1 l2 : list scalar) : bool :=
  match l1, l2 with
  | [], [] => true
  | a :: r1, b :: r2 => scalar_eq a b && scalars_eq r1 r2
  | _, _ => false
  end.

Definition py_eq (a b : value) : bool :=
  match a, b with
  | VScalar x, VScalar y => scalar_eq x y
  | VList l1, VList l2 => scalars_eq l1 l2
  | _, _ => false
  end.

(** [next((x for x in l if p(x)), None)] *)
Definition first_match {A : Type} (p : A -> bool) (l : list A) : option A :=
  List.find p l.

(** Lines of the material breakdown and of the strategy rationale.  Each
    constructor stands for the string the source formats from its
    arguments. *)
Inductive bom_line : Type :=
| MasterMissing                                   (* "Product Master Missing - Using Estimate" *)
| HighVolatility (mat_name : value) (qty_per_meter risk_val : Q)
| MaterialRate (mat_name : value) (qty_per_meter final_rate : Q)
| BaseRateApplied (base_rate : Q).

Inductive note : Type :=
| FactoryOverload (avg_util : Q)
| FactoryIdle (avg_util : Q)
| FactoryNormal (avg_util : Q)
| StandardCapacity
| CreditCost (credit_days : Z) (amount : Z)
| LoyaltyDiscount (pct : Q)
| PriceWarAlert (rival : string)                  (* "... (Aggressive) -> -3% Margin" *)
| HighThreat (rival : string)                     (* "... (High Win Rate) -> -2% Margin" *)
| LowCostRival (rival : string)                   (* "... -> -4% Margin" *)
| MarketPressure (extra_rivals : nat) (buffer : Q)
| ZoneRisk (zone_name : string) (pct : Q)
| FloorHit.                                       (* "EMERGENCY: Margin Floor Hit (Survival Mode)" *)

Section Engine.

Variable db : database.
Variable cfg : config.

(** One component of the bill of materials in
    [calculate_micro_bom_cost]; the state is
    [(mat_cost_total, risk_buffer_total, breakdown)]. *)
Definition bom_step (total_qty_mtr : Q) (st : Q * Q * list bom_line) (item : bom_item)
    : result (Q * Q * list bom_line) :=
  let '(mat_cost_total, risk_buffer_total, breakdown) := st in
  let mat_id := bi_material_id item in
  do qty_per_meter <- float (default (VInt 0) (bi_quantity item));
  match first_match (fun m => py_eq (material_id m) mat_id) (MATERIALS db) with
  | Some mat =>
      let base_rate := default 0%Q (base_cost_per_unit mat) in
      let mkt_factor := default 1%Q (current_market_factor mat) in
      let final_rate := (base_rate * mkt_factor)%Q in
      let line_cost := (qty_per_meter * final_rate * total_qty_mtr)%Q in
      let mat_cost_total := (mat_cost_total + line_cost)%Q in
      if py_eq (volatility_risk_level mat) (VStr "High") then
        let risk_val := (line_cost * HEDGING_BUFFER_PCT cfg)%Q in
        Ok (mat_cost_total, (risk_buffer_total + risk_val)%Q,
            (breakdown ++ [HighVolatility (material_name mat) qty_per_meter risk_val])%list)
      else
        Ok (mat_cost_total, risk_buffer_total,
            (breakdown ++ [MaterialRate (material_name mat) qty_per_meter final_rate])%list)
  | None =>
      Ok ((mat_cost_total + qty_per_meter * 500 * total_qty_mtr)%Q,
          risk_buffer_total, breakdown)
  end.

Fixpoint bom_loop (total_qty_mtr : Q) (bom : list bom_item) (st : Q * Q * list bom_line)
    : result (Q * Q * list bom_line) :=
  match bom with
  | [] => Ok st
  | item :: rest =>
      do st' <- bom_step total_qty_mtr st item;
      bom_loop total_qty_mtr rest st'
  end.

(** [PricingEngine.calculate_micro_bom_cost]; the result is
    [(total_mfg_cost, total_weight_kg, breakdown, risk_buffer_total,
    mfg_overhead)]. *)
Definition calculate_micro_bom_cost (product_id : value) (total_qty_mtr : Q)
    : result (Q * Q * list bom_line * Q * Q) :=
  match first_match
          (fun p => (str (p_product_id p) =? str product_id)%string)
          (PRODUCTS db) with
  | None =>
      Ok ((total_qty_mtr * 1500)%Q, (total_qty_mtr * (25 # 10))%Q,
          [MasterMissing], 0%Q, 0%Q)
  | Some prod =>
      let bom :=
        match bill_of_materials prod with
        | [] => bill_of_materials_enriched prod
        | b => b
        end in
      do st <-
        match bom with
        | [] =>
            let base_rate := default 1000%Q (base_manufacturing_cost prod) in
            Ok ((base_rate * total_qty_mtr)%Q, 0%Q, [BaseRateApplied base_rate])
        | _ => bom_loop total_qty_mtr bom (0%Q, 0%Q, [])
        end;
      let '(mat_cost_total, risk_buffer_total, breakdown) := st in
      let mfg_overhead := (mat_cost_total * FACTORY_OVERHEAD_RATE cfg)%Q in
      let weight_per_km := default 1000%Q (approx_weight_kg_km prod) in
      let total_weight_kg := (weight_per_km / 1000 * total_qty_mtr)%Q in
      let total_mfg_cost := (mat_cost_total + mfg_overhead + risk_buffer_total)%Q in
      Ok (total_mfg_cost, total_weight_kg, breakdown, risk_buffer_total, mfg_overhead)
  end.

Definition Qsum (l : list Q) : Q := fold_left Qplus l 0%Q.

(** [PricingEngine.analyze_factory_load] *)
Definition analyze_factory_load (product_id : value) : Q * note :=
  let category := if contains "33KV" (upper (str product_id)) then "HV" else "LT" in
  let relevant_batches :=
    List.filter (fun b => contains category (default "" (production_line_id b)))
                (FACTORY db) in
  match relevant_batches with
  | [] => (0%Q, StandardCapacity)
  | _ =>
      let avg_util :=
        (Qsum (List.map utilization_percent relevant_batches)
         / inject_Z (Z.of_nat (List.length relevant_batches)))%Q in
      if Qltb 90 avg_util then (OVERLOAD_PREMIUM cfg, FactoryOverload avg_util)
      else if Qltb avg_util 30 then ((- IDLE_DISCOUNT cfg)%Q, FactoryIdle avg_util)
      else (0%Q, FactoryNormal avg_util)
  end.

(** The [keywords] dictionary of [determine_logistics_zone], in insertion
    order. *)
Definition keywords : list (string * string) :=
  [("hilly", "Hilly"); ("mountain", "Hilly"); ("remote", "Hilly");
   ("coastal", "Coastal"); ("port", "Coastal"); ("sea", "Coastal");
   ("desert", "Desert"); ("rajasthan", "Desert"); ("kutch", "Desert");
   ("island", "Island"); ("andaman", "Island");
   ("urban", "Urban"); ("city", "Urban"); ("metro", "Urban")].

Definition detect_zone_type (loc_lower : string) : string :=
  match List.find (fun kv => contains (fst kv) loc_lower) keywords with
  | Some kv => snd kv
  | None => "Plains_Highway"
  end.

(** [PricingEngine.determine_logistics_zone] *)
Definition determine_logistics_zone (location_name : value) : option zone :=
  let loc_lower := lower (str location_name) in
  let detected_type := detect_zone_type loc_lower in
  match first_match (fun z => contains (lower detected_type) (lower (zone_type z)))
                    (LOGISTICS db) with
  | Some z => Some z
  | None => first_match (fun z => py_eq (zone_code z) (VStr "Z-01")) (LOGISTICS db)
  end.

(** The tonnage billed by [calculate_logistics]. *)
Definition billed_tons (weight_kg : Q) : Q :=
  let tons := (weight_kg / 1000)%Q in
  if Qltb tons 1 then 1%Q else tons.

(** [PricingEngine.calculate_logistics]; the result is
    [(final_logistics, risk_pct, zone_type)] (the formula string is not
    kept). *)
Definition calculate_logistics (weight_kg distance_km : Q) (location_name : value)
    : result (Q * Q * string) :=
  do zone <-
    match determine_logistics_zone location_name with
    | Some z => Ok z
    | None =>
        match LOGISTICS db with
        | z :: _ => Ok z
        | [] => Raise IndexError
        end
    end;
  let rate := default 5%Q (transport_rate_per_ton_km zone) in
  let surcharge := default 1%Q (surcharge_multiplier zone) in
  let risk_pct := default 0%Q (risk_factor_percent zone) in
  let tons := billed_tons weight_kg in
  let base_freight := (tons * distance_km * rate)%Q in
  let total_freight := (base_freight * surcharge)%Q in
  let fuel := (total_freight * FUEL_SURCHARGE_PCT cfg)%Q in
  let insurance := (total_freight * 100 * INSURANCE_PCT cfg)%Q in
  let handling := (tons * HANDLING_PER_TON cfg)%Q in
  let final_logistics := (total_freight + fuel + insurance + handling)%Q in
  Ok (final_logistics, risk_pct, zone_type zone).

(** [PricingEngine.analyze_financials]; the result is
    [(interest_cost, credit_days, loyalty_disc)]. *)
Definition analyze_financials (client_name_in : value) (total_value : Q) : Q * Z * Q :=
  let found :=
    first_match
      (fun c => contains (lower (client_name c)) (lower (str client_name_in)))
      (CLIENTS db) in
  let '(credit_days, loyalty_disc) :=
    match found with
    | None => (30, 0%Q)
    | Some c =>
        let terms := default "30 Days" (payment_terms c) in
        let credit_days :=
          if contains "90" terms then 90
          else if contains "60" terms then 60
          else if contains "Advance" terms then 0
          else 30 in
        let loyalty_disc :=
          if py_eq (loyalty_status c) (VStr "Gold") then (- (3 # 100))%Q else 0%Q in
        let loyalty_disc :=
          if py_eq (loyalty_status c) (VStr "Silver") then (- (15 # 1000))%Q
          else loyalty_disc in
        (credit_days, loyalty_disc)
    end in
  let interest_cost :=
    (total_value * (ANNUAL_COST_OF_CAPITAL cfg * inject_Z credit_days / 365))%Q in
  (interest_cost, credit_days, loyalty_disc).

(** [rival[k1][k2]] on a nested object. *)
Definition subscript2 (o : option dict) (k : string) : result value :=
  match o with
  | None => Raise KeyError
  | Some d =>
      match d !! k with
      | Some v => Ok v
      | None => Raise KeyError
      end
  end.

(** ["Tier-3" in t] *)
Definition tier3_in (t : value) : result bool :=
  match t with
  | VScalar (SStr s) => Ok (contains "Tier-3" s)
  | VList l => Ok (existsb (scalar_eq (SStr "Tier-3")) l)
  | VScalar _ => Raise TypeError
  end.

(** The body of the [try] block of [solve_game_theory] for one matched
    rival: the concession it calls for and its note. *)
Definition rival_impact (rival : competitor) : result (Q * option note) :=
  do a <- subscript2 (pricing_intelligence rival) "aggression_score";
  do aggression <- float a;
  do w <-
    match performance_metrics rival with
    | None => Raise KeyError
    | Some d => Ok (get_or d "win_rate_against_us" (VInt 0))
    end;
  do win_rate <- float w;
  if Qle_bool 8 aggression then Ok ((3 # 100)%Q, Some (PriceWarAlert (name rival)))
  else if Qltb (6 # 10) win_rate then Ok ((2 # 100)%Q, Some (HighThreat (name rival)))
  else
    do t3 <- tier3_in (default (VStr "") (tier rival));
    if t3 then Ok ((4 # 100)%Q, Some (LowCostRival (name rival)))
    else Ok (0%Q, None).

Definition find_rival (comp_input : scalar) : option competitor :=
  first_match
    (fun c => contains (lower (name c)) (lower (str_of_scalar comp_input))
              || py_eq (competitor_id c) (VScalar comp_input))
    (COMPETITORS db).

(** One iteration of the loop of [solve_game_theory]; the state is
    [(max_impact, reasons)]. *)
Definition game_step (st : Q * list note) (comp_input : scalar) : Q * list note :=
  let '(max_impact, reasons) := st in
  match find_rival comp_input with
  | None => st
  | Some rival =>
      match rival_impact rival with
      | Raise _ => st
      | Ok (impact, n) =>
          if Qltb 0 impact then
            (if Qltb max_impact impact then impact else max_impact,
             (reasons ++ match n with Some x => [x] | None => [] end)%list)
          else st
      end
  end.

(** [PricingEngine.solve_game_theory] *)
Definition solve_game_theory (competitor_codes : value) : Q * list note :=
  let codes :=
    match competitor_codes with
    | VList l => l
    | VScalar _ => []
    end in
  let '(max_impact, reasons) := fold_left game_step codes (0%Q, []) in
  let count := List.length reasons in
  if (1 <? count)%nat then
    let buffer := (inject_Z (Z.of_nat (count - 1)) * (5 # 1000))%Q in
    ((- (max_impact + buffer))%Q, (reasons ++ [MarketPressure (count - 1) buffer])%list)
  else ((- max_impact)%Q, reasons).

(** *** [RealPricingAgent.process_pricing] *)

(** The fields of the RFP record that [process_pricing] reads: from
    [sales_agent_output] the client name, delivery location and distance,
    from [tech_agent_output] the matched items, test codes and competitor
    codes.  [None] is an absent key. *)
Record rfp_record : Type := {
  rfp_unique_id : value;
  summary_client_name : option value;
  delivery_location : option value;
  distance_from_factory_km : option value;
  matched_line_items : list Tech.match_result;
  required_test_codes : list scalar;
  competitor_codes : value
}.

(** One entry of [product_breakdowns]. *)
Record product_block : Type := {
  pb_qty : Q;
  pb_cost : Q;
  pb_pkg : Q;
  pb_test : Q
}.

Record pricing_output : Type := {
  final_bid_value : Z;
  final_margin : Q;
  total_cost_base : Z;
  total_material_cost : Z;
  total_logistics_cost : Z;
  total_packaging_cost : Z;
  total_testing_cost : Z;
  finance_cost : Z;
  manufacturing_breakdown : list bom_line;
  product_breakdowns : list product_block;
  rationale : list note;
  competitor_impact : Q;
  zone_risk : Q
}.

(** [qty = float(item.get('quantity') or 0)], then
    [if qty == 0: qty = 1000.0]. *)
Definition item_qty (item : Tech.match_result) : result Q :=
  do qty <- float (py_or (Tech.m_quantity item) (VInt 0));
  Ok (if Qeq_bool qty 0 then 1000%Q else qty).

(** [drums = math.ceil(qty / 500)] *)
Definition drums_for (qty : Q) : Z := ceil (qty / 500).

Definition is_33kv (pid : value) : bool := contains "33KV" (upper (str pid)).

(** Cost of the tests named by the tech agent, for one item. *)
Definition tests_cost (required_tests : list scalar) (drums : Z) : Q :=
  fold_left
    (fun t_cost t_code =>
       match first_match (fun t => py_eq (test_id t) (VScalar t_code)) (TESTS db) with
       | Some test_obj =>
           let c := default 0%Q (base_test_cost test_obj) in
           let c :=
             if contains "Routine" (default "" (test_category test_obj))
             then (c * inject_Z drums)%Q else c in
           (t_cost + c)%Q
       | None => t_cost
       end)
    required_tests 0%Q.

(** The aggregators of the costing loop. *)
Record totals : Type := {
  total_mfg : Q;
  total_pkg : Q;
  total_test : Q;
  total_weight_all : Q;
  audit_lines : list bom_line;
  blocks : list product_block
}.

Definition costing_step (required_tests : list scalar) (acc : totals)
    (item : Tech.match_result) : result totals :=
  let pid := Tech.matched_sku_id item in
  do qty <- item_qty item;
  do bom <- calculate_micro_bom_cost pid qty;
  let '(mfg, wt, breakdown, _, _) := bom in
  let drums := drums_for qty in
  let p_cost :=
    (inject_Z drums * (if is_33kv pid then STEEL_DRUM_COST cfg else WOODEN_DRUM_COST cfg))%Q in
  let t_cost :=
    match required_tests with
    | [] => (0 + (if is_33kv pid then HV_BASE_COST cfg else LV_BASE_COST cfg))%Q
    | _ => tests_cost required_tests drums
    end in
  Ok {| total_mfg := (total_mfg acc + mfg)%Q;
        total_pkg := (total_pkg acc + p_cost)%Q;
        total_test := (total_test acc + t_cost)%Q;
        total_weight_all := (total_weight_all acc + wt)%Q;
        audit_lines := (audit_lines acc ++ firstn 2 breakdown)%list;
        blocks := (blocks acc ++ [{| pb_qty := qty; pb_cost := mfg;
                                     pb_pkg := p_cost; pb_test := t_cost |}])%list |}.

Fixpoint costing_loop (required_tests : list scalar) (items : list Tech.match_result)
    (acc : totals) : result totals :=
  match items with
  | [] => Ok acc
  | item :: rest =>
      do acc' <- costing_step required_tests acc item;
      costing_loop required_tests rest acc'
  end.

(** Section C of [process_pricing], "Apply Adjustments": the target margin
    plus the four adjustments, clamped at the survival floor, and the
    rationale after the clamp. *)
Definition final_margin_stage (fact_adj_pct loy_disc comp_adj log_risk_pct : Q)
    (strategy_notes : list note) : Q * list note :=
  let target_margin := TARGET_NET_MARGIN cfg in
  let final_margin := (target_margin + fact_adj_pct + loy_disc + comp_adj + log_risk_pct)%Q in
  if Qltb final_margin (MIN_SURVIVAL_MARGIN cfg)
  then (MIN_SURVIVAL_MARGIN cfg, (strategy_notes ++ [FloorHit])%list)
  else (final_margin, strategy_notes).

Definition process_pricing (rfp : rfp_record) : result pricing_output :=
  let client_name := default (VStr "Unknown") (summary_client_name rfp) in
  let delivery_loc := default (VStr "Ex-Works") (delivery_location rfp) in
  do dist_km <- float (default (VInt 500) (distance_from_factory_km rfp));
  let items := matched_line_items rfp in
  (* A. detailed costing *)
  do t <- costing_loop (required_test_codes rfp) items
            {| total_mfg := 0; total_pkg := 0; total_test := 0;
               total_weight_all := 0; audit_lines := []; blocks := [] |};
  do lg <- calculate_logistics (total_weight_all t) dist_km delivery_loc;
  let '(log_cost, log_risk_pct, zone_name) := lg in
  (* B. strategic adjustments *)
  let strategy_notes : list note := [] in
  let first_pid :=
    match items with
    | item :: _ => Tech.matched_sku_id item
    | [] => VStr "UNKNOWN"
    end in
  let '(fact_adj_pct, fact_reason) := analyze_factory_load first_pid in
  let strategy_notes :=
    if negb (Qeq_bool fact_adj_pct 0) then (strategy_notes ++ [fact_reason])%list
    else strategy_notes in
  let base_cost := (total_mfg t + total_pkg t + total_test t + log_cost)%Q in
  let '(fin_cost, credit_days, loy_disc) := analyze_financials client_name base_cost in
  let strategy_notes :=
    if Qltb 0 fin_cost
    then (strategy_notes ++ [CreditCost credit_days (trunc fin_cost)])%list
    else strategy_notes in
  let strategy_notes :=
    if negb (Qeq_bool loy_disc 0)
    then (strategy_notes ++ [LoyaltyDiscount (loy_disc * 100)])%list
    else strategy_notes in
  let '(comp_adj, comp_notes) := solve_game_theory (competitor_codes rfp) in
  let strategy_notes := (strategy_notes ++ comp_notes)%list in
  let strategy_notes :=
    if Qltb 0 log_risk_pct
    then (strategy_notes ++ [ZoneRisk zone_name (log_risk_pct * 100)])%list
    else strategy_notes in
  (* C. final price *)
  let '(final_margin, strategy_notes) :=
    final_margin_stage fact_adj_pct loy_disc comp_adj log_risk_pct strategy_notes in
  let full_cost_base := (base_cost + fin_cost)%Q in
  let bid_value := (full_cost_base * (1 + final_margin))%Q in
  Ok {| final_bid_value := trunc bid_value;
        final_margin := final_margin;
        total_cost_base := trunc full_cost_base;
        total_material_cost := trunc (total_mfg t);
        total_logistics_cost := trunc log_cost;
        total_packaging_cost := trunc (total_pkg t);
        total_testing_cost := trunc (total_test t);
        finance_cost := trunc fin_cost;
        manufacturing_breakdown := audit_lines t;
        product_breakdowns := blocks t;
        rationale := strategy_notes;
        competitor_impact := comp_adj;
        zone_risk := log_risk_pct |}.

End Engine.

End Pricing.

(* ===================================================================== *)
(** ** The superseded engine:
       [legacy_agents/Agents/pricing_Agent/pricing_agent.py]              *)
(* ===================================================================== *)

Module LegacyPricing.
Import Py.

(** Comparison of a JSON number with a float; a value that is not a
    number does not compare. *)
Definition number (v : value) : result Q :=
  match v with
  | VScalar x =>
      match Pricing.scalar_num x with
      | Some q => Ok q
      | None => Raise TypeError
      end
  | VList _ => Raise TypeError
  end.

(** [rival[k1][k2]] *)
Definition subscript2 (o : option dict) (k : string) : result value :=
  Pricing.subscript2 o k.

(** One iteration of the loop of the legacy [solve_game_theory]; the
    state is [(margin_adj, reasons)]. *)
Definition game_step (db : Pricing.database) (st : Q * list Pricing.note)
    (comp_input : string) : result (Q * list Pricing.note) :=
  let '(margin_adj, reasons) := st in
  match Pricing.first_match
          (fun c => contains (lower (Pricing.name c)) (lower comp_input)
                    || Pricing.py_eq (Pricing.competitor_id c) (VStr comp_input))
          (Pricing.COMPETITORS db) with
  | None => Ok st
  | Some rival =>
      do a <- subscript2 (Pricing.pricing_intelligence rival) "aggression_score";
      do w <- subscript2 (Pricing.performance_metrics rival) "win_rate_against_us";
      do aggression <- number a;
      if Qle_bool 8 aggression
      then Ok ((margin_adj - (3 # 100))%Q,
               (reasons ++ [Pricing.PriceWarAlert (Pricing.name rival)])%list)
      else
        do win_rate <- number w;
        if Qltb (6 # 10) win_rate
        then Ok ((margin_adj - (2 # 100))%Q,
                 (reasons ++ [Pricing.HighThreat (Pricing.name rival)])%list)
        else
          do t <- match Pricing.tier rival with
                  | Some t => Ok t
                  | None => Raise KeyError
                  end;
          do t3 <- Pricing.tier3_in t;
          if t3
          then Ok ((margin_adj - (4 # 100))%Q,
                   (reasons ++ [Pricing.LowCostRival (Pricing.name rival)])%list)
          else Ok st
  end.

Fixpoint game_loop (db : Pricing.database) (names : list string)
    (st : Q * list Pricing.note) : result (Q * list Pricing.note) :=
  match names with
  | [] => Ok st
  | n :: rest =>
      do st' <- game_step db st n;
      game_loop db rest st'
  end.

(** The legacy [PricingEngine.solve_game_theory], on a list of competitor
    names. *)
Definition solve_game_theory (db : Pricing.database) (competitor_names : list string)
    : result (Q * list Pricing.note) :=
  game_loop db competitor_names (0%Q, []).

(** Section C of the legacy [run_brain]: the margin after the
    adjustments, clamped at [CONFIG["FINANCIAL"]["MIN_SURVIVAL_MARGIN"]]. *)
Definition final_margin_stage (fact_adj_pct loy_disc comp_adj log_risk_pct : Q)
    (strategy_notes : list Pricing.note) : Q * list Pricing.note :=
  let target_margin := Pricing.TARGET_NET_MARGIN Pricing.CONFIG in
  let final_margin := (target_margin + fact_adj_pct + loy_disc + comp_adj + log_risk_pct)%Q in
  if Qltb final_margin (Pricing.MIN_SURVIVAL_MARGIN Pricing.CONFIG)
  then (Pricing.MIN_SURVIVAL_MARGIN Pricing.CONFIG, (strategy_notes ++ [Pricing.FloorHit])%list)
  else (final_margin, strategy_notes).

End LegacyPricing.

(* ===================================================================== *)
(** ** Priority ranker: [techathon_app/agents/priority_agent.py]          *)
(* ===================================================================== *)

Module Priority.
Import Py.

(** A client of [client_master.json], as [get_relationship_score] reads
    it. *)
Record client : Type := {
  client_name : option string;
  loyalty_status : option value
}.

(** [breakdown] of a scored RFP. *)
Record score_breakdown : Type := {
  product_fit : Q;
  relationship : Q;
  urgency : Q;
  p_win_est : Q
}.

(** The value stored under [sales_agent_2_output]. *)
Inductive priority_output : Type :=
| Archived                                      (* rank -1, priority_score 0, status "Archived" *)
| Ranked (rank : Z) (priority_score : Q) (breakdown : score_breakdown).

(** The fields of an RFP record that the ranker reads or writes. *)
Record rfp : Type := {
  rfp_unique_id : string;
  is_archived : value;
  summary_client_name : option value;
  submission_deadline : value;
  matched_line_items : list Q;           (* the [match_score] of each matched item *)
  line_items_extracted : list value;     (* the [raw_description] of each extracted item *)
  sales_agent_2_output : option priority_output
}.

Definition set_output (r : rfp) (o : priority_output) : rfp :=
  {| rfp_unique_id := rfp_unique_id r;
     is_archived := is_archived r;
     summary_client_name := summary_client_name r;
     submission_deadline := submission_deadline r;
     matched_line_items := matched_line_items r;
     line_items_extracted := line_items_extracted r;
     sales_agent_2_output := Some o |}.

(** The rank an output carries; [Archived] carries the sentinel. *)
Definition rank_of (o : priority_output) : Z :=
  match o with
  | Archived => -1
  | Ranked k _ _ => k
  end.

(** An entry of [scored_rfps]. *)
Record scored : Type := {
  sid : string;
  total : Q;
  sbreakdown : score_breakdown
}.

Section Agent.

(** [self.inventory_tokens], [self.clients], [self.max_urgency_days]. *)
Variable inventory_tokens : list (gset string).
Variable clients : list client.
Variable max_urgency_days : Q.

(** The clock: [(datetime.fromisoformat(s) - now).days] for a deadline
    string, [None] when the string does not parse. *)
Variable days_left_of : string -> option Z.

(** [RealPriorityAgent._tokenize] *)
Definition _tokenize (text : value) : gset string :=
  if negb (truthy text) then ∅
  else list_to_set (word_runs (lower (str text))).

(** [RealPriorityAgent._calculate_similarity] *)
Definition _calculate_similarity (text_a : value) (tokens_b : gset string) : Q :=
  let tokens_a := _tokenize text_a in
  if bool_decide (tokens_a = ∅) || bool_decide (tokens_b = ∅) then 0%Q
  else
    let intersection := size (tokens_a ∩ tokens_b) in
    let union := size (tokens_a ∪ tokens_b) in
    (inject_Z (Z.of_nat intersection) / inject_Z (Z.of_nat union))%Q.

Definition Qsum (l : list Q) : Q := fold_left Qplus l 0%Q.

Definition item_fit_score (desc : value) : Q :=
  let best_sim :=
    fold_left
      (fun best inv_tok =>
         let sim := _calculate_similarity desc inv_tok in
         if Qltb best sim then sim else best)
      inventory_tokens 0%Q in
  if Qle_bool (65 # 100) best_sim then 1%Q
  else if Qle_bool (40 # 100) best_sim then (7 # 10)%Q
  else if Qle_bool (20 # 100) best_sim then (4 # 10)%Q
  else 0%Q.

(** [RealPriorityAgent.get_product_fit_score], on the descriptions of the
    items. *)
Definition get_product_fit_score (rfp_items : list value) : Q :=
  match rfp_items with
  | [] => 0%Q
  | _ =>
      let item_scores := List.map item_fit_score rfp_items in
      (Qsum item_scores / inject_Z (Z.of_nat (List.length item_scores)))%Q
  end.

Definition tier_score (status : value) : Q :=
  if Pricing.py_eq status (VStr "Gold") then (9 # 10)%Q
  else if Pricing.py_eq status (VStr "Silver") then (8 # 10)%Q
  else if Pricing.py_eq status (VStr "Bronze") then (7 # 10)%Q
  else (6 # 10)%Q.

(** [RealPriorityAgent.get_relationship_score] *)
Definition get_relationship_score (name_in : value) : Q :=
  let name_lower := lower (str name_in) in
  match List.find (fun c => contains (lower (default "" (client_name c))) name_lower)
                  clients with
  | Some c => tier_score (default (VStr "New") (loyalty_status c))
  | None => (5 # 10)%Q
  end.

(** [RealPriorityAgent.get_urgency_score]; a zero window raises inside the
    [try] block and yields 0. *)
Definition get_urgency_score (deadline_str : value) : Q :=
  if negb (truthy deadline_str) then 0%Q
  else
    match days_left_of (replace "Z" "+00:00" (str deadline_str)) with
    | None => 0%Q
    | Some days_left =>
        if days_left <? 0 then 0%Q
        else
          let d_clamped := Qmax 0 (Qmin (inject_Z days_left) max_urgency_days) in
          if Qeq_bool max_urgency_days 0 then 0%Q
          else (1 - d_clamped / max_urgency_days)%Q
    end.

(** The body of the scoring loop for one active RFP. *)
Definition score_rfp (r : rfp) : scored :=
  let p_score :=
    match matched_line_items r with
    | [] => get_product_fit_score (line_items_extracted r)
    | items =>
        let total_match := Qsum items in
        (total_match / inject_Z (Z.of_nat (List.length items)) / 100)%Q
    end in
  let r_score := get_relationship_score (default (VStr "") (summary_client_name r)) in
  let u_score := get_urgency_score (submission_deadline r) in
  let p_win := ((p_score + r_score) / 2)%Q in
  let gamma := (1 # 2)%Q in
  let total_score := (p_win * (1 + gamma * u_score))%Q in
  {| sid := rfp_unique_id r;
     total := total_score;
     sbreakdown := {| product_fit := round p_score 2;
                      relationship := round r_score 2;
                      urgency := round u_score 2;
                      p_win_est := round p_win 2 |} |}.

(** Step 1: archived records are stamped, the others scored. *)
Definition stamp_archived (r : rfp) : rfp :=
  if truthy (is_archived r) then set_output r Archived else r.

Definition score_active (rfp_list : list rfp) : list scored :=
  List.map score_rfp (List.filter (fun r => negb (truthy (is_archived r))) rfp_list).

(** Step 2: [scored_rfps.sort(key=lambda x: x['total'], reverse=True)], a
    stable sort: an entry goes before the first entry whose total is not
    greater than its own. *)
Fixpoint insert_desc (x : scored) (l : list scored) : list scored :=
  match l with
  | [] => [x]
  | y :: rest =>
      if Qltb (total x) (total y) then y :: insert_desc x rest
      else x :: l
  end.

Definition sort_desc (l : list scored) : list scored :=
  fold_right insert_desc [] l.

(** Step 3: [{item['id']: i+1 for i, item in enumerate(scored_rfps)}];
    a later entry with the same id overwrites an earlier one. *)
Fixpoint build_rank_map (l : list scored) (i : nat) (m : gmap string Z) : gmap string Z :=
  match l with
  | [] => m
  | x :: rest => build_rank_map rest (S i) (<[sid x := Z.of_nat (S i)]> m)
  end.

Definition rank_map_of (scored_rfps : list scored) : gmap string Z :=
  build_rank_map scored_rfps 0 ∅.

Definition assign_rank (scored_rfps : list scored) (rank_map : gmap string Z) (r : rfp) : rfp :=
  let rid := rfp_unique_id r in
  match rank_map !! rid with
  | Some k =>
      match List.find (fun x => (sid x =? rid)%string) scored_rfps with
      | Some score_data =>
          set_output r (Ranked k (round (total score_data * 100) 1) (sbreakdown score_data))
      | None => r
      end
  | None => r
  end.

(** [RealPriorityAgent.recalculate_all_priorities], from the list read
    from the database file to the list written back. *)
Definition recalculate_all_priorities (rfp_list : list rfp) : list rfp :=
  let stamped := List.map stamp_archived rfp_list in
  let scored_rfps := sort_desc (score_active rfp_list) in
  let rank_map := rank_map_of scored_rfps in
  List.map (assign_rank scored_rfps rank_map) stamped.

End Agent.

End Priority.

(* ===================================================================== *)
(** ** Competitor check, testing estimate and public entry point of the
       spec matcher: [techathon_app/agents/tech_agent.py]                 *)
(* ===================================================================== *)

Module TechPipeline.
Import Py.

(** A competitor of [competitors.json], as [analyze_competitors] reads
    it: [comp.get("name")] and [comp.get("colliding_internal_skus", [])]
    ([None] is an absent key). *)
Record competitor : Type := {
  comp_name : value;
  colliding_internal_skus : option value
}.

(** A test of [test_master.json], as [calculate_testing_costs] reads it;
    the cost is a number and the category a string when present. *)
Record test : Type := {
  test_id : scalar;
  mandatory_for : option value;
  base_test_cost : option Q;
  test_category : option string
}.

(** An entry of the competitor report; its [risk] is always "High". *)
Record competitor_row : Type := {
  cr_lot_id : value;
  cr_competitor : value;
  cr_comment : string
}.

(** An entry of the testing details. *)
Record test_detail : Type := {
  td_lot_id : value;
  test_cost : Q
}.

(** The result of [process_rfp_data] (the HTML report apart). *)
Record tech_output : Type := {
  matched_line_items : list Tech.match_result;
  competitor_analysis : list competitor_row;
  competitor_codes : list scalar;
  required_test_codes : list scalar;
  testing_cost_estimate : Q
}.

(** [x in container] *)
Definition py_in (x container : value) : result bool :=
  match container with
  | VList l => Ok (existsb (fun e => Pricing.py_eq x (VScalar e)) l)
  | VScalar (SStr s) =>
      match x with
      | VScalar (SStr t) => Ok (contains t s)
      | _ => Raise TypeError
      end
  | VScalar _ => Raise TypeError
  end.

(** [v.upper()] *)
Definition upper_of (v : value) : result string :=
  match v with
  | VScalar (SStr s) => Ok (upper s)
  | _ => Raise AttributeError
  end.

(** [s.add(x)] on a set kept as the list of its elements; the order of a
    set is not specified, and nothing below depends on it. *)
Definition set_add (x : scalar) (s : list scalar) : list scalar :=
  if existsb (Pricing.scalar_eq x) s then s else (s ++ [x])%list.

(** [set(l)]; a list is not hashable. *)
Fixpoint set_of (l : list value) (acc : list scalar) : result (list scalar) :=
  match l with
  | [] => Ok acc
  | VScalar x :: rest => set_of rest (set_add x acc)
  | VList _ :: _ => Raise TypeError
  end.

Section Agent.

(** [self.inventory], [self.competitors] and [self.tests]; a competitor
    or test file that does not hold a list is read as no entry. *)
Variable inventory : list Tech.sku.
Variable competitors : list competitor.
Variable tests : list test.

(** The inner loop of [analyze_competitors] for one item. *)
Fixpoint scan_competitors (item : Tech.match_result) (comps : list competitor)
    (comp_report : list competitor_row) : result (list competitor_row) :=
  match comps with
  | [] => Ok comp_report
  | comp :: rest =>
      let sku_id := Tech.matched_sku_id item in
      do hit <- py_in sku_id (default (VList []) (colliding_internal_skus comp));
      scan_competitors item rest
        (if hit
         then (comp_report
               ++ [{| cr_lot_id := Tech.m_lot_id item;
                      cr_competitor := comp_name comp;
                      cr_comment := String.append "Direct competitor for " (str sku_id) |}])%list
         else comp_report)
  end.

Fixpoint competitors_loop (matched_items : list Tech.match_result)
    (comp_report : list competitor_row) : result (list competitor_row) :=
  match matched_items with
  | [] => Ok comp_report
  | item :: rest =>
      do comp_report' <- scan_competitors item competitors comp_report;
      competitors_loop rest comp_report'
  end.

(** [RealTechAgent.analyze_competitors] *)
Definition analyze_competitors (matched_items : list Tech.match_result)
    : result (list competitor_row) :=
  competitors_loop matched_items [].

(** Whether a test applies to an item of the given category. *)
Definition applies (is_ht is_armoured is_frls : bool) (criteria : value) : result bool :=
  do all_cables <- py_in (VStr "All Cables") criteria;
  let is_lt := negb is_ht in
  let s := str criteria in
  Ok (all_cables
      || (is_ht && contains "HT Cables" s)
      || (is_lt && contains "LT Cables" s)
      || (is_armoured && contains "Armoured Cables" s)
      || (is_frls && (contains "FRLS" s || contains "LSZH" s))).

(** One test of the inner loop of [calculate_testing_costs]; the state is
    [(item_cost, all_test_codes)]. *)
Definition test_step (is_ht is_armoured is_frls : bool) (drums : Q)
    (st : Q * list scalar) (t : test) : result (Q * list scalar) :=
  let '(item_cost, all_test_codes) := st in
  do a <- applies is_ht is_armoured is_frls (default (VList []) (mandatory_for t));
  if a then
    let c := default 0%Q (base_test_cost t) in
    let c :=
      if contains "Routine" (default "" (test_category t)) then (c * drums)%Q else c in
    Ok ((item_cost + c)%Q, set_add (test_id t) all_test_codes)
  else Ok st.

Fixpoint tests_loop (is_ht is_armoured is_frls : bool) (drums : Q)
    (test_list : list test) (st : Q * list scalar) : result (Q * list scalar) :=
  match test_list with
  | [] => Ok st
  | t :: rest =>
      do st' <- test_step is_ht is_armoured is_frls drums st t;
      tests_loop is_ht is_armoured is_frls drums rest st'
  end.

(** One item of [calculate_testing_costs]; the state is
    [(total_cost, details, all_test_codes)]. *)
Definition testing_step (st : Q * list test_detail * list scalar)
    (item : Tech.match_result) : result (Q * list test_detail * list scalar) :=
  let '(total_cost, details, all_test_codes) := st in
  do sku_name <- upper_of (Tech.matched_sku_name item);
  do desc <- upper_of (Tech.rfp_description item);
  do qty <- Tech.testing_qty item;
  let drums := Tech.testing_drums qty in
  let is_ht :=
    contains "11KV" sku_name || contains "33KV" sku_name || contains "HT" sku_name in
  let is_armoured := contains "ARMOURED" sku_name || contains "ARMORED" sku_name in
  let is_frls := contains "FRLS" sku_name in
  do r <- tests_loop is_ht is_armoured is_frls drums tests (0%Q, all_test_codes);
  let '(item_cost, all_test_codes') := r in
  Ok ((total_cost + item_cost)%Q,
      (details ++ [{| td_lot_id := Tech.m_lot_id item; test_cost := item_cost |}])%list,
      all_test_codes').

Fixpoint testing_loop (matched_items : list Tech.match_result)
    (st : Q * list test_detail * list scalar)
    : result (Q * list test_detail * list scalar) :=
  match matched_items with
  | [] => Ok st
  | item :: rest =>
      do st' <- testing_step st item;
      testing_loop rest st'
  end.

(** [RealTechAgent.calculate_testing_costs]; the result is
    [(total_cost, details, list(all_test_codes))]. *)
Definition calculate_testing_costs (matched_items : list Tech.match_result)
    : result (Q * list test_detail * list scalar) :=
  testing_loop matched_items (0%Q, [], []).

(** [RealTechAgent.process_rfp_data], on the extracted line items. *)
Definition process_rfp_data (line_items : list Tech.line_item) : result tech_output :=
  do matches <- Tech.find_best_matches inventory line_items;
  do competitors_found <- analyze_competitors matches;
  do comp_codes <-
    set_of (List.filter truthy (List.map cr_competitor competitors_found)) [];
  do tc <- calculate_testing_costs matches;
  let '(cost, cost_details, test_codes) := tc in
  Ok {| matched_line_items := matches;
        competitor_analysis := competitors_found;
        competitor_codes := comp_codes;
        required_test_codes := test_codes;
        testing_cost_estimate := cost |}.

End Agent.

End TechPipeline.

(* ===================================================================== *)
(** ** The specification's wording and the sample data                    *)
(* ===================================================================== *)

Module Spec.
Import Py.

(** A computation returns a float equal to [q]. *)
Definition returns (r : result Q) (q : Q) : Prop :=
  match r with
  | Ok s => (s == q)%Q
  | Raise _ => False
  end.

(** *** Required standards (the multi-value rule)

    A requirement is met when it is the generic quality mark or when its
    normalized form is among the candidate's normalized standards. *)
Definition requirement_met (inv : list scalar) (req : scalar) : Prop :=
  Tech.normalize_standard req = Some "isi marked"
  \/ Tech.normalize_standard req ∈ List.map Tech.normalize_standard inv.

#[global] Instance requirement_met_dec (inv : list scalar) (req : scalar) :
  Decision (requirement_met inv req).
Proof. unfold requirement_met. apply _. Defined.

Definition satisfied_count (inv reqs : list scalar) : nat :=
  List.length (List.filter (fun r => bool_decide (requirement_met inv r)) reqs).

(** The score of an even split: each of the [n] requirements weighs
    [1 / n]. *)
Definition even_split_score (inv reqs : list scalar) : Q :=
  (inject_Z (Z.of_nat (satisfied_count inv reqs))
   * (1 / inject_Z (Z.of_nat (List.length reqs))))%Q.

(** *** The result entry of an item for which no product was found *)
Definition no_match_entry (item : Tech.line_item) : Tech.match_result :=
  {| Tech.m_lot_id := Tech.lot_id item;
     Tech.rfp_description := Tech.raw_description item;
     Tech.matched_sku_id := VStr "NO_MATCH";
     Tech.matched_sku_name := VStr "No Suitable Product Found";
     Tech.match_score := (-1)%Q;
     Tech.m_quantity := Tech.quantity item;
     Tech.technical_breakdown := [];
     Tech.commercial_ref := ∅ |}.

(** *** Sample catalogue entry and requirements *)
Definition sample_specs : dict :=
  list_to_map
    [("voltage_grade", VStr "1.1 kV"); ("core_count", VInt 3);
     ("cross_section_sqmm", VInt 400); ("conductor_material", VStr "Aluminium");
     ("insulation", VStr "XLPE"); ("sheath", VStr "PVC");
     ("armour_type", VStr "Steel Wire");
     ("standards", VList [SStr "IS 7098 (Part 1):1988"; SStr "IEC 60502"])].

(** The same requirements as [sample_specs], the voltage left unspecified. *)
Definition wildcard_voltage_attrs : dict :=
  <["voltage_grade" := VStr "NOT SPECIFIED"]> sample_specs.

(** Every requirement unspecified. *)
Definition all_wildcard_attrs : dict :=
  list_to_map
    [("voltage_grade", VStr "NOT SPECIFIED"); ("core_count", VStr "NOT SPECIFIED");
     ("cross_section_sqmm", VStr "NOT SPECIFIED");
     ("conductor_material", VStr "NOT SPECIFIED");
     ("insulation", VStr "NOT SPECIFIED"); ("sheath", VStr "NOT SPECIFIED");
     ("armour_type", VStr "NOT SPECIFIED"); ("standards", VStr "NOT SPECIFIED")].

(** *** Competitive adjustment (worst-case policy)

    The concession a competitor code calls for: 0 when no competitor
    record matches the code, or when the record cannot be read. *)
Definition concession_of (db : Pricing.database) (code : scalar) : Q :=
  match Pricing.find_rival db code with
  | None => 0%Q
  | Some rival =>
      match Pricing.rival_impact rival with
      | Ok (impact, _) => impact
      | Raise _ => 0%Q
      end
  end.

(** The concessions of the matched rivals, in the order of the codes. *)
Definition matched_concessions (db : Pricing.database) (codes : list scalar) : list Q :=
  List.filter (Qltb 0) (List.map (concession_of db) codes).

Definition largest (l : list Q) : Q := fold_right Qmax 0%Q l.

(** The single largest concession plus 0.5% per matched rival beyond the
    first, as a (negative) margin adjustment. *)
Definition worst_case_adjustment (db : Pricing.database) (codes : list scalar) : Q :=
  let cs := matched_concessions db codes in
  (- (largest cs + inject_Z (Z.of_nat (List.length cs - 1)) * (5 # 1000)))%Q.


(** *** Sample reference data *)
Definition rival (n id : string) (aggression : Z) (win_rate : value) (t : string)
    : Pricing.competitor :=
  {| Pricing.name := n;
     Pricing.competitor_id := VStr id;
     Pricing.pricing_intelligence := Some (list_to_map [("aggression_score", VInt aggression)]);
     Pricing.performance_metrics := Some (list_to_map [("win_rate_against_us", win_rate)]);
     Pricing.tier := Some (VStr t) |}.

Definition plains : Pricing.zone :=
  {| Pricing.zone_code := VStr "Z-01";
     Pricing.zone_type := "Plains_Highway";
     Pricing.transport_rate_per_ton_km := Some 4%Q;
     Pricing.surcharge_multiplier := Some 1%Q;
     Pricing.risk_factor_percent := Some 0%Q |}.

(** One "very aggressive" rival (aggression 9) and one "high win rate"
    rival (win rate 0.7). *)
Definition two_rivals_db : Pricing.database :=
  {| Pricing.PRODUCTS := [];
     Pricing.MATERIALS := [];
     Pricing.COMPETITORS :=
       [rival "Polycab" "C-01" 9 (VFloat 3 1) "Tier-1";
        rival "KEI" "C-02" 5 (VFloat 7 1) "Tier-1"];
     Pricing.LOGISTICS := [plains];
     Pricing.CLIENTS := [];
     Pricing.FACTORY := [];
     Pricing.TESTS := [] |}.

(** Every reference file missing: the loader leaves each table empty. *)
Definition empty_db : Pricing.database :=
  {| Pricing.PRODUCTS := [];
     Pricing.MATERIALS := [];
     Pricing.COMPETITORS := [];
     Pricing.LOGISTICS := [];
     Pricing.CLIENTS := [];
     Pricing.FACTORY := [];
     Pricing.TESTS := [] |}.

Definition item_with_quantity (q : value) : Tech.match_result :=
  {| Tech.m_lot_id := VStr "LOT-1";
     Tech.rfp_description := VStr "3C x 400 sqmm XLPE cable";
     Tech.matched_sku_id := VStr "NO_MATCH";
     Tech.matched_sku_name := VStr "No Suitable Product Found";
     Tech.match_score := (-1)%Q;
     Tech.m_quantity := q;
     Tech.technical_breakdown := [];
     Tech.commercial_ref := ∅ |}.

Definition sample_rfp (q : value) : Pricing.rfp_record :=
  {| Pricing.rfp_unique_id := VStr "RFP-1";
     Pricing.summary_client_name := Some (VStr "Metro Rail Corporation");
     Pricing.delivery_location := Some (VStr "Pune");
     Pricing.distance_from_factory_km := Some (VInt 500);
     Pricing.matched_line_items := [item_with_quantity q];
     Pricing.required_test_codes := [];
     Pricing.competitor_codes := VList [SStr "Polycab"; SStr "KEI"] |}.

(** *** Ranking *)

(** A record takes part in the ranking when it is not archived. *)
Definition active (r : Priority.rfp) : bool :=
  negb (truthy (Priority.is_archived r)).

(** The rank written on a record, if any. *)
Definition rank_assigned (r : Priority.rfp) : option Z :=
  option_map Priority.rank_of (Priority.sales_agent_2_output r).

(** The ranks 1..n. *)
Definition first_ranks (n : nat) : list (option Z) :=
  List.map (fun k => Some (Z.of_nat k)) (seq 1 n).

(** [x] is ranked before [y] only if its composite score is not
    smaller. *)
Definition not_below (x y : Priority.scored) : Prop :=
  (Priority.total y <= Priority.total x)%Q.

Definition sample_record (id : string) (archived : bool) (scores : list Q)
    : Priority.rfp :=
  {| Priority.rfp_unique_id := id;
     Priority.is_archived := VScalar (SBool archived);
     Priority.summary_client_name := Some (VStr "Metro Rail Corporation");
     Priority.submission_deadline := VNone;
     Priority.matched_line_items := scores;
     Priority.line_items_extracted := [];
     Priority.sales_agent_2_output := None |}.

(** An agent with an empty catalogue and client table, the default
    window of 90 days and no readable deadline. *)
Definition sample_ranking (rfp_list : list Priority.rfp) : list Priority.rfp :=
  Priority.recalculate_all_priorities [] [] 90%Q (fun _ => None) rfp_list.

(** *** Readable reference data: the quantities of a bill of materials
    convert to numbers. *)
Definition bom_readable (bom : list Pricing.bom_item) : Prop :=
  Forall (fun it => is_ok (float (default (VInt 0) (Pricing.bi_quantity it))) = true) bom.

(** *** Sample catalogue, line item and reference tables *)
Definition sample_sku : Tech.sku :=
  {| Tech.product_id := VStr "AP-HT-001";
     Tech.product_name := VStr "11kV 3C x 400 sqmm XLPE Armoured Cable";
     Tech.technical_specs := sample_specs;
     Tech.commercial := ∅ |}.

(** A second product, of a smaller cross-section. *)
Definition smaller_sku : Tech.sku :=
  {| Tech.product_id := VStr "AP-HT-002";
     Tech.product_name := VStr "11kV 3C x 300 sqmm XLPE Armoured Cable";
     Tech.technical_specs := <["cross_section_sqmm" := VInt 300]> sample_specs;
     Tech.commercial := ∅ |}.

Definition sample_item (attrs : dict) (q : value) : Tech.line_item :=
  {| Tech.lot_id := VStr "LOT-1";
     Tech.raw_description := VStr "3C x 400 sqmm XLPE cable";
     Tech.quantity := q;
     Tech.technical_attributes := attrs |}.

Definition sample_competitors : list TechPipeline.competitor :=
  [{| TechPipeline.comp_name := VStr "Polycab";
      TechPipeline.colliding_internal_skus := Some (VList [SStr "AP-HT-001"]) |};
   {| TechPipeline.comp_name := VStr "KEI";
      TechPipeline.colliding_internal_skus := Some (VList [SStr "AP-LT-009"]) |}].

Definition sample_tests : list TechPipeline.test :=
  [{| TechPipeline.test_id := SStr "T-01";
      TechPipeline.mandatory_for := Some (VList [SStr "All Cables"]);
      TechPipeline.base_test_cost := Some 1000%Q;
      TechPipeline.test_category := Some "Routine Test" |};
   {| TechPipeline.test_id := SStr "T-02";
      TechPipeline.mandatory_for := Some (VList [SStr "HT Cables"]);
      TechPipeline.base_test_cost := Some 25000%Q;
      TechPipeline.test_category := Some "Type Test" |};
   {| TechPipeline.test_id := SStr "T-03";
      TechPipeline.mandatory_for := Some (VList [SStr "LT Cables"]);
      TechPipeline.base_test_cost := Some 8000%Q;
      TechPipeline.test_category := Some "Type Test" |}].

(** A product master with one product and its two materials, one of them
    of high volatility. *)
Definition cable_db : Pricing.database :=
  {| Pricing.PRODUCTS :=
       [{| Pricing.p_product_id := VStr "AP-HT-001";
           Pricing.bill_of_materials :=
             [{| Pricing.bi_material_id := VStr "M-AL";
                 Pricing.bi_quantity := Some (VFloat 12 1) |};
              {| Pricing.bi_material_id := VStr "M-XLPE";
                 Pricing.bi_quantity := Some (VFloat 3 1) |}];
           Pricing.bill_of_materials_enriched := [];
           Pricing.base_manufacturing_cost := None;
           Pricing.approx_weight_kg_km := Some 4500%Q |}];
     Pricing.MATERIALS :=
       [{| Pricing.material_id := VStr "M-AL";
           Pricing.material_name := VStr "Aluminium";
           Pricing.base_cost_per_unit := Some 210%Q;
           Pricing.current_market_factor := Some (105 # 100)%Q;
           Pricing.volatility_risk_level := VStr "High" |};
        {| Pricing.material_id := VStr "M-XLPE";
           Pricing.material_name := VStr "XLPE compound";
           Pricing.base_cost_per_unit := Some 150%Q;
           Pricing.current_market_factor := None;
           Pricing.volatility_risk_level := VStr "Low" |}];
     Pricing.COMPETITORS := Pricing.COMPETITORS two_rivals_db;
     Pricing.LOGISTICS := [plains];
     Pricing.CLIENTS := [];
     Pricing.FACTORY := [];
     Pricing.TESTS := [] |}.

(** A matched item of [quantity] metres of the sample product. *)
Definition matched_sample (q : value) : Tech.match_result :=
  {| Tech.m_lot_id := VStr "LOT-1";
     Tech.rfp_description := VStr "3C x 400 sqmm XLPE cable";
     Tech.matched_sku_id := VStr "AP-HT-001";
     Tech.matched_sku_name := VStr "11kV 3C x 400 sqmm XLPE Armoured Cable";
     Tech.match_score := 100%Q;
     Tech.m_quantity := q;
     Tech.technical_breakdown := [];
     Tech.commercial_ref := ∅ |}.

Definition cable_rfp (q : value) : Pricing.rfp_record :=
  {| Pricing.rfp_unique_id := VStr "RFP-2";
     Pricing.summary_client_name := Some (VStr "Metro Rail Corporation");
     Pricing.delivery_location := Some (VStr "Pune");
     Pricing.distance_from_factory_km := Some (VInt 500);
     Pricing.matched_line_items := [matched_sample q];
     Pricing.required_test_codes := [];
     Pricing.competitor_codes := VList [SStr "Polycab"; SStr "KEI"] |}.

(** *** The concession a note of the competitive rationale stands for *)
Definition note_concession (n : Pricing.note) : Q :=
  match n with
  | Pricing.PriceWarAlert _ => (3 # 100)%Q
  | Pricing.HighThreat _ => (2 # 100)%Q
  | Pricing.LowCostRival _ => (4 # 100)%Q
  | _ => 0%Q
  end.

End Spec.

(* ===================================================================== *)
(** ** Facts about the builtins                                           *)
(* ===================================================================== *)

Section RoundFacts.
Import Py.
Local Open Scope Q_scope.

Lemma Qltb_lt (x y : Q) : Qltb x y = true <-> x < y.
Proof.
  unfold Qltb. rewrite negb_true_iff.
  split; intro H.
  - apply Qnot_le_lt. intro Hle. apply Qle_bool_iff in Hle. congruence.
  - destruct (Qle_bool y x) eqn:E; [|reflexivity].
    apply Qle_bool_iff in E. exfalso. apply (Qlt_not_le _ _ H E).
Qed.

Lemma Qltb_ge (x y : Q) : Qltb x y = false <-> y <= x.
Proof.
  unfold Qltb. rewrite negb_false_iff. apply Qle_bool_iff.
Qed.

Lemma Qpow10_pos (e : Z) : 0 < Qpow10 e.
Proof. unfold Qpow10. apply Qpower_0_lt. reflexivity. Qed.

Lemma round_half_even_comp (x y : Q) :
  x == y -> round_half_even x = round_half_even y.
Proof.
  intro H. unfold round_half_even.
  rewrite (Qfloor_comp _ _ H).
  assert (Hc : (x - inject_Z (Qfloor y) ?= 1 # 2) = (y - inject_Z (Qfloor y) ?= 1 # 2)).
  { apply Qcompare_comp; [rewrite H|]; reflexivity. }
  rewrite Hc. reflexivity.
Qed.

Lemma round_half_even_nonneg (x : Q) : 0 <= x -> (0 <= round_half_even x)%Z.
Proof.
  intro H. unfold round_half_even.
  assert (Hf : (0 <= Qfloor x)%Z).
  { change 0%Z with (Qfloor 0). apply Qfloor_resp_le, H. }
  destruct (x - inject_Z (Qfloor x) ?= 1 # 2); [destruct (Z.even _)| |]; lia.
Qed.


Lemma round_comp (x y : Q) (n : nat) : x == y -> round x n = round y n.
Proof.
  intro H. unfold round.
  rewrite (round_half_even_comp (x * Qpow10 (Z.of_nat n)) (y * Qpow10 (Z.of_nat n)));
    [reflexivity|]. rewrite H. reflexivity.
Qed.

Lemma round_nonneg (x : Q) (n : nat) : 0 <= x -> 0 <= round x n.
Proof.
  intro H. unfold round.
  pose proof (Qpow10_pos (Z.of_nat n)) as Hp.
  apply Qle_shift_div_l; [assumption|]. rewrite Qmult_0_l.
  change 0 with (inject_Z 0). rewrite <- Zle_Qle.
  apply round_half_even_nonneg.
  apply Qmult_le_0_compat; [assumption|]. apply Qlt_le_weak, Hp.
Qed.




End RoundFacts.

(* ===================================================================== *)
(** ** Spec matcher: field scores                                         *)
(* ===================================================================== *)

Section MatcherFacts.
Import Py Tech.
Local Open Scope Q_scope.

(** A string that [float] accepts starts, once stripped, with a digit, a
    sign or a decimal point. *)
Lemma parse_float_first_char (s : string) (q : Q) :
  parse_float s = Some q ->
  exists c t, c_strip s = String c t /\ numeric_start c = true.
Proof.
  unfold parse_float. destruct (c_strip s) as [|c t] eqn:E.
  - simpl. discriminate.
  - intro H. exists c, t. split; [reflexivity|].
    destruct (numeric_start c) eqn:Ec; [reflexivity|exfalso].
    unfold numeric_start in Ec.
    apply orb_false_iff in Ec as [Ec Hdot].
    apply orb_false_iff in Ec as [Ec Hplus].
    apply orb_false_iff in Ec as [Hdig Hminus].
    unfold split_sign in H. rewrite Hminus, Hplus in H.
    simpl in H. rewrite Hdig in H. simpl in H. rewrite Hdot in H.
    simpl in H. discriminate.
Qed.

Lemma numeric_start_not_space (c : ascii) :
  numeric_start c = true -> is_space c = false /\ is_c_space c = false.
Proof.
  destruct c as [[] [] [] [] [] [] [] []]; vm_compute; intro H;
    first [discriminate H | split; reflexivity].
Qed.

Lemma c_rstrip_head (c c' : ascii) (u v : string) :
  c_rstrip (String c u) = String c' v -> c' = c.
Proof.
  simpl. destruct (is_c_space c && (c_rstrip u =? "")%string); [discriminate|].
  intro H. inversion H. reflexivity.
Qed.

Lemma c_lstrip_head (s : string) (c : ascii) (t : string) :
  c_lstrip s = String c t -> is_space c = false ->
  exists t', lstrip s = String c t'.
Proof.
  induction s as [|a s IH]; simpl; [discriminate|].
  intros H Hc. destruct (is_c_space a) eqn:Ea.
  - assert (Hs : is_space a = true).
    { unfold is_c_space in Ea. unfold is_space.
      apply orb_true_iff in Ea as [Ea|Ea]; [rewrite Ea; reflexivity|].
      apply Ascii.eqb_eq in Ea. subst a. reflexivity. }
    rewrite Hs. apply IH; assumption.
  - inversion H. subst a t. rewrite Hc. exists s. reflexivity.
Qed.

(** The first character of a number is also the first character left by
    [strip]. *)
Lemma numeric_strip_head (s : string) (c : ascii) (t : string) :
  c_strip s = String c t -> numeric_start c = true ->
  exists t', strip s = String c t'.
Proof.
  intros Hs Hc. destruct (numeric_start_not_space c Hc) as [Hsp Hcsp].
  unfold c_strip in Hs.
  destruct (c_lstrip s) as [|c0 u] eqn:El; [discriminate|].
  pose proof (c_rstrip_head _ _ _ _ Hs) as ->.
  destruct (c_lstrip_head s c0 u El Hsp) as [t' Ht'].
  unfold strip. rewrite Ht'. simpl. rewrite Hsp. simpl. eexists. reflexivity.
Qed.

Lemma wildcard_first_char (c : ascii) (t : string) :
  numeric_start c = true ->
  (upper (String c t) =? "NOT SPECIFIED")%string = false.
Proof.
  intro H. simpl.
  destruct (upper_char c =? "N")%char eqn:E; [|reflexivity].
  exfalso. apply Ascii.eqb_eq in E.
  unfold upper_char in E.
  destruct (is_lower c) eqn:El.
  - destruct c as [[] [] [] [] [] [] [] []]; vm_compute in H, E, El; congruence.
  - subst c. vm_compute in H. discriminate.
Qed.

(** A value that converts to a float is never the wildcard. *)
Lemma float_not_wildcard (v : value) (r : Q) :
  float v = Ok r -> is_not_specified v = false.
Proof.
  destruct v as [[| b | z | m k | s] | l]; simpl; try discriminate; try reflexivity.
  destruct (parse_float s) as [q|] eqn:E; [|discriminate]. intros _.
  destruct (parse_float_first_char s q E) as (c & t & Hs & Hc).
  destruct (numeric_strip_head s c t Hs Hc) as [t' Ht'].
  rewrite Ht'. rewrite (wildcard_first_char c t' Hc). reflexivity.
Qed.

(** The wildcard rule of the cross-section field. *)
Lemma match_cross_section_wildcard (rfp_val inv_val : value) :
  is_not_specified rfp_val = true -> match_cross_section rfp_val inv_val = Ok 1.
Proof. intro H. unfold match_cross_section. rewrite H. reflexivity. Qed.



End MatcherFacts.

Section StandardsFacts.
Import Py Tech Spec.
Local Open Scope Q_scope.

Lemma satisfied_iff (inv : list scalar) (req : scalar) :
  satisfied (list_to_set (List.map normalize_standard inv)) (normalize_standard req)
  = bool_decide (requirement_met inv req).
Proof.
  unfold satisfied, requirement_met.
  destruct (bool_decide (normalize_standard req = Some "isi marked")) eqn:E.
  - apply bool_decide_eq_true in E. symmetry. apply bool_decide_eq_true. left. exact E.
  - apply bool_decide_eq_false in E.
    apply bool_decide_ext. rewrite elem_of_list_to_set. tauto.
Qed.

(** The accumulation loop adds one share per satisfied requirement. *)
Lemma fold_shares (inv : list scalar) (w : Q) (reqs : list scalar) (a : Q) :
  fold_left
    (fun acc std =>
       if satisfied (list_to_set (List.map normalize_standard inv)) std
       then acc + w else acc)
    (List.map normalize_standard reqs) a
  == a + inject_Z (Z.of_nat (satisfied_count inv reqs)) * w.
Proof.
  revert a. unfold satisfied_count.
  induction reqs as [|r reqs IH]; intro a; simpl.
  - ring.
  - rewrite IH. rewrite satisfied_iff.
    destruct (bool_decide (requirement_met inv r)); simpl List.length.
    + rewrite Nat2Z.inj_succ, <- Z.add_1_r, inject_Z_plus. ring.
    + reflexivity.
Qed.

Lemma iter_wrapped_nonempty (v : value) (reqs : list scalar) :
  truthy v = true -> iter_wrapped v = Ok reqs -> reqs <> [].
Proof.
  destruct v as [[| b | z | m k | s] | l]; simpl; try discriminate.
  - intros _ H. inversion H. discriminate.
  - intros Hl H. inversion H. subst. destruct reqs; [discriminate|discriminate].
Qed.

(** C5.  For a non-empty list of required standards [match_standards]
    gives each requirement the weight [1 / n] and adds it exactly for the
    requirements that are met: the generic quality mark, or a normalized
    form found among the candidate's normalized standards.  Two
    requirements of which exactly one is met score 0.5. *)
Theorem match_standards_even_split (rfp_list inv_list : value)
    (reqs inv : list scalar) :
  truthy rfp_list = true ->
  iter_wrapped rfp_list = Ok reqs ->
  inv_entries inv_list = Ok inv ->
  exists s : Q,
    match_standards rfp_list inv_list = Ok s
    /\ s == round (even_split_score inv reqs) 3
    /\ (List.length reqs = 2%nat -> satisfied_count inv reqs = 1%nat -> s == 1 # 2).
Proof.
  intros Ht Hr Hi.
  pose proof (iter_wrapped_nonempty _ _ Ht Hr) as Hne.
  unfold match_standards. rewrite Ht, Hr, Hi. simpl.
  rewrite length_map.
  destruct (Nat.eqb (List.length reqs) 0) eqn:E.
  - apply Nat.eqb_eq in E. destruct reqs; [congruence|discriminate].
  - eexists. split; [reflexivity|].
    assert (Hs : forall w,
      round (fold_left
        (fun acc std =>
           if satisfied (list_to_set (List.map normalize_standard inv)) std
           then acc + w else acc)
        (List.map normalize_standard reqs) 0) 3
      = round (inject_Z (Z.of_nat (satisfied_count inv reqs)) * w) 3).
    { intro w. apply round_comp. rewrite fold_shares. ring. }
    split.
    + rewrite Hs. reflexivity.
    + intros Hlen Hcnt. rewrite Hs. unfold even_split_score.
      rewrite Hlen, Hcnt. reflexivity.
Qed.

(** Two required standards, one of them carried by the product. *)
Lemma match_standards_even_split_witness :
  exists s : Q,
    match_standards (VList [SStr "IS 7098 (Part 1):1988"; SStr "IEC 61034"])
                    (VList [SStr "is 7098"; SStr "IEC 60502"]) = Ok s
    /\ s == 1 # 2.
Proof.
  destruct (match_standards_even_split
              (VList [SStr "IS 7098 (Part 1):1988"; SStr "IEC 61034"])
              (VList [SStr "is 7098"; SStr "IEC 60502"])
              [SStr "IS 7098 (Part 1):1988"; SStr "IEC 61034"]
              [SStr "is 7098"; SStr "IEC 60502"]
              eq_refl eq_refl eq_refl) as (s & Hs & _ & Hhalf).
  exists s. split; [exact Hs|]. apply Hhalf; vm_compute; reflexivity.
Defined.

End StandardsFacts.

Section CatalogFacts.
Import Py Tech Spec.
Local Open Scope Q_scope.

(** C9.  With an empty catalogue [find_best_matches] still returns one
    entry per line item: sku id "NO_MATCH", the name "No Suitable Product
    Found", an empty technical breakdown and the score -1, which lies
    outside the range 0..100 of a match score. *)
Theorem find_best_matches_empty_catalog (line_items : list line_item) :
  find_best_matches [] line_items = Ok (List.map no_match_entry line_items)
  /\ List.length (List.map no_match_entry line_items) = List.length line_items
  /\ Forall
       (fun r =>
          matched_sku_id r = VStr "NO_MATCH"
          /\ matched_sku_name r = VStr "No Suitable Product Found"
          /\ technical_breakdown r = []
          /\ match_score r = -1
          /\ ~ (0 <= match_score r <= 100))
       (List.map no_match_entry line_items).
Proof.
  split; [|split].
  - induction line_items as [|item rest IH]; simpl.
    + reflexivity.
    + rewrite IH. reflexivity.
  - apply length_map.
  - apply List.Forall_forall. intros r Hin.
    apply List.in_map_iff in Hin as (item & <- & _). simpl.
    repeat split; try reflexivity.
    intros [H _]. revert H. apply Qlt_not_le. reflexivity.
Qed.

(** Every step of the weighted score adds a non-negative number of
    points, so a score is never negative. *)
Lemma voltage_points_nonneg (rfp inv : dict) : 0 <= voltage_points rfp inv.
Proof.
  unfold voltage_points.
  destruct (Qeq_bool _ _); [vm_compute; discriminate|].
  destruct (_ && _); vm_compute; discriminate.
Qed.

Lemma core_points_nonneg (rfp inv : dict) : 0 <= core_points rfp inv.
Proof.
  unfold core_points, try_except, bind.
  destruct (float _); [|vm_compute; discriminate].
  destruct (float _); [|vm_compute; discriminate].
  destruct (Qeq_bool _ _); vm_compute; discriminate.
Qed.

Lemma material_points_nonneg (rfp inv : dict) : 0 <= material_points rfp inv.
Proof. unfold material_points. destruct (bool_decide _); vm_compute; discriminate. Qed.

Lemma weights_nonneg (f : string) : 0 <= weights f.
Proof. unfold weights. repeat destruct (_ =? _)%string; vm_compute; discriminate. Qed.

Lemma text_points_nonneg (f : string) (rfp inv : dict) : 0 <= text_points f rfp inv.
Proof.
  unfold text_points.
  destruct (normalize _); [|apply Qle_refl].
  destruct (normalize _); [|apply Qle_refl].
  destruct (_ && _); [apply weights_nonneg|apply Qle_refl].
Qed.

Lemma match_cross_section_nonneg (r i : value) (s : Q) :
  match_cross_section r i = Ok s -> 0 <= s.
Proof.
  unfold match_cross_section.
  destruct (is_not_specified _); [intro H; inversion H; discriminate|].
  destruct (float r) as [x|]; [|intro H; inversion H; apply Qle_refl].
  destruct (float i) as [y|]; [|intro H; inversion H; apply Qle_refl].
  destruct (Qeq_bool x 0); [discriminate|]. intro H; inversion H. apply Q.le_max_l.
Qed.

Lemma match_standards_nonneg (r i : value) (s : Q) :
  match_standards r i = Ok s -> 0 <= s.
Proof.
  unfold match_standards.
  destruct (negb _); [intro H; inversion H; discriminate|].
  destruct (iter_wrapped _) as [rl|]; [|discriminate]. simpl.
  destruct (inv_entries _) as [il|]; [|discriminate]. simpl.
  destruct (Nat.eqb _ _) eqn:En; [intro H; inversion H; discriminate|].
  apply Nat.eqb_neq in En.
  intro H; inversion H. apply round_nonneg.
  rewrite fold_shares.
  assert (Hc : 0 <= inject_Z (Z.of_nat (satisfied_count il rl)))
    by (change 0 with (inject_Z 0); rewrite <- Zle_Qle; lia).
  assert (Hn : 0 <= 1 / inject_Z (Z.of_nat (List.length (List.map normalize_standard rl)))).
  { apply Qle_shift_div_l.
    - change 0 with (inject_Z 0). rewrite <- Zlt_Qlt. lia.
    - rewrite Qmult_0_l. discriminate. }
  pose proof (Qmult_le_0_compat _ _ Hc Hn). lra.
Qed.

Lemma calculate_weighted_score_nonneg (rfp inv : dict) (q : Q) :
  calculate_weighted_score rfp inv = Ok q -> 0 <= q.
Proof.
  unfold calculate_weighted_score, size_points, standards_points.
  destruct (match_cross_section _ _) as [sz|] eqn:Esz; [|discriminate]. simpl.
  destruct (match_standards _ _) as [st|] eqn:Est; [|discriminate]. simpl.
  intro H. inversion H. subst q. clear H.
  apply match_cross_section_nonneg in Esz.
  apply match_standards_nonneg in Est.
  pose proof (voltage_points_nonneg rfp inv).
  pose proof (core_points_nonneg rfp inv).
  pose proof (material_points_nonneg rfp inv).
  pose proof (text_points_nonneg "insulation"%string rfp inv).
  pose proof (text_points_nonneg "sheath"%string rfp inv).
  pose proof (text_points_nonneg "armour_type"%string rfp inv).
  apply round_nonneg.
  apply Qmult_le_0_compat; [|discriminate].
  apply Qle_shift_div_l; [reflexivity|].
  change (weights "cross_section_sqmm") with 15.
  change (weights "standards") with 15.
  lra.
Qed.

End CatalogFacts.

Section WildcardFacts.
Import Py Tech Spec.
Local Open Scope Q_scope.

(** The wildcard rule holds for the cross-section field: an unspecified
    requirement earns the full weight whatever the candidate holds. *)
Lemma size_points_wildcard (rfp inv : dict) :
  is_not_specified (get rfp "cross_section_sqmm") = true ->
  returns (size_points rfp inv) (weights "cross_section_sqmm").
Proof.
  intro H. unfold size_points. rewrite (match_cross_section_wildcard _ _ H).
  simpl. ring.
Qed.

(** A missing (or empty) list of standards earns the full weight. *)
Lemma standards_points_missing (rfp inv : dict) :
  truthy (get rfp "standards") = false ->
  returns (standards_points rfp inv) (weights "standards").
Proof.
  intro H. unfold standards_points, match_standards. rewrite H.
  simpl. ring.
Qed.

(** C1.  [calculate_weighted_score] does not give full credit for an
    unspecified requirement.  With the voltage requirement set to the
    wildcard and every other requirement equal to the product's own
    value, the voltage step adds 0 of its 20 points and the score is 80,
    where the product scored against its own specification reaches 100.
    With every requirement set to the wildcard, only the cross-section
    step adds its weight: the score is 15. *)
Theorem wildcard_voltage_scores_zero :
  is_not_specified (get wildcard_voltage_attrs "voltage_grade") = true
  /\ voltage_points wildcard_voltage_attrs sample_specs == 0
  /\ weights "voltage_grade" == 20
  /\ returns (calculate_weighted_score wildcard_voltage_attrs sample_specs) 80
  /\ returns (calculate_weighted_score sample_specs sample_specs) 100
  /\ voltage_points all_wildcard_attrs sample_specs == 0
  /\ core_points all_wildcard_attrs sample_specs == 0
  /\ returns (size_points all_wildcard_attrs sample_specs) 15
  /\ material_points all_wildcard_attrs sample_specs == 0
  /\ returns (standards_points all_wildcard_attrs sample_specs) 0
  /\ text_points "insulation" all_wildcard_attrs sample_specs == 0
  /\ text_points "sheath" all_wildcard_attrs sample_specs == 0
  /\ text_points "armour_type" all_wildcard_attrs sample_specs == 0
  /\ returns (calculate_weighted_score all_wildcard_attrs sample_specs) 15.
Proof.
  repeat split; vm_compute; reflexivity.
Qed.

End WildcardFacts.

(* ===================================================================== *)
(** ** Cost composer and margin strategist                                *)
(* ===================================================================== *)

Section LogisticsFacts.
Import Py Pricing Spec.
Local Open Scope Q_scope.

Variable db : database.
Variable cfg : config.



Lemma billed_tons_heavy (weight_kg : Q) :
  1000 <= weight_kg -> billed_tons weight_kg = weight_kg / 1000.
Proof.
  intro H. unfold billed_tons.
  assert (Hge : 1 <= weight_kg / 1000).
  { apply Qle_shift_div_l; [reflexivity|]. lra. }
  apply Qltb_ge in Hge. rewrite Hge. reflexivity.
Qed.

(** The zone [calculate_logistics] bills in, when the table has one. *)
Lemma billing_zone_exists (location_name : value) :
  LOGISTICS db <> [] ->
  exists z,
    In z (LOGISTICS db)
    /\ match determine_logistics_zone db location_name with
       | Some z' => Ok z'
       | None => match LOGISTICS db with
                 | z' :: _ => Ok z'
                 | [] => Raise IndexError
                 end
       end = Ok z.
Proof.
  intro Hne. unfold determine_logistics_zone, first_match.
  set (by_type := fun z : zone =>
         contains (lower (detect_zone_type (lower (str location_name))))
                  (lower (zone_type z))).
  set (by_code := fun z : zone => py_eq (zone_code z) (VStr "Z-01")).
  destruct (find by_type (LOGISTICS db)) as [z|] eqn:E1.
  - exists z. split; [apply (find_some _ _ E1)|reflexivity].
  - destruct (find by_code (LOGISTICS db)) as [z|] eqn:E2.
    + exists z. split; [apply (find_some _ _ E2)|reflexivity].
    + destruct (LOGISTICS db) as [|z l]; [congruence|].
      exists z. split; [left; reflexivity|reflexivity].
Qed.


End LogisticsFacts.


Section MarginFacts.
Import Py Pricing Spec.
Local Open Scope Q_scope.

(** The settings never touch the survival floor. *)
Lemma engine_config_floor (settings : option pricing_settings) :
  MIN_SURVIVAL_MARGIN (engine_config settings) = 4 # 100.
Proof.
  destruct settings as [[[m|] [d|]]|]; reflexivity.
Qed.

Lemma final_margin_stage_floor (cfg : config) (f l c r : Q) (notes : list note) :
  MIN_SURVIVAL_MARGIN cfg <= fst (final_margin_stage cfg f l c r notes).
Proof.
  unfold final_margin_stage.
  destruct (Qltb _ _) eqn:E; simpl.
  - apply Qle_refl.
  - apply Qltb_ge in E. exact E.
Qed.

Lemma final_margin_stage_clamped (cfg : config) (f l c r : Q) (notes : list note) :
  TARGET_NET_MARGIN cfg + f + l + c + r < MIN_SURVIVAL_MARGIN cfg ->
  final_margin_stage cfg f l c r notes
  = (MIN_SURVIVAL_MARGIN cfg, (notes ++ [FloorHit])%list).
Proof.
  intro H. unfold final_margin_stage.
  apply Qltb_lt in H. rewrite H. reflexivity.
Qed.

Lemma final_margin_stage_kept (cfg : config) (f l c r : Q) (notes : list note) :
  MIN_SURVIVAL_MARGIN cfg <= TARGET_NET_MARGIN cfg + f + l + c + r ->
  final_margin_stage cfg f l c r notes
  = (TARGET_NET_MARGIN cfg + f + l + c + r, notes).
Proof.
  intro H. unfold final_margin_stage.
  apply Qltb_ge in H. rewrite H. reflexivity.
Qed.

(** The margin a successful run returns is the one the final stage
    produced. *)
Lemma process_pricing_margin (db : database) (cfg : config) (rfp : rfp_record)
    (out : pricing_output) :
  process_pricing db cfg rfp = Ok out ->
  exists f l c r notes,
    (final_margin out, rationale out) = final_margin_stage cfg f l c r notes.
Proof.
  unfold process_pricing.
  destruct (float _) as [dist_km|]; [|discriminate]. simpl.
  destruct (costing_loop _ _ _ _ _) as [t|]; [|discriminate]. simpl.
  destruct (calculate_logistics _ _ _ _ _) as [[[log_cost log_risk] zn]|];
    [|discriminate]. simpl.
  destruct (analyze_factory_load _ _ _) as [fact_adj fact_reason].
  destruct (analyze_financials _ _ _ _) as [[fin_cost credit_days] loy_disc].
  destruct (solve_game_theory _ _) as [comp_adj comp_notes].
  match goal with
  | |- context [final_margin_stage cfg ?f ?l ?c ?r ?n] =>
      destruct (final_margin_stage cfg f l c r n) as [fm ns] eqn:E;
      intro H; inversion H; subst out; simpl;
      exists f, l, c, r, n; symmetry; exact E
  end.
Qed.

(** C2.  The margin stage never returns a margin below the survival floor
    of 4%, whatever the factory-load, loyalty, competitive and zone-risk
    adjustments; when the sum falls below the floor, the floor is
    returned and the floor-hit entry is appended to the rationale;
    otherwise the sum and the rationale are returned unchanged.  Every
    bid [process_pricing] returns carries such a margin.  The legacy
    engine clamps in the same way. *)
Theorem margin_never_below_floor (db : database)
    (settings : option pricing_settings) (rfp : rfp_record)
    (f l c r : Q) (notes : list note) :
  let cfg := engine_config settings in
  MIN_SURVIVAL_MARGIN cfg = 4 # 100
  /\ 4 # 100 <= fst (final_margin_stage cfg f l c r notes)
  /\ (TARGET_NET_MARGIN cfg + f + l + c + r < 4 # 100 ->
      final_margin_stage cfg f l c r notes
      = (4 # 100, (notes ++ [FloorHit])%list))
  /\ (4 # 100 <= TARGET_NET_MARGIN cfg + f + l + c + r ->
      final_margin_stage cfg f l c r notes
      = (TARGET_NET_MARGIN cfg + f + l + c + r, notes))
  /\ (forall out, process_pricing db cfg rfp = Ok out -> 4 # 100 <= final_margin out)
  /\ 4 # 100 <= fst (LegacyPricing.final_margin_stage f l c r notes)
  /\ ((22 # 100) + f + l + c + r < 4 # 100 ->
      LegacyPricing.final_margin_stage f l c r notes
      = (4 # 100, (notes ++ [FloorHit])%list)).
Proof.
  intro cfg.
  pose proof (engine_config_floor settings) as Hfloor. fold cfg in Hfloor.
  split; [exact Hfloor|].
  split; [rewrite <- Hfloor; apply final_margin_stage_floor|].
  split; [rewrite <- Hfloor; apply final_margin_stage_clamped|].
  split; [rewrite <- Hfloor; apply final_margin_stage_kept|].
  split.
  - intros out Hout.
    destruct (process_pricing_margin db cfg rfp out Hout) as (f' & l' & c' & r' & n' & E).
    rewrite <- Hfloor.
    change (final_margin out) with (fst (final_margin out, rationale out)).
    rewrite E. apply final_margin_stage_floor.
  - split.
    + unfold LegacyPricing.final_margin_stage.
      destruct (Qltb _ _) eqn:E; simpl.
      * apply Qle_refl.
      * apply Qltb_ge in E. exact E.
    + intro H. unfold LegacyPricing.final_margin_stage.
      apply Qltb_lt in H. simpl in H |- *. rewrite H. reflexivity.
Qed.

End MarginFacts.

(** A base margin of 5% set in the settings and an idle factory (-3%):
    the sum of 2% is raised to the floor and the entry is appended; the
    sample RFP is priced with a margin of at least 4%. *)
Lemma margin_never_below_floor_witness :
  Pricing.final_margin_stage
    (Pricing.engine_config
       (Some {| Pricing.base_margin_percent := Some 5%Q;
                Pricing.packaging_cost_per_drum := None |}))
    (- (3 # 100)) 0 0 0 [Pricing.StandardCapacity]
  = ((4 # 100)%Q, [Pricing.StandardCapacity; Pricing.FloorHit])
  /\ exists out,
       Pricing.process_pricing Spec.two_rivals_db
         (Pricing.engine_config
            (Some {| Pricing.base_margin_percent := Some 5%Q;
                     Pricing.packaging_cost_per_drum := None |}))
         (Spec.sample_rfp (Py.VInt 5000)) = Py.Ok out
       /\ (4 # 100 <= Pricing.final_margin out)%Q.
Proof.
  pose proof (margin_never_below_floor Spec.two_rivals_db
                (Some {| Pricing.base_margin_percent := Some 5%Q;
                         Pricing.packaging_cost_per_drum := None |})
                (Spec.sample_rfp (Py.VInt 5000))
                (- (3 # 100))%Q 0%Q 0%Q 0%Q [Pricing.StandardCapacity]) as H.
  cbv zeta in H. destruct H as (_ & _ & Hclamp & _ & Hout & _).
  split.
  - apply Hclamp. reflexivity.
  - destruct (Pricing.process_pricing Spec.two_rivals_db
                (Pricing.engine_config
                   (Some {| Pricing.base_margin_percent := Some 5%Q;
                            Pricing.packaging_cost_per_drum := None |}))
                (Spec.sample_rfp (Py.VInt 5000))) as [out|e] eqn:E.
    + exists out. split; [reflexivity|]. apply Hout. reflexivity.
    + exfalso. vm_compute in E. discriminate.
Defined.

Section GameTheoryFacts.
Import Py Pricing Spec.
Local Open Scope Q_scope.

Variable db : database.

(** A rival calls for one of the three discrete concessions, or none. *)
Lemma rival_impact_values (rival : competitor) (impact : Q) (n : option note) :
  rival_impact rival = Ok (impact, n) ->
  (impact = 3 # 100 /\ n = Some (PriceWarAlert (name rival)))
  \/ (impact = 2 # 100 /\ n = Some (HighThreat (name rival)))
  \/ (impact = 4 # 100 /\ n = Some (LowCostRival (name rival)))
  \/ (impact = 0 /\ n = None).
Proof.
  unfold rival_impact.
  destruct (subscript2 _ _) as [a|]; [|discriminate]. simpl.
  destruct (float a) as [aggression|]; [|discriminate]. simpl.
  destruct (performance_metrics rival) as [d|]; [|discriminate]. simpl.
  destruct (float _) as [win_rate|]; [|discriminate]. simpl.
  destruct (Qle_bool 8 aggression).
  { intro H; inversion H. left. split; reflexivity. }
  destruct (Qltb (6 # 10) win_rate).
  { intro H; inversion H. right; left. split; reflexivity. }
  destruct (tier3_in _) as [[|]|]; simpl; try discriminate.
  - intro H; inversion H. right; right; left. split; reflexivity.
  - intro H; inversion H. right; right; right. split; reflexivity.
Qed.

(** One iteration, in terms of the concession of the code. *)
Lemma game_step_spec (max_impact : Q) (reasons : list note) (code : scalar) :
  let c := concession_of db code in
  if Qltb 0 c then
    exists n,
      game_step db (max_impact, reasons) code
      = (if Qltb max_impact c then c else max_impact, (reasons ++ [n])%list)
  else game_step db (max_impact, reasons) code = (max_impact, reasons).
Proof.
  unfold concession_of, game_step.
  destruct (find_rival db code) as [rival|]; [|reflexivity].
  destruct (rival_impact rival) as [[impact n]|] eqn:E; [|reflexivity].
  destruct (rival_impact_values rival impact n E)
    as [[-> ->]|[[-> ->]|[[-> ->]|[-> ->]]]]; simpl;
    first [reflexivity | eexists; reflexivity].
Qed.

Lemma largest_nonneg (l : list Q) : 0 <= largest l.
Proof.
  induction l as [|x l IH]; simpl; [apply Qle_refl|].
  eapply Qle_trans; [exact IH|apply Q.le_max_r].
Qed.

(** The loop keeps the largest concession seen so far and one reason per
    matched rival. *)
Lemma game_loop_spec (codes : list scalar) (max_impact : Q) (reasons : list note) :
  0 <= max_impact ->
  exists m rs,
    fold_left (game_step db) codes (max_impact, reasons) = (m, rs)
    /\ m == Qmax max_impact (largest (matched_concessions db codes))
    /\ List.length rs
       = (List.length reasons + List.length (matched_concessions db codes))%nat.
Proof.
  revert max_impact reasons.
  induction codes as [|code codes IH]; intros max_impact reasons Hm.
  - exists max_impact, reasons. simpl. split; [reflexivity|]. split.
    + symmetry. apply Q.max_l. exact Hm.
    + lia.
  - simpl fold_left. unfold matched_concessions. simpl List.map. simpl List.filter.
    pose proof (game_step_spec max_impact reasons code) as Hs. simpl in Hs.
    destruct (Qltb 0 (concession_of db code)) eqn:Ec.
    + destruct Hs as [n Hs]. rewrite Hs.
      apply Qltb_lt in Ec.
      assert (Hm' : 0 <= (if Qltb max_impact (concession_of db code)
                          then concession_of db code else max_impact)).
      { destruct (Qltb max_impact _); [apply Qlt_le_weak, Ec|exact Hm]. }
      destruct (IH _ (reasons ++ [n])%list Hm') as (m & rs & Hf & Hv & Hl).
      exists m, rs. split; [exact Hf|]. split.
      * rewrite Hv. fold (matched_concessions db codes). simpl largest.
        assert (Hx : (if Qltb max_impact (concession_of db code)
                      then concession_of db code else max_impact)
                     == Qmax max_impact (concession_of db code)).
        { destruct (Qltb max_impact _) eqn:E.
          - apply Qltb_lt in E. symmetry. apply Q.max_r, Qlt_le_weak, E.
          - apply Qltb_ge in E. symmetry. apply Q.max_l, E. }
        rewrite Hx. symmetry. apply Q.max_assoc.
      * rewrite Hl. fold (matched_concessions db codes).
        rewrite length_app. simpl. lia.
    + rewrite Hs.
      destruct (IH max_impact reasons Hm) as (m & rs & Hf & Hv & Hl).
      exists m, rs. split; [exact Hf|]. split; assumption.
Qed.

(** The engine in use follows the worst-case policy: the adjustment is
    the largest concession among the matched rivals plus 0.5% per matched
    rival beyond the first, with the negative sign. *)
Lemma solve_game_theory_worst_case (codes : list scalar) :
  fst (solve_game_theory db (VList codes)) == worst_case_adjustment db codes.
Proof.
  unfold solve_game_theory, worst_case_adjustment.
  destruct (game_loop_spec codes 0 [] (Qle_refl 0)) as (m & rs & Hf & Hv & Hl).
  rewrite Hf. simpl in Hl.
  assert (Hm : m == largest (matched_concessions db codes)).
  { rewrite Hv. apply Q.max_r, largest_nonneg. }
  rewrite Hl.
  destruct (1 <? List.length (matched_concessions db codes))%nat eqn:E; simpl.
  - rewrite Hm. reflexivity.
  - apply Nat.ltb_ge in E.
    replace (List.length (matched_concessions db codes) - 1)%nat with 0%nat by lia.
    rewrite Hm. simpl. ring.
Qed.

(** A value that is not a list is read as no competitor at all. *)
Lemma solve_game_theory_not_a_list (x : scalar) :
  solve_game_theory db (VScalar x) = (- 0, []).
Proof. reflexivity. Qed.

End GameTheoryFacts.

Section GameTheoryLegacy.
Import Py Pricing Spec.
Local Open Scope Q_scope.

(** C3.  For one "very aggressive" rival (3%) and one "high win rate"
    rival (2%) the engine in use returns -(3% + 0.5%) = -3.5%, the
    largest concession plus the market-pressure penalty, but the legacy
    [solve_game_theory] subtracts every concession and returns -5%. *)
Theorem legacy_solve_game_theory_sums :
  concession_of two_rivals_db (SStr "Polycab") == 3 # 100
  /\ concession_of two_rivals_db (SStr "KEI") == 2 # 100
  /\ fst (solve_game_theory two_rivals_db (VList [SStr "Polycab"; SStr "KEI"]))
     == - (35 # 1000)
  /\ worst_case_adjustment two_rivals_db [SStr "Polycab"; SStr "KEI"] == - (35 # 1000)
  /\ (exists adj reasons,
        LegacyPricing.solve_game_theory two_rivals_db ["Polycab"; "KEI"]%string
        = Ok (adj, reasons)
        /\ adj == - (5 # 100)
        /\ ~ adj == - (35 # 1000)).
Proof.
  split; [vm_compute; reflexivity|].
  split; [vm_compute; reflexivity|].
  split; [vm_compute; reflexivity|].
  split; [vm_compute; reflexivity|].
  eexists. eexists. split; [vm_compute; reflexivity|].
  split; [vm_compute; reflexivity|].
  vm_compute. discriminate.
Qed.

End GameTheoryLegacy.

Section QuantityFacts.
Import Py Pricing Spec.
Local Open Scope Q_scope.

Lemma ceil_positive (x : Q) : 0 < x -> (1 <= ceil x)%Z.
Proof.
  intro H. unfold ceil.
  pose proof (Qle_ceiling x) as Hc.
  assert (Hz : inject_Z 0 < inject_Z (Qceiling x)).
  { eapply Qlt_le_trans; [exact H|exact Hc]. }
  rewrite <- Zlt_Qlt in Hz. lia.
Qed.

Lemma drums_for_positive (qty : Q) : 0 < qty -> (1 <= drums_for qty)%Z.
Proof.
  intro H. unfold drums_for. apply ceil_positive.
  apply Qlt_shift_div_l; [reflexivity|]. lra.
Qed.

Lemma testing_drums_floor (qty : Q) : 1 <= Tech.testing_drums qty.
Proof. unfold Tech.testing_drums. apply Q.le_max_l. Qed.

(** A missing, empty or zero quantity becomes 1000 in the pricing stage
    and 0 in the testing stage. *)
Lemma falsy_quantity (item : Tech.match_result) :
  truthy (Tech.m_quantity item) = false ->
  item_qty item = Ok 1000 /\ Tech.testing_qty item = Ok 0.
Proof.
  intro H. unfold item_qty, Tech.testing_qty, py_or. rewrite H. simpl.
  split; reflexivity.
Qed.

(** C7, as the code has it.  The testing stage reads the quantity as it
    is (0 when missing) and floors the drum estimate at 1.  The pricing
    stage replaces a quantity of 0, missing or given, by 1000; for every
    quantity that converts to a non-negative number the quantity it uses
    is positive and the drum count is at least 1. *)
Theorem quantity_defaults (item : Tech.match_result) (q : Q) :
  Tech.testing_qty item = Ok q ->
  1 <= Tech.testing_drums q
  /\ (0 <= q ->
      exists qty,
        item_qty item = Ok qty
        /\ 0 < qty
        /\ (q == 0 -> qty = 1000)
        /\ (0 < q -> qty = q)
        /\ (1 <= drums_for qty)%Z).
Proof.
  intro Hq. split; [apply testing_drums_floor|].
  intro Hpos. unfold item_qty. unfold Tech.testing_qty in Hq. rewrite Hq. simpl.
  destruct (Qeq_bool q 0) eqn:E.
  - exists 1000. split; [reflexivity|]. split; [reflexivity|].
    split; [reflexivity|]. split.
    + intro H. apply Qeq_bool_eq in E. rewrite E in H. discriminate H.
    + vm_compute. discriminate.
  - apply Qeq_bool_neq in E.
    assert (Hlt : 0 < q).
    { apply Qle_lteq in Hpos as [H|H]; [exact H|]. exfalso. apply E. symmetry. exact H. }
    exists q. split; [reflexivity|]. split; [exact Hlt|].
    split; [intro H; contradiction|]. split; [reflexivity|].
    apply drums_for_positive, Hlt.
Qed.

(** A quantity of 5000 m is kept and packed on 10 drums; a missing
    quantity is priced as 1000 m on 2 drums. *)
Lemma quantity_defaults_witness :
  (exists qty, item_qty (item_with_quantity (VInt 5000)) = Ok qty
               /\ 0 < qty /\ (1 <= drums_for qty)%Z)
  /\ (exists qty, item_qty (item_with_quantity VNone) = Ok qty
                  /\ qty = 1000 /\ (1 <= drums_for qty)%Z).
Proof.
  split.
  - destruct (quantity_defaults (item_with_quantity (VInt 5000)) 5000 eq_refl)
      as [_ H].
    destruct H as (qty & Hq & Hpos & _ & _ & Hd); [discriminate|].
    exists qty. repeat split; assumption.
  - destruct (quantity_defaults (item_with_quantity VNone) 0 eq_refl) as [_ H].
    destruct H as (qty & Hq & _ & Hz & _ & Hd); [discriminate|].
    exists qty. split; [exact Hq|]. split; [apply Hz; reflexivity|exact Hd].
Defined.

(** C7, as stated, fails: a negative quantity is not replaced in the
    pricing stage (the quantity used is -5 and no drum is counted), and
    in the testing stage a missing quantity is used as 0. *)
Lemma nonpositive_quantity_kept :
  (exists qty, item_qty (item_with_quantity (VInt (-5))) = Ok qty
               /\ ~ 0 < qty /\ drums_for qty = 0%Z)
  /\ (exists qty, Tech.testing_qty (item_with_quantity VNone) = Ok qty
                  /\ ~ 0 < qty).
Proof.
  split.
  - exists (inject_Z (-5)). split; [reflexivity|]. split; [|reflexivity].
    intro H. vm_compute in H. discriminate.
  - exists (inject_Z 0). split; [reflexivity|].
    intro H. vm_compute in H. discriminate.
Qed.

End QuantityFacts.

Section FallbackFacts.
Import Py Pricing Spec.
Local Open Scope Q_scope.

Variable db : database.
Variable cfg : config.

(** An unknown product id is costed at a flat 1500 per metre and weighs a
    flat 2.5 kg per metre. *)
Lemma unknown_product_estimate (product_id : value) (total_qty_mtr : Q) :
  first_match (fun p => (str (p_product_id p) =? str product_id)%string) (PRODUCTS db)
  = None ->
  calculate_micro_bom_cost db cfg product_id total_qty_mtr
  = Ok (total_qty_mtr * 1500, total_qty_mtr * (25 # 10), [MasterMissing], 0, 0).
Proof.
  intro H. unfold calculate_micro_bom_cost. rewrite H. reflexivity.
Qed.

(** An unmatched delivery location falls back to the zone coded Z-01,
    when the table holds no zone of the default type. *)
Lemma unmatched_location_default_zone (location_name : value) (z : zone) :
  first_match
    (fun z => contains (lower (detect_zone_type (lower (str location_name))))
                       (lower (zone_type z)))
    (LOGISTICS db) = None ->
  first_match (fun z => py_eq (zone_code z) (VStr "Z-01")) (LOGISTICS db) = Some z ->
  determine_logistics_zone db location_name = Some z.
Proof.
  intros H1 H2. unfold determine_logistics_zone. rewrite H1. exact H2.
Qed.

(** An unknown client has 30 credit days and no loyalty discount. *)
Lemma unknown_client_terms (client_name_in : value) (total_value : Q) :
  first_match
    (fun c => contains (lower (client_name c)) (lower (str client_name_in)))
    (CLIENTS db) = None ->
  analyze_financials db cfg client_name_in total_value
  = (total_value * (ANNUAL_COST_OF_CAPITAL cfg * inject_Z 30 / 365), 30%Z, 0).
Proof.
  intro H. unfold analyze_financials. rewrite H. reflexivity.
Qed.

(** A competitor code that matches no record leaves the adjustment
    unchanged. *)
Lemma unmatched_competitor_skipped (st : Q * list note) (code : scalar) :
  find_rival db code = None -> game_step db st code = st.
Proof.
  intro H. unfold game_step. destruct st as [m rs]. rewrite H. reflexivity.
Qed.

(** With an empty logistics table no zone can be billed: the pricing
    stage raises for every RFP record and returns no bid. *)
Lemma no_zone_no_bid (rfp : rfp_record) :
  LOGISTICS db = [] -> is_ok (process_pricing db cfg rfp) = false.
Proof.
  intro H. unfold process_pricing.
  destruct (float _) as [dist_km|]; [|reflexivity]. simpl.
  destruct (costing_loop _ _ _ _ _) as [t|]; [|reflexivity]. simpl.
  unfold calculate_logistics, determine_logistics_zone, first_match.
  rewrite H. reflexivity.
Qed.

End FallbackFacts.

Section FallbackFailure.
Import Py Pricing Spec.

(** C8.  With the logistics table empty (the reference file missing),
    [process_pricing] raises [IndexError] on the sample RFP instead of
    returning a bid; with the one-zone table the same RFP is priced. *)
Theorem process_pricing_empty_logistics :
  process_pricing empty_db CONFIG (sample_rfp (VInt 5000)) = Raise IndexError
  /\ is_ok (process_pricing two_rivals_db CONFIG (sample_rfp (VInt 5000))) = true.
Proof.
  split; vm_compute; reflexivity.
Qed.

End FallbackFailure.

(* ===================================================================== *)
(** ** Priority ranker                                                    *)
(* ===================================================================== *)

Section SortFacts.
Import Py Priority Spec.
Local Open Scope Q_scope.

Lemma insert_desc_perm (x : scored) (l : list scored) :
  Permutation (insert_desc x l) (x :: l).
Proof.
  induction l as [|y l IH]; simpl.
  - apply Permutation_refl.
  - destruct (Qltb (total x) (total y)).
    + eapply Permutation_trans; [apply perm_skip, IH|apply perm_swap].
    + apply Permutation_refl.
Qed.

Lemma sort_desc_perm (l : list scored) : Permutation (sort_desc l) l.
Proof.
  induction l as [|x l IH]; simpl.
  - apply perm_nil.
  - eapply Permutation_trans; [apply insert_desc_perm|apply perm_skip, IH].
Qed.

Lemma insert_desc_sorted (x : scored) (l : list scored) :
  StronglySorted not_below l -> StronglySorted not_below (insert_desc x l).
Proof.
  induction 1 as [|y l Hs IH Hy]; simpl.
  - constructor; constructor.
  - destruct (Qltb (total x) (total y)) eqn:E.
    + constructor; [exact IH|].
      apply (Permutation_Forall (Permutation_sym (insert_desc_perm x l))).
      constructor; [|exact Hy].
      apply Qltb_lt in E. unfold not_below. apply Qlt_le_weak, E.
    + apply Qltb_ge in E.
      constructor; [constructor; assumption|].
      constructor; [exact E|].
      eapply List.Forall_impl; [|exact Hy].
      intros z Hz. unfold not_below in *. eapply Qle_trans; eassumption.
Qed.

Lemma sort_desc_sorted (l : list scored) : StronglySorted not_below (sort_desc l).
Proof.
  induction l as [|x l IH]; simpl.
  - constructor.
  - apply insert_desc_sorted, IH.
Qed.

Lemma sorted_split (pre post : list scored) (x : scored) :
  StronglySorted not_below (pre ++ x :: post) -> Forall (not_below x) post.
Proof.
  induction pre as [|y pre IH]; simpl; intro H.
  - apply StronglySorted_inv in H. apply H.
  - apply StronglySorted_inv in H. apply IH, H.
Qed.

Lemma split_order {A : Type} (pre1 post1 pre2 post2 : list A) (x1 x2 : A) :
  (pre1 ++ x1 :: post1 = pre2 ++ x2 :: post2)%list ->
  (List.length pre1 < List.length pre2)%nat ->
  In x2 post1.
Proof.
  revert pre2. induction pre1 as [|z pre1 IH]; intros pre2 Heq Hlen.
  - destruct pre2 as [|y pre2]; simpl in *; [lia|].
    inversion Heq. apply in_elt.
  - destruct pre2 as [|y pre2]; simpl in *; [lia|].
    inversion Heq. eapply IH; [eassumption|lia].
Qed.

End SortFacts.

Section RankMapFacts.
Import Py Priority Spec.

Lemma build_rank_map_notin (l : list scored) (i : nat) (m : gmap string Z) (k : string) :
  ~ In k (List.map sid l) -> build_rank_map l i m !! k = m !! k.
Proof.
  revert i m. induction l as [|x l IH]; intros i m Hk; simpl.
  - reflexivity.
  - simpl in Hk. rewrite IH by tauto.
    apply lookup_insert_ne. intro E. apply Hk. left. exact E.
Qed.

(** The entry at position [length pre] of a list with distinct ids gets
    the rank [length pre + 1]. *)
Lemma build_rank_map_split (pre post : list scored) (x : scored) (i : nat)
    (m : gmap string Z) :
  List.NoDup (List.map sid (pre ++ x :: post)) ->
  build_rank_map (pre ++ x :: post) i m !! sid x
  = Some (Z.of_nat (i + List.length pre + 1)).
Proof.
  revert i m. induction pre as [|y pre IH]; intros i m Hnd; simpl in *.
  - apply List.NoDup_cons_iff in Hnd as [Hx _].
    rewrite build_rank_map_notin by exact Hx.
    rewrite lookup_insert_eq. f_equal. lia.
  - apply List.NoDup_cons_iff in Hnd as [_ Hnd].
    rewrite IH by exact Hnd. f_equal. lia.
Qed.

Lemma build_rank_map_ranks (l : list scored) (i : nat) (m : gmap string Z) :
  List.NoDup (List.map sid l) ->
  List.map (fun x => build_rank_map l i m !! sid x) l
  = List.map (fun k => Some (Z.of_nat k)) (seq (S i) (List.length l)).
Proof.
  revert i m. induction l as [|x l IH]; intros i m Hnd; simpl.
  - reflexivity.
  - simpl in Hnd. apply List.NoDup_cons_iff in Hnd as [Hx Hnd]. f_equal.
    + rewrite build_rank_map_notin by exact Hx. apply lookup_insert_eq.
    + apply IH, Hnd.
Qed.

Lemma NoDup_map_filter {A B : Type} (f : A -> B) (p : A -> bool) (l : list A) :
  List.NoDup (List.map f l) -> List.NoDup (List.map f (List.filter p l)).
Proof.
  induction l as [|x l IH]; simpl; intro H.
  - constructor.
  - apply List.NoDup_cons_iff in H as [Hx Hnd].
    destruct (p x); simpl; [|apply IH, Hnd].
    apply List.NoDup_cons_iff. split; [|apply IH, Hnd].
    intro Hin. apply Hx.
    apply in_map_iff in Hin as (y & Hy & Hin).
    apply in_map_iff. exists y. split; [exact Hy|].
    apply filter_In in Hin. apply Hin.
Qed.

Lemma NoDup_map_inj {A B : Type} (f : A -> B) (l : list A) (a b : A) :
  List.NoDup (List.map f l) -> In a l -> In b l -> f a = f b -> a = b.
Proof.
  induction l as [|x l IH]; simpl; intros Hnd Ha Hb Hf; [contradiction|].
  apply List.NoDup_cons_iff in Hnd as [Hx Hnd].
  destruct Ha as [->|Ha], Hb as [->|Hb].
  - reflexivity.
  - exfalso. apply Hx. rewrite Hf. apply in_map, Hb.
  - exfalso. apply Hx. rewrite <- Hf. apply in_map, Ha.
  - apply IH; assumption.
Qed.

End RankMapFacts.

Section RankingFacts.
Import Py Priority Spec.
Local Open Scope Q_scope.

Variable inventory_tokens : list (gset string).
Variable clients : list client.
Variable max_urgency_days : Q.
Variable days_left_of : string -> option Z.

Local Abbreviation score := (score_rfp inventory_tokens clients max_urgency_days days_left_of).
Local Abbreviation scored_rfps l :=
  (sort_desc (score_active inventory_tokens clients max_urgency_days days_left_of l)).
Local Abbreviation ranked l :=
  (recalculate_all_priorities inventory_tokens clients max_urgency_days days_left_of l).

Lemma score_set_output (r : rfp) (o : priority_output) :
  score (set_output r o) = score r.
Proof. reflexivity. Qed.

Lemma scored_ids (l : list rfp) :
  Permutation (List.map sid (scored_rfps l))
              (List.map rfp_unique_id (List.filter active l)).
Proof.
  eapply Permutation_trans; [apply Permutation_map, sort_desc_perm|].
  unfold score_active. rewrite List.map_map. apply Permutation_refl.
Qed.

Lemma scored_ids_distinct (l : list rfp) :
  List.NoDup (List.map rfp_unique_id l) ->
  List.NoDup (List.map sid (scored_rfps l)).
Proof.
  intro H.
  eapply Permutation_NoDup; [apply Permutation_sym, scored_ids|].
  apply NoDup_map_filter, H.
Qed.

Lemma scored_elements (l : list rfp) (x : scored) :
  In x (scored_rfps l) <-> exists r, In r l /\ active r = true /\ x = score r.
Proof.
  split.
  - intro H. apply (Permutation_in _ (sort_desc_perm _)) in H.
    unfold score_active in H. apply in_map_iff in H as (r & <- & Hr).
    apply filter_In in Hr as [Hr Ha]. exists r. repeat split; assumption.
  - intros (r & Hr & Ha & ->).
    apply (Permutation_in _ (Permutation_sym (sort_desc_perm _))).
    unfold score_active. apply in_map. apply filter_In. split; assumption.
Qed.

(** An archived record is not in the rank map. *)
Lemma archived_not_ranked (l : list rfp) (r : rfp) :
  List.NoDup (List.map rfp_unique_id l) ->
  In r l -> active r = false ->
  rank_map_of (scored_rfps l) !! rfp_unique_id r = None.
Proof.
  intros Hnd Hr Ha. unfold rank_map_of.
  rewrite build_rank_map_notin; [apply lookup_empty|].
  intro Hin. apply in_map_iff in Hin as (x & Hx & Hin).
  apply scored_elements in Hin as (r' & Hr' & Ha' & ->).
  assert (r' = r) by (eapply NoDup_map_inj; eassumption).
  subst r'. congruence.
Qed.

(** An active record is found in the sorted list, and its rank is one
    more than the number of entries before it. *)
Lemma active_ranked (l : list rfp) (r : rfp) :
  List.NoDup (List.map rfp_unique_id l) ->
  In r l -> active r = true ->
  exists pre post,
    scored_rfps l = (pre ++ score r :: post)%list
    /\ rank_map_of (scored_rfps l) !! rfp_unique_id r
       = Some (Z.of_nat (List.length pre + 1))
    /\ List.find (fun x => (sid x =? rfp_unique_id r)%string) (scored_rfps l)
       = Some (score r).
Proof.
  intros Hnd Hr Ha.
  assert (Hin : In (score r) (scored_rfps l)).
  { apply scored_elements. exists r. repeat split; assumption. }
  destruct (in_split _ _ Hin) as (pre & post & Hs).
  exists pre, post. split; [exact Hs|]. split.
  - unfold rank_map_of. rewrite Hs.
    change (rfp_unique_id r) with (sid (score r)).
    rewrite build_rank_map_split; [reflexivity|].
    rewrite <- Hs. apply scored_ids_distinct, Hnd.
  - destruct (List.find _ (scored_rfps l)) as [x|] eqn:E.
    + apply find_some in E as [Hx Hid].
      apply String.eqb_eq in Hid.
      apply scored_elements in Hx as (r' & Hr' & Ha' & ->).
      assert (r' = r) by (eapply NoDup_map_inj; eassumption).
      subst r'. reflexivity.
    + exfalso. pose proof (find_none _ _ E _ Hin) as Hn. simpl in Hn.
      rewrite String.eqb_refl in Hn. discriminate.
Qed.

(** What step 3 writes on each record of a collection with distinct
    ids. *)
Lemma assigned_archived (l : list rfp) (r : rfp) :
  List.NoDup (List.map rfp_unique_id l) ->
  In r l -> active r = false ->
  assign_rank (scored_rfps l) (rank_map_of (scored_rfps l)) (stamp_archived r)
  = set_output r Archived.
Proof.
  intros Hnd Hr Ha. unfold stamp_archived.
  unfold active in Ha. apply negb_false_iff in Ha. rewrite Ha.
  unfold assign_rank. simpl rfp_unique_id.
  rewrite (archived_not_ranked l r Hnd Hr); [reflexivity|].
  unfold active. rewrite Ha. reflexivity.
Qed.

Lemma assigned_active (l : list rfp) (r : rfp) :
  List.NoDup (List.map rfp_unique_id l) ->
  In r l -> active r = true ->
  exists pre post,
    scored_rfps l = (pre ++ score r :: post)%list
    /\ rank_map_of (scored_rfps l) !! rfp_unique_id r
       = Some (Z.of_nat (List.length pre + 1))
    /\ assign_rank (scored_rfps l) (rank_map_of (scored_rfps l)) (stamp_archived r)
       = set_output r (Ranked (Z.of_nat (List.length pre + 1))
                              (round (total (score r) * 100) 1)
                              (sbreakdown (score r))).
Proof.
  intros Hnd Hr Ha.
  destruct (active_ranked l r Hnd Hr Ha) as (pre & post & Hs & Hm & Hf).
  exists pre, post. split; [exact Hs|]. split; [exact Hm|].
  unfold stamp_archived.
  pose proof Ha as Ha'. unfold active in Ha'. apply negb_true_iff in Ha'. rewrite Ha'.
  unfold assign_rank. rewrite Hm, Hf. reflexivity.
Qed.

Lemma ranked_entries (l : list rfp) :
  ranked l
  = List.map (fun r => assign_rank (scored_rfps l) (rank_map_of (scored_rfps l))
                                   (stamp_archived r)) l.
Proof.
  unfold recalculate_all_priorities. rewrite List.map_map. reflexivity.
Qed.

(** Step 3 changes nothing but the output slot. *)
Lemma assigned_same_record (l : list rfp) (r : rfp) :
  List.NoDup (List.map rfp_unique_id l) ->
  In r l ->
  exists o,
    assign_rank (scored_rfps l) (rank_map_of (scored_rfps l)) (stamp_archived r)
    = set_output r o
    /\ (active r = false -> o = Archived)
    /\ (active r = true ->
        rank_map_of (scored_rfps l) !! rfp_unique_id r = Some (rank_of o)).
Proof.
  intros Hnd Hr. destruct (active r) eqn:Ha.
  - destruct (assigned_active l r Hnd Hr Ha) as (pre & post & _ & Hm & Hg).
    eexists. split; [exact Hg|]. split; [discriminate|]. intros _. exact Hm.
  - eexists. split; [apply (assigned_archived l r Hnd Hr Ha)|].
    split; [reflexivity|discriminate].
Qed.

Lemma filter_map_same {A : Type} (p : A -> bool) (g : A -> A) (l : list A) :
  (forall x, In x l -> p (g x) = p x) ->
  List.filter p (List.map g l) = List.map g (List.filter p l).
Proof.
  induction l as [|x l IH]; simpl; intro H; [reflexivity|].
  rewrite (H x (or_introl eq_refl)).
  destruct (p x); simpl; rewrite IH; auto.
Qed.

(** C6, for a collection with pairwise distinct [rfp_unique_id]s.  After
    [recalculate_all_priorities] the records are the same in the same
    order, the ranks of the non-archived records are a permutation of
    1..N (N the number of non-archived records), every archived record
    carries the sentinel rank -1, and a record ranked before another has
    a composite score that is not smaller. *)
Theorem ranks_are_a_permutation (rfp_list : list rfp) :
  List.NoDup (List.map rfp_unique_id rfp_list) ->
  let out := ranked rfp_list in
  List.map rfp_unique_id out = List.map rfp_unique_id rfp_list
  /\ List.map is_archived out = List.map is_archived rfp_list
  /\ Permutation (List.map rank_assigned (List.filter active out))
                 (first_ranks (List.length (List.filter active rfp_list)))
  /\ Forall (fun r => active r = false ->
                      sales_agent_2_output r = Some Archived
                      /\ rank_assigned r = Some (-1)%Z) out
  /\ (forall a b ka kb,
        In a out -> In b out ->
        active a = true -> active b = true ->
        rank_assigned a = Some ka -> rank_assigned b = Some kb ->
        (ka < kb)%Z ->
        total (score b) <= total (score a)).
Proof.
  intros Hnd out. subst out. rewrite ranked_entries.
  set (g := fun r => assign_rank (scored_rfps rfp_list)
                       (rank_map_of (scored_rfps rfp_list)) (stamp_archived r)).
  assert (Hg : forall r, In r rfp_list ->
            exists o, g r = set_output r o
              /\ (active r = false -> o = Archived)
              /\ (active r = true ->
                  rank_map_of (scored_rfps rfp_list) !! rfp_unique_id r
                  = Some (rank_of o))).
  { intros r Hr. apply assigned_same_record; assumption. }
  split; [|split; [|split; [|split]]].
  - rewrite List.map_map. apply map_ext_in. intros r Hr.
    destruct (Hg r Hr) as (o & -> & _). reflexivity.
  - rewrite List.map_map. apply map_ext_in. intros r Hr.
    destruct (Hg r Hr) as (o & -> & _). reflexivity.
  - rewrite filter_map_same.
    2:{ intros r Hr. destruct (Hg r Hr) as (o & -> & _). reflexivity. }
    rewrite List.map_map.
    rewrite (map_ext_in _
               (fun r => rank_map_of (scored_rfps rfp_list) !! sid (score r))).
    2:{ intros r Hr. apply filter_In in Hr as [Hr Ha].
        destruct (Hg r Hr) as (o & -> & _ & Hm).
        change (sid (score r)) with (rfp_unique_id r).
        rewrite (Hm Ha). reflexivity. }
    rewrite <- (List.map_map score
                  (fun x => rank_map_of (scored_rfps rfp_list) !! sid x)).
    change (List.map score (List.filter active rfp_list))
      with (score_active inventory_tokens clients max_urgency_days days_left_of rfp_list).
    eapply Permutation_trans.
    + apply Permutation_map, Permutation_sym, sort_desc_perm.
    + unfold rank_map_of. rewrite build_rank_map_ranks
        by (apply scored_ids_distinct, Hnd).
      unfold first_ranks.
      rewrite (Permutation_length (sort_desc_perm _)).
      unfold score_active. rewrite length_map. apply Permutation_refl.
  - apply List.Forall_forall. intros a Ha Hact.
    apply in_map_iff in Ha as (r & <- & Hr).
    destruct (Hg r Hr) as (o & Ho & Harch & _). rewrite Ho in Hact |- *.
    rewrite (Harch Hact). split; reflexivity.
  - intros a b ka kb Ha Hb Haa Hab Hka Hkb Hlt.
    apply in_map_iff in Ha as (ra & <- & Hra).
    apply in_map_iff in Hb as (rb & <- & Hrb).
    assert (Haa' : active ra = true).
    { destruct (Hg ra Hra) as (o & Ho & _). rewrite Ho in Haa. exact Haa. }
    assert (Hab' : active rb = true).
    { destruct (Hg rb Hrb) as (o & Ho & _). rewrite Ho in Hab. exact Hab. }
    destruct (assigned_active rfp_list ra Hnd Hra Haa')
      as (pre1 & post1 & Hs1 & _ & Hg1).
    destruct (assigned_active rfp_list rb Hnd Hrb Hab')
      as (pre2 & post2 & Hs2 & _ & Hg2).
    fold (g ra) in Hg1. fold (g rb) in Hg2.
    rewrite Hg1 in Hka |- *. rewrite Hg2 in Hkb |- *.
    rewrite !score_set_output.
    unfold rank_assigned in Hka, Hkb. simpl in Hka, Hkb.
    inversion Hka. inversion Hkb. subst ka kb.
    assert (Hin : In (score rb) post1).
    { eapply (split_order pre1 post1 pre2 post2 (score ra) (score rb)).
      - rewrite <- Hs1. exact Hs2.
      - lia. }
    pose proof (sort_desc_sorted
      (score_active inventory_tokens clients max_urgency_days days_left_of rfp_list))
      as Hsorted.
    rewrite Hs1 in Hsorted. apply sorted_split in Hsorted.
    rewrite List.Forall_forall in Hsorted. apply (Hsorted _ Hin).
Qed.

End RankingFacts.

Section RankingSamples.
Import Py Priority Spec.

(** Three open RFPs and an archived one: the open ones are ranked 1..3
    and the archived one keeps the sentinel. *)
Lemma ranks_are_a_permutation_witness :
  let rfp_list :=
    [sample_record "RFP-A" false [80%Q]; sample_record "RFP-B" true [90%Q];
     sample_record "RFP-C" false [90%Q]; sample_record "RFP-D" false [90%Q]] in
  List.NoDup (List.map rfp_unique_id rfp_list)
  /\ Permutation
       (List.map rank_assigned (List.filter active (sample_ranking rfp_list)))
       [Some 1; Some 2; Some 3]
  /\ Forall (fun r => active r = false -> rank_assigned r = Some (-1))
            (sample_ranking rfp_list).
Proof.
  intro rfp_list.
  assert (Hnd : List.NoDup (List.map rfp_unique_id rfp_list)).
  { repeat constructor; simpl; intuition discriminate. }
  split; [exact Hnd|].
  destruct (ranks_are_a_permutation [] [] 90%Q (fun _ => None) rfp_list Hnd)
    as (_ & _ & Hperm & Harch & _).
  split; [exact Hperm|].
  eapply List.Forall_impl; [|exact Harch].
  intros r H Ha. apply H, Ha.
Defined.

(** C6, as stated, fails on a collection in which two records share an
    id: two open RFPs with the same id both receive rank 2, so that the
    ranks are not a permutation of 1..2; and an archived RFP that shares
    its id with an open one receives rank 1 instead of the sentinel. *)
Lemma duplicate_ids_break_ranking :
  let twins :=
    sample_ranking [sample_record "RFP-1762214400" false [80%Q];
                    sample_record "RFP-1762214400" false [90%Q]] in
  let shadow :=
    sample_ranking [sample_record "RFP-1762214400" true [80%Q];
                    sample_record "RFP-1762214400" false [90%Q]] in
  List.map rank_assigned (List.filter active twins) = [Some 2; Some 2]
  /\ ~ Permutation (List.map rank_assigned (List.filter active twins)) (first_ranks 2)
  /\ List.map active shadow = [false; true]
  /\ List.map rank_assigned shadow = [Some 1; Some 1].
Proof.
  intros twins shadow.
  assert (Ht : List.map rank_assigned (List.filter active twins) = [Some 2; Some 2])
    by (vm_compute; reflexivity).
  split; [exact Ht|]. split.
  - rewrite Ht. intro H.
    apply Permutation_sym in H.
    apply (Permutation_in (Some 1)) in H; [|left; reflexivity].
    simpl in H. intuition discriminate.
  - split; vm_compute; reflexivity.
Qed.

End RankingSamples.

(* ===================================================================== *)
(** ** What the pricing stage needs to return a bid                       *)
(* ===================================================================== *)

Section BidFacts.
Import Py Pricing Spec.
Local Open Scope Q_scope.

Variable db : database.
Variable cfg : config.

Lemma bom_loop_ok (total_qty_mtr : Q) (bom : list bom_item) (st : Q * Q * list bom_line) :
  bom_readable bom -> is_ok (bom_loop db cfg total_qty_mtr bom st) = true.
Proof.
  revert st. induction bom as [|it bom IH]; intros st H; simpl.
  - reflexivity.
  - inversion H as [|? ? Hit Hrest]; subst.
    unfold bom_step. destruct st as [[m r] b].
    destruct (float _) as [q|]; [|discriminate]. simpl.
    destruct (first_match _ _) as [mat|]; [|apply IH, Hrest].
    destruct (py_eq _ _); apply IH, Hrest.
Qed.

(** Whether or not the product is in the master, its cost is computed. *)
Lemma calculate_micro_bom_cost_ok (product_id : value) (total_qty_mtr : Q) :
  Forall (fun p => bom_readable (bill_of_materials p)
                   /\ bom_readable (bill_of_materials_enriched p)) (PRODUCTS db) ->
  is_ok (calculate_micro_bom_cost db cfg product_id total_qty_mtr) = true.
Proof.
  intro H. unfold calculate_micro_bom_cost, first_match.
  destruct (find _ (PRODUCTS db)) as [prod|] eqn:E; [|reflexivity].
  apply find_some in E as [Hin _].
  rewrite List.Forall_forall in H. destruct (H prod Hin) as [Hb He].
  destruct (bill_of_materials prod) as [|b0 bs] eqn:Eb.
  - destruct (bill_of_materials_enriched prod) as [|e0 es] eqn:Ee.
    + reflexivity.
    + pose proof (bom_loop_ok total_qty_mtr (e0 :: es) (0, 0, []) He) as Hl.
      cbv beta iota zeta.
      destruct (bom_loop db cfg total_qty_mtr (e0 :: es) (0, 0, [])) as [[[m r] b]|];
        [reflexivity|discriminate].
  - pose proof (bom_loop_ok total_qty_mtr (b0 :: bs) (0, 0, []) Hb) as Hl.
    cbv beta iota zeta.
    destruct (bom_loop db cfg total_qty_mtr (b0 :: bs) (0, 0, [])) as [[[m r] b]|];
      [reflexivity|discriminate].
Qed.

Lemma costing_loop_ok (required_tests : list scalar) (items : list Tech.match_result)
    (acc : totals) :
  Forall (fun p => bom_readable (bill_of_materials p)
                   /\ bom_readable (bill_of_materials_enriched p)) (PRODUCTS db) ->
  Forall (fun item => is_ok (item_qty item) = true) items ->
  is_ok (costing_loop db cfg required_tests items acc) = true.
Proof.
  intros Hp. revert acc. induction items as [|item items IH]; intros acc Hi; simpl.
  - reflexivity.
  - inversion Hi as [|? ? Hq Hrest]; subst.
    unfold costing_step.
    destruct (item_qty item) as [qty|]; [|discriminate]. simpl.
    pose proof (calculate_micro_bom_cost_ok (Tech.matched_sku_id item) qty Hp) as Hb.
    destruct (calculate_micro_bom_cost _ _ _ _) as [[[[[mfg wt] bd] rk] oh]|];
      [|discriminate].
    simpl. apply IH, Hrest.
Qed.

Lemma calculate_logistics_ok (weight_kg distance_km : Q) (location_name : value) :
  LOGISTICS db <> [] ->
  is_ok (calculate_logistics db cfg weight_kg distance_km location_name) = true.
Proof.
  intro Hne. unfold calculate_logistics.
  destruct (billing_zone_exists db location_name Hne) as (z & _ & Hz).
  rewrite Hz. reflexivity.
Qed.

(** With at least one logistics zone and numbers where numbers are read
    (distance, item quantities, BOM quantities), [process_pricing]
    returns a bid: no unknown product, material, client, competitor,
    factory line or test code makes it raise. *)
Lemma process_pricing_returns_a_bid (rfp : rfp_record) :
  LOGISTICS db <> [] ->
  is_ok (float (default (VInt 500) (distance_from_factory_km rfp))) = true ->
  Forall (fun item => is_ok (item_qty item) = true) (matched_line_items rfp) ->
  Forall (fun p => bom_readable (bill_of_materials p)
                   /\ bom_readable (bill_of_materials_enriched p)) (PRODUCTS db) ->
  is_ok (process_pricing db cfg rfp) = true.
Proof.
  intros Hz Hd Hi Hp. unfold process_pricing.
  destruct (float _) as [dist_km|]; [|discriminate]. simpl.
  match goal with
  | |- context [costing_loop db cfg ?rt ?items ?acc] =>
      pose proof (costing_loop_ok rt items acc Hp Hi) as Hc;
      destruct (costing_loop db cfg rt items acc) as [t|]; [|discriminate]
  end.
  simpl.
  pose proof (calculate_logistics_ok (total_weight_all t) dist_km
                (default (VStr "Ex-Works") (delivery_location rfp)) Hz) as Hl.
  destruct (calculate_logistics _ _ _ _ _) as [[[log_cost log_risk] zn]|];
    [|discriminate].
  simpl.
  destruct (analyze_factory_load _ _ _) as [fact_adj fact_reason].
  destruct (analyze_financials _ _ _ _) as [[fin_cost credit_days] loy_disc].
  destruct (solve_game_theory _ _) as [comp_adj comp_notes].
  destruct (final_margin_stage _ _ _ _ _ _) as [fm ns].
  reflexivity.
Qed.

(** The wildcard the sales stage writes for a missing quantity does not
    convert: both stages raise on it. *)
Lemma wildcard_quantity_raises :
  item_qty (item_with_quantity (VStr "NOT SPECIFIED")) = Raise ValueError
  /\ Tech.testing_qty (item_with_quantity (VStr "NOT SPECIFIED")) = Raise ValueError.
Proof. split; reflexivity. Qed.

End BidFacts.

Section UnspecifiedFieldFacts.
Import Py Tech Spec.
Local Open Scope Q_scope.

(** Requirements that are absent from the RFP earn nothing on the
    voltage, conductor-material and descriptor fields, whatever product
    they are compared with (a product without the field apart). *)
Lemma voltage_points_missing (rfp inv : dict) :
  rfp !! "voltage_grade" = None ->
  ~ normalize_voltage (get inv "voltage_grade") == 0 ->
  voltage_points rfp inv = 0.
Proof.
  intros Hr Hi. unfold voltage_points, get at 1 3. rewrite Hr. simpl.
  change (normalize_voltage VNone) with 0.
  destruct (Qeq_bool 0 (normalize_voltage (get inv "voltage_grade"))) eqn:E.
  - exfalso. apply Hi. symmetry. apply Qeq_bool_eq, E.
  - reflexivity.
Qed.

Lemma text_points_missing (field : string) (rfp inv : dict) :
  rfp !! field = None -> text_points field rfp inv = 0.
Proof.
  intro Hr. unfold text_points, get at 1. rewrite Hr. reflexivity.
Qed.

Lemma material_points_missing (rfp inv : dict) (m : string) :
  rfp !! "conductor_material" = None ->
  normalize_material (get inv "conductor_material") = Some m ->
  material_points rfp inv = 0.
Proof.
  intros Hr Hi.
  assert (Hg : get rfp "conductor_material" = VNone)
    by (unfold get; rewrite Hr; reflexivity).
  unfold material_points. rewrite Hg, Hi. reflexivity.
Qed.

End UnspecifiedFieldFacts.

(* ===================================================================== *)
(** * Further properties of the matcher, the pricing engine, the ranker
      and the matcher's entry point                                        *)
(* ===================================================================== *)

Section RoundOrder.
Import Py.
Local Open Scope Q_scope.

Lemma round_half_even_range (x : Q) :
  (Qfloor x <= round_half_even x <= Qfloor x + 1)%Z.
Proof.
  unfold round_half_even.
  destruct (x - inject_Z (Qfloor x) ?= 1 # 2); [destruct (Z.even _)| |]; lia.
Qed.

Lemma round_half_even_mono (x y : Q) :
  x <= y -> (round_half_even x <= round_half_even y)%Z.
Proof.
  intro H.
  pose proof (Qfloor_resp_le _ _ H) as Hf.
  destruct (Z.eq_dec (Qfloor x) (Qfloor y)) as [E|E].
  - unfold round_half_even. rewrite E.
    destruct (Qcompare_spec (x - inject_Z (Qfloor y)) (1 # 2)) as [Hx|Hx|Hx];
      destruct (Qcompare_spec (y - inject_Z (Qfloor y)) (1 # 2)) as [Hy|Hy|Hy];
      try destruct (Z.even (Qfloor y)); try lia; exfalso; lra.
  - pose proof (round_half_even_range x). pose proof (round_half_even_range y). lia.
Qed.

Lemma round_mono (x y : Q) (n : nat) : x <= y -> round x n <= round y n.
Proof.
  intro H. unfold round.
  pose proof (Qpow10_pos (Z.of_nat n)) as Hp.
  apply Qle_shift_div_l; [exact Hp|].
  unfold Qdiv. rewrite <- Qmult_assoc, (Qmult_comm (/ _)), Qmult_inv_r, Qmult_1_r.
  - rewrite <- Zle_Qle. apply round_half_even_mono.
    apply Qmult_le_compat_r; [exact H|apply Qlt_le_weak, Hp].
  - intro E. rewrite E in Hp. discriminate.
Qed.

Lemma round_half_even_int (z : Z) : round_half_even (inject_Z z) = z.
Proof.
  unfold round_half_even. rewrite Qfloor_Z.
  assert (H : (inject_Z z - inject_Z z ?= 1 # 2) = Lt).
  { apply (proj1 (Qlt_alt _ _)). generalize (inject_Z z). intro q. lra. }
  rewrite H. reflexivity.
Qed.

Lemma Qpow10_nat (n : nat) : Qpow10 (Z.of_nat n) == inject_Z (10 ^ Z.of_nat n).
Proof.
  unfold Qpow10. rewrite Zpower_Qpower by lia. reflexivity.
Qed.

(** Rounding leaves an integer unchanged. *)
Lemma round_int (z : Z) (n : nat) : round (inject_Z z) n == inject_Z z.
Proof.
  unfold round.
  pose proof (Qpow10_pos (Z.of_nat n)) as Hp.
  rewrite (round_half_even_comp _ (inject_Z (z * 10 ^ Z.of_nat n))).
  - rewrite round_half_even_int. rewrite inject_Z_mult, <- Qpow10_nat.
    field. intro E. rewrite E in Hp. discriminate.
  - rewrite inject_Z_mult, <- Qpow10_nat. reflexivity.
Qed.

Lemma round_le_int (x : Q) (z : Z) (n : nat) :
  x <= inject_Z z -> round x n <= inject_Z z.
Proof.
  intro H. eapply Qle_trans; [apply round_mono, H|].
  rewrite round_int. apply Qle_refl.
Qed.

End RoundOrder.

Section ScoreBounds.
Import Py Tech Spec.
Local Open Scope Q_scope.

Lemma satisfied_count_le (inv reqs : list scalar) :
  (satisfied_count inv reqs <= List.length reqs)%nat.
Proof. unfold satisfied_count. apply filter_length_le. Qed.

Lemma even_split_score_le_1 (inv reqs : list scalar) :
  reqs <> [] -> even_split_score inv reqs <= 1.
Proof.
  intro Hne. unfold even_split_score.
  pose proof (satisfied_count_le inv reqs) as Hc.
  assert (Hn : 0 < inject_Z (Z.of_nat (List.length reqs))).
  { change 0 with (inject_Z 0). rewrite <- Zlt_Qlt.
    destruct reqs; [congruence|simpl; lia]. }
  assert (Hk : inject_Z (Z.of_nat (satisfied_count inv reqs))
               <= inject_Z (Z.of_nat (List.length reqs))).
  { rewrite <- Zle_Qle. lia. }
  unfold Qdiv. rewrite Qmult_1_l.
  apply Qle_shift_div_r; [exact Hn|]. lra.
Qed.

Lemma match_standards_le_1 (rfp_list inv_list : value) (s : Q) :
  match_standards rfp_list inv_list = Ok s -> s <= 1.
Proof.
  unfold match_standards.
  destruct (truthy rfp_list) eqn:Ht; simpl; [|intros [= <-]; apply Qle_refl].
  destruct (iter_wrapped rfp_list) as [reqs|] eqn:Hr; simpl; [|discriminate].
  destruct (inv_entries inv_list) as [inv|] eqn:Hi; simpl; [|discriminate].
  rewrite length_map.
  destruct (Nat.eqb (List.length reqs) 0) eqn:E; [intros [= <-]; apply Qle_refl|].
  intros [= <-].
  apply (round_le_int _ 1).
  rewrite fold_shares, Qplus_0_l.
  apply even_split_score_le_1.
  eapply iter_wrapped_nonempty; eassumption.
Qed.

(** The standards score is a proportion: it lies between 0 and 1,
    whatever the two lists of standards. *)
Theorem match_standards_range (rfp_list inv_list : value) (s : Q) :
  match_standards rfp_list inv_list = Ok s -> 0 <= s <= 1.
Proof.
  intro H. split; [eapply match_standards_nonneg|eapply match_standards_le_1]; exact H.
Qed.

(** The cross-section score does not exceed 1 for a requirement that is
    unspecified, not a number, or positive. *)
Lemma match_cross_section_le_1 (rfp_val inv_val : value) (s : Q) :
  (forall r, float rfp_val = Ok r -> 0 <= r) ->
  match_cross_section rfp_val inv_val = Ok s -> s <= 1.
Proof.
  intro Hpos. unfold match_cross_section.
  destruct (is_not_specified rfp_val); [intro H; inversion H; apply Qle_refl|].
  destruct (float rfp_val) as [r|]; [|intro H; inversion H; discriminate].
  destruct (float inv_val) as [i|]; [|intro H; inversion H; discriminate].
  destruct (Qeq_bool r 0) eqn:E; [discriminate|].
  intros [= <-].
  apply Qeq_bool_neq in E.
  assert (Hr : 0 < r).
  { pose proof (Hpos r eq_refl) as Hr.
    apply Qle_lteq in Hr as [Hr|Hr]; [exact Hr|]. exfalso. apply E. symmetry. exact Hr. }
  apply Q.max_lub; [discriminate|].
  apply (round_le_int _ 1).
  assert (0 <= Qabs (i - r) / r).
  { apply Qle_shift_div_l; [exact Hr|]. rewrite Qmult_0_l. apply Qabs_nonneg. }
  change (1 - Qabs (i - r) / r <= 1).
  set (t := Qabs (i - r) / r) in *. lra.
Qed.

Lemma weights_values :
  weights "voltage_grade" = 20 /\ weights "core_count" = 15
  /\ weights "cross_section_sqmm" = 15 /\ weights "conductor_material" = 15
  /\ weights "standards" = 15 /\ weights "insulation" = 10
  /\ weights "sheath" = 5 /\ weights "armour_type" = 5.
Proof. repeat split; reflexivity. Qed.

Lemma voltage_points_le (rfp inv : dict) : voltage_points rfp inv <= 20.
Proof.
  unfold voltage_points.
  destruct (Qeq_bool _ _); [vm_compute; discriminate|].
  destruct (_ && _); vm_compute; discriminate.
Qed.

Lemma core_points_le (rfp inv : dict) : core_points rfp inv <= 15.
Proof.
  unfold core_points, try_except, bind.
  destruct (float _); [|vm_compute; discriminate].
  destruct (float _); [|vm_compute; discriminate].
  destruct (Qeq_bool _ _); vm_compute; discriminate.
Qed.

Lemma material_points_le (rfp inv : dict) : material_points rfp inv <= 15.
Proof. unfold material_points. destruct (bool_decide _); vm_compute; discriminate. Qed.

Lemma text_points_le (f : string) (rfp inv : dict) : text_points f rfp inv <= weights f.
Proof.
  unfold text_points.
  destruct (normalize _); [|apply weights_nonneg].
  destruct (normalize _); [|apply weights_nonneg].
  destruct (_ && _); [apply Qle_refl|apply weights_nonneg].
Qed.

(** The weighted score is at least 0; it is at most 100 unless the
    cross-section requirement is a negative number. *)
Theorem weighted_score_range (rfp inv : dict) (q : Q) :
  calculate_weighted_score rfp inv = Ok q ->
  0 <= q
  /\ ((forall r, float (get rfp "cross_section_sqmm") = Ok r -> 0 <= r) -> q <= 100).
Proof.
  intro H. split; [eapply calculate_weighted_score_nonneg; exact H|].
  intro Hpos. revert H.
  unfold calculate_weighted_score, size_points, standards_points.
  destruct (match_cross_section _ _) as [sz|] eqn:Esz; [|discriminate]. simpl.
  destruct (match_standards _ _) as [st|] eqn:Est; [|discriminate]. simpl.
  intro H. inversion H. subst q. clear H.
  apply (match_cross_section_le_1 _ _ _ Hpos) in Esz.
  apply match_standards_le_1 in Est.
  pose proof (voltage_points_le rfp inv).
  pose proof (core_points_le rfp inv).
  pose proof (material_points_le rfp inv).
  pose proof (text_points_le "insulation" rfp inv) as Hi.
  pose proof (text_points_le "sheath" rfp inv) as Hs.
  pose proof (text_points_le "armour_type" rfp inv) as Ha.
  change (weights "insulation") with 10 in Hi.
  change (weights "sheath") with 5 in Hs.
  change (weights "armour_type") with 5 in Ha.
  change (weights "cross_section_sqmm") with 15.
  change (weights "standards") with 15.
  apply (round_le_int _ 100).
  change (inject_Z 100) with 100.
  assert (Hm : max_score == 100) by reflexivity.
  rewrite Hm.
  set (v := voltage_points rfp inv) in *. set (c := core_points rfp inv) in *.
  set (m := material_points rfp inv) in *.
  set (t1 := text_points "insulation" rfp inv) in *.
  set (t2 := text_points "sheath" rfp inv) in *.
  set (t3 := text_points "armour_type" rfp inv) in *.
  clearbody v c m t1 t2 t3. clear Hm Hpos.
  assert (E : forall x : Q, x / 100 * 100 == x) by (intro; field).
  rewrite E. lra.
Qed.

End ScoreBounds.

Section SelectionFacts.
Import Py Tech Spec.
Local Open Scope Q_scope.



Lemma match_item_fields (inventory : list sku) (item : line_item) (r : match_result) :
  match_item inventory item = Ok r ->
  m_lot_id r = lot_id item /\ rfp_description r = raw_description item
  /\ m_quantity r = quantity item.
Proof.
  unfold match_item.
  destruct (scan_inventory _ _ _ _) as [found|]; simpl; [|discriminate].
  intros [= <-]. repeat split.
Qed.

Lemma find_best_matches_lots (inventory : list sku) (line_items : list line_item)
    (rs : list match_result) :
  find_best_matches inventory line_items = Ok rs ->
  List.map m_lot_id rs = List.map lot_id line_items.
Proof.
  revert rs. induction line_items as [|item rest IH]; intros rs; simpl.
  - intros [= <-]. reflexivity.
  - destruct (match_item inventory item) as [r|] eqn:Em; simpl; [|discriminate].
    destruct (find_best_matches inventory rest) as [rs'|]; simpl; [|discriminate].
    intros [= <-]. simpl. rewrite (IH rs' eq_refl).
    destruct (match_item_fields _ _ _ Em) as (-> & _). reflexivity.
Qed.

(** The results come in the order of the items, one per item, each with
    the lot identifier, description and quantity of its item. *)
Theorem find_best_matches_keeps_items (inventory : list sku)
    (line_items : list line_item) (rs : list match_result) :
  find_best_matches inventory line_items = Ok rs ->
  List.map m_lot_id rs = List.map lot_id line_items
  /\ List.map rfp_description rs = List.map raw_description line_items
  /\ List.map m_quantity rs = List.map quantity line_items.
Proof.
  revert rs. induction line_items as [|item rest IH]; intros rs; simpl.
  - intros [= <-]. repeat split.
  - destruct (match_item inventory item) as [r|] eqn:Em; simpl; [|discriminate].
    destruct (find_best_matches inventory rest) as [rs'|]; simpl; [|discriminate].
    intros [= <-]. destruct (IH rs' eq_refl) as (H1 & H2 & H3).
    destruct (match_item_fields _ _ _ Em) as (E1 & E2 & E3).
    simpl. rewrite H1, H2, H3, E1, E2, E3. repeat split.
Qed.

(** The division by the requirement lies outside the [try] block. *)
Lemma match_cross_section_zero (rfp_val inv_val : value) (r i : Q) :
  float rfp_val = Ok r -> r == 0 -> float inv_val = Ok i ->
  match_cross_section rfp_val inv_val = Raise ZeroDivisionError.
Proof.
  intros Hr H0 Hi. unfold match_cross_section.
  rewrite (float_not_wildcard _ _ Hr), Hr, Hi.
  apply Qeq_bool_iff in H0. rewrite H0. reflexivity.
Qed.

(** A cross-section requirement that reads as the number zero makes the
    comparison with a first product of numeric cross-section divide by
    zero; the error is not caught and ends the matching of the whole
    RFP. *)
Theorem zero_cross_section_aborts (s : sku) (rest : list sku)
    (item : line_item) (items : list line_item) (r i : Q) :
  float (get (technical_attributes item) "cross_section_sqmm") = Ok r ->
  r == 0 ->
  float (get (technical_specs s) "cross_section_sqmm") = Ok i ->
  find_best_matches (s :: rest) (item :: items) = Raise ZeroDivisionError.
Proof.
  intros Hr H0 Hi. simpl. unfold match_item. simpl.
  unfold compute_match_score, calculate_weighted_score, size_points.
  rewrite (match_cross_section_zero _ _ _ _ Hr H0 Hi). reflexivity.
Qed.

End SelectionFacts.

Section BreakdownFacts.
Import Py Tech Spec.
Local Open Scope Q_scope.

Lemma normalize_voltage_get_or (d : dict) :
  normalize_voltage (get_or d "voltage_grade" (VStr "N/A"))
  = normalize_voltage (get d "voltage_grade").
Proof.
  unfold get_or, get. destruct (d !! "voltage_grade"); reflexivity.
Qed.

(** The voltage row of the comparison table reads "Match" exactly when
    the voltage earned its full weight in the score. *)
Theorem voltage_row_agrees_with_score (rfp_specs : dict) (s : sku) :
  status (breakdown_entry rfp_specs (technical_specs s) "voltage_grade") = "Match"
  <-> voltage_points rfp_specs (technical_specs s) == weights "voltage_grade".
Proof.
  unfold breakdown_entry, voltage_points.
  change ("voltage_grade" =? "conductor_material")%string with false.
  change ("voltage_grade" =? "voltage_grade")%string with true.
  cbv beta iota zeta. unfold status.
  rewrite !normalize_voltage_get_or.
  destruct (Qeq_bool _ _); [split; reflexivity|].
  split; [discriminate|].
  destruct (_ && _); vm_compute; discriminate.
Qed.

End BreakdownFacts.

Section TruncFacts.
Import Py.
Local Open Scope Q_scope.

Lemma Qceiling_nonpos (x : Q) : x < 0 -> (Qceiling x <= 0)%Z.
Proof.
  intro H. pose proof (Qceiling_lt x) as Hc.
  assert (Hz : inject_Z (Qceiling x - 1) < inject_Z 0).
  { eapply Qlt_trans; [exact Hc|exact H]. }
  rewrite <- Zlt_Qlt in Hz. lia.
Qed.

Lemma Qfloor_nonneg (x : Q) : 0 <= x -> (0 <= Qfloor x)%Z.
Proof.
  intro H. change 0%Z with (Qfloor 0). apply Qfloor_resp_le, H.
Qed.

(** [int(x)] is monotone. *)
Lemma trunc_mono (x y : Q) : x <= y -> (trunc x <= trunc y)%Z.
Proof.
  intro H. unfold trunc.
  destruct (Qle_bool 0 x) eqn:Ex; destruct (Qle_bool 0 y) eqn:Ey.
  - apply Qfloor_resp_le, H.
  - apply Qle_bool_iff in Ex.
    assert (Hy : Qle_bool 0 y = true) by (apply Qle_bool_iff; lra). congruence.
  - assert (Hx : x < 0).
    { apply Qnot_le_lt. intro Hc. apply Qle_bool_iff in Hc. congruence. }
    apply Qle_bool_iff in Ey.
    pose proof (Qceiling_nonpos x Hx). pose proof (Qfloor_nonneg y Ey). lia.
  - apply Qceiling_resp_le, H.
Qed.

Lemma trunc_comp (x y : Q) : x == y -> trunc x = trunc y.
Proof.
  intro H. apply Z.le_antisymm; apply trunc_mono; rewrite H; apply Qle_refl.
Qed.

Lemma trunc_positive (x : Q) : (0 < trunc x)%Z -> 0 <= x.
Proof.
  unfold trunc. destruct (Qle_bool 0 x) eqn:E.
  - intros _. apply Qle_bool_iff, E.
  - intro H. exfalso.
    assert (Hx : x < 0).
    { apply Qnot_le_lt. intro Hc. apply Qle_bool_iff in Hc. congruence. }
    pose proof (Qceiling_nonpos x Hx). lia.
Qed.

End TruncFacts.

Section BidValueFacts.
Import Py Pricing Spec.
Local Open Scope Q_scope.

Variable db : database.

(** The bid is the full cost base marked up by the final margin. *)
Lemma process_pricing_markup (cfg : config) (rfp : rfp_record) (out : pricing_output) :
  process_pricing db cfg rfp = Ok out ->
  exists full_cost_base : Q,
    total_cost_base out = trunc full_cost_base
    /\ final_bid_value out = trunc (full_cost_base * (1 + final_margin out)).
Proof.
  unfold process_pricing.
  destruct (float _) as [dist_km|]; [|discriminate]. simpl.
  destruct (costing_loop _ _ _ _ _) as [t|]; [|discriminate]. simpl.
  destruct (calculate_logistics _ _ _ _ _) as [[[log_cost log_risk] zn]|];
    [|discriminate]. simpl.
  destruct (analyze_factory_load _ _ _) as [fact_adj fact_reason].
  destruct (analyze_financials _ _ _ _) as [[fin_cost credit_days] loy_disc].
  destruct (solve_game_theory _ _) as [comp_adj comp_notes].
  destruct (final_margin_stage _ _ _ _ _ _) as [fm ns].
  intros [= <-]. simpl. eexists. split; reflexivity.
Qed.

(** A bid on a positive cost base is never below that cost base. *)
Theorem bid_not_below_cost (settings : option pricing_settings)
    (rfp : rfp_record) (out : pricing_output) :
  process_pricing db (engine_config settings) rfp = Ok out ->
  (0 < total_cost_base out)%Z ->
  (total_cost_base out <= final_bid_value out)%Z.
Proof.
  intros H Hpos.
  destruct (process_pricing_markup _ _ _ H) as (full & Hc & Hb).
  destruct (process_pricing_margin _ _ _ _ H) as (f & l & c & r & notes & Hm).
  pose proof (final_margin_stage_floor (engine_config settings) f l c r notes) as Hfl.
  rewrite <- Hm, engine_config_floor in Hfl. simpl in Hfl.
  rewrite Hc in Hpos. apply trunc_positive in Hpos.
  rewrite Hc, Hb. apply trunc_mono.
  set (m := final_margin out) in *. clearbody m. nra.
Qed.

End BidValueFacts.

Section CompetitorFacts.
Import Py Pricing Spec.
Local Open Scope Q_scope.

Variable db : database.

(** The adjustment and the notes of [solve_game_theory] in terms of the
    matched rivals. *)
Lemma solve_game_theory_parts (codes : list scalar) :
  exists m rs,
    m == largest (matched_concessions db codes)
    /\ List.length rs = List.length (matched_concessions db codes)
    /\ solve_game_theory db (VList codes)
       = if (1 <? List.length rs)%nat
         then (- (m + inject_Z (Z.of_nat (List.length rs - 1)) * (5 # 1000)),
               (rs ++ [MarketPressure (List.length rs - 1)
                         (inject_Z (Z.of_nat (List.length rs - 1)) * (5 # 1000))])%list)
         else (- m, rs).
Proof.
  destruct (game_loop_spec db codes 0 [] (Qle_refl 0)) as (m & rs & Hf & Hv & Hl).
  exists m, rs. split; [|split].
  - rewrite Hv. apply Q.max_r, largest_nonneg.
  - exact Hl.
  - unfold solve_game_theory. rewrite Hf. reflexivity.
Qed.

Lemma concession_of_le (code : scalar) : concession_of db code <= 4 # 100.
Proof.
  unfold concession_of.
  destruct (find_rival db code) as [rival|]; [|discriminate].
  destruct (rival_impact rival) as [[impact n]|] eqn:E; [|discriminate].
  destruct (rival_impact_values rival impact n E)
    as [[-> _]|[[-> _]|[[-> _]|[-> _]]]]; discriminate.
Qed.

Lemma largest_le (l : list Q) (b : Q) :
  0 <= b -> Forall (fun x => x <= b) l -> largest l <= b.
Proof.
  intros Hb H. induction H as [|x l Hx _ IH]; simpl; [exact Hb|].
  apply Q.max_lub; assumption.
Qed.

Lemma matched_concessions_le (codes : list scalar) :
  Forall (fun x => x <= 4 # 100) (matched_concessions db codes).
Proof.
  unfold matched_concessions. apply List.Forall_forall. intros x Hx.
  apply List.filter_In in Hx as [Hx _].
  apply List.in_map_iff in Hx as (code & <- & _). apply concession_of_le.
Qed.

Lemma matched_concessions_length (codes : list scalar) :
  (List.length (matched_concessions db codes) <= List.length codes)%nat.
Proof.
  unfold matched_concessions.
  eapply Nat.le_trans; [apply List.filter_length_le|]. rewrite List.length_map. lia.
Qed.

(** The competitive adjustment never raises the margin, and it lowers it
    by at most 4% plus 0.5% per competitor code beyond the first. *)
Theorem competitor_adjustment_bounds (codes : list scalar) :
  - ((4 # 100) + inject_Z (Z.of_nat (List.length codes - 1)) * (5 # 1000))
  <= fst (solve_game_theory db (VList codes))
  /\ fst (solve_game_theory db (VList codes)) <= 0.
Proof.
  destruct (solve_game_theory_parts codes) as (m & rs & Hm & Hl & ->).
  pose proof (largest_nonneg (matched_concessions db codes)) as H0.
  pose proof (largest_le _ (4 # 100) ltac:(discriminate) (matched_concessions_le codes)) as H4.
  pose proof (matched_concessions_length codes) as Hn.
  rewrite <- Hm in H0, H4. rewrite <- Hl in Hn.
  assert (Hk : inject_Z (Z.of_nat (List.length rs - 1))
               <= inject_Z (Z.of_nat (List.length codes - 1))).
  { rewrite <- Zle_Qle. lia. }
  assert (Hk0 : 0 <= inject_Z (Z.of_nat (List.length rs - 1))).
  { change 0 with (inject_Z 0). rewrite <- Zle_Qle. lia. }
  assert (Hc0 : 0 <= inject_Z (Z.of_nat (List.length codes - 1))).
  { change 0 with (inject_Z 0). rewrite <- Zle_Qle. lia. }
  destruct (1 <? List.length rs)%nat; simpl; split; lra.
Qed.

Lemma largest_perm (l l' : list Q) : Permutation l l' -> largest l == largest l'.
Proof.
  induction 1 as [|x l l' _ IH|x y l|l l' l'' _ IH1 _ IH2]; simpl.
  - reflexivity.
  - rewrite IH. reflexivity.
  - rewrite !Q.max_assoc, (Q.max_comm y x). reflexivity.
  - rewrite IH1. exact IH2.
Qed.

Lemma matched_concessions_perm (codes codes' : list scalar) :
  Permutation codes codes' ->
  Permutation (matched_concessions db codes) (matched_concessions db codes').
Proof.
  intro H. unfold matched_concessions.
  induction H as [|x l l' _ IH|x y l|l l' l'' _ IH1 _ IH2]; simpl.
  - constructor.
  - destruct (Qltb 0 _); [constructor|]; exact IH.
  - destruct (Qltb 0 (concession_of db y)); destruct (Qltb 0 (concession_of db x));
      try apply Permutation_refl. apply perm_swap.
  - eapply Permutation_trans; eassumption.
Qed.

(** The order in which the competitors are listed does not change the
    adjustment. *)
Theorem competitor_adjustment_order (codes codes' : list scalar) :
  Permutation codes codes' ->
  fst (solve_game_theory db (VList codes)) == fst (solve_game_theory db (VList codes')).
Proof.
  intro H.
  destruct (solve_game_theory_parts codes) as (m & rs & Hm & Hl & ->).
  destruct (solve_game_theory_parts codes') as (m' & rs' & Hm' & Hl' & ->).
  pose proof (matched_concessions_perm _ _ H) as Hp.
  assert (Hmm : m == m').
  { rewrite Hm, Hm'. apply largest_perm, Hp. }
  assert (Hll : List.length rs = List.length rs').
  { rewrite Hl, Hl'. apply Permutation_length, Hp. }
  rewrite Hll. destruct (1 <? List.length rs')%nat; simpl; rewrite Hmm; reflexivity.
Qed.

End CompetitorFacts.

Section DrumFacts.
Import Py Pricing Spec.
Local Open Scope Q_scope.

(** The drums of an item hold its quantity at 500 metres a drum, and one
    drum fewer would not. *)
Theorem drums_for_covers (qty : Q) :
  qty <= 500 * inject_Z (drums_for qty)
  /\ 500 * inject_Z (drums_for qty - 1) < qty.
Proof.
  unfold drums_for, ceil.
  pose proof (Qle_ceiling (qty / 500)) as H1.
  pose proof (Qceiling_lt (qty / 500)) as H2.
  set (d := Qceiling (qty / 500)) in *. clearbody d.
  assert (E : qty == 500 * (qty / 500)) by (field).
  set (x := qty / 500) in *. clearbody x.
  split; rewrite E; lra.
Qed.

End DrumFacts.

Section BomFacts.
Import Py Pricing Spec.
Local Open Scope Q_scope.

Variable db : database.
Variable cfg : config.

(** Scaling the quantity scales the running material cost and risk
    buffer of the BOM loop and keeps the number of breakdown lines. *)
Lemma bom_loop_scale (k q : Q) (bom : list bom_item)
    (m r : Q) (b : list bom_line) (m' r' : Q) (b' : list bom_line)
    (m1 r1 : Q) (b1 : list bom_line) :
  m' == k * m -> r' == k * r ->
  bom_loop db cfg q bom (m, r, b) = Ok (m1, r1, b1) ->
  exists m2 r2 b2,
    bom_loop db cfg (k * q) bom (m', r', b') = Ok (m2, r2, b2)
    /\ m2 == k * m1 /\ r2 == k * r1.
Proof.
  revert m r b m' r' b'.
  induction bom as [|item bom IH]; intros m r b m' r' b' Hm Hr; simpl.
  - intros [= <- <- <-]. exists m', r', b'. split; [reflexivity|]. split; assumption.
  - destruct (float _) as [qpm|]; simpl; [|discriminate].
    destruct (first_match _ _) as [mat|].
    + destruct (py_eq _ _); intro H; eapply IH in H; try exact H.
      * rewrite Hm. ring.
      * rewrite Hr. ring.
      * rewrite Hm. ring.
      * exact Hr.
    + intro H. eapply IH in H; try exact H; [rewrite Hm; ring|exact Hr].
Qed.

(** Manufacturing cost, weight, risk buffer and overhead of a product are
    proportional to the quantity: there is no volume effect in the cost
    of a product. *)
Theorem bom_cost_proportional (product_id : value) (k q : Q)
    (cost wt : Q) (lines : list bom_line) (risk overhead : Q) :
  calculate_micro_bom_cost db cfg product_id q = Ok (cost, wt, lines, risk, overhead) ->
  exists cost' wt' lines' risk' overhead',
    calculate_micro_bom_cost db cfg product_id (k * q)
    = Ok (cost', wt', lines', risk', overhead')
    /\ cost' == k * cost /\ wt' == k * wt
    /\ risk' == k * risk /\ overhead' == k * overhead.
Proof.
  unfold calculate_micro_bom_cost.
  destruct (first_match _ (PRODUCTS db)) as [prod|].
  2:{ intros [= <- <- <- <- <-]. do 5 eexists. split; [reflexivity|].
      repeat split; ring. }
  set (bom := match bill_of_materials prod with
              | [] => bill_of_materials_enriched prod
              | b => b
              end).
  destruct bom as [|it bom'].
  - simpl. intros [= <- <- <- <- <-]. do 5 eexists. split; [reflexivity|].
    repeat split; try ring; try field.
  - destruct (bom_loop db cfg q (it :: bom') (0, 0, [])) as [[[m1 r1] b1]|] eqn:E;
      [|discriminate].
    destruct (bom_loop_scale k q (it :: bom') 0 0 [] 0 0 [] m1 r1 b1
                ltac:(ring) ltac:(ring) E) as (m2 & r2 & b2 & E2 & Hm & Hr).
    rewrite E2. cbv beta iota zeta. simpl bind.
    intros [= <- <- <- <- <-]. do 5 eexists. split; [reflexivity|].
    repeat split; try (rewrite Hm, ?Hr; ring); try (rewrite Hr; ring); try field.
Qed.

End BomFacts.

Section BlockFacts.
Import Py Pricing Spec.
Local Open Scope Q_scope.

Variable db : database.
Variable cfg : config.

Lemma fold_left_Qplus (l : list Q) (a : Q) :
  fold_left Qplus l a == a + fold_left Qplus l 0.
Proof.
  revert a. induction l as [|x l IH]; intro a; simpl; [ring|].
  rewrite (IH (a + x)), (IH (0 + x)). ring.
Qed.

Lemma Qsum_cons (x : Q) (l : list Q) : Qsum (x :: l) == x + Qsum l.
Proof. unfold Qsum. simpl. rewrite fold_left_Qplus. ring. Qed.

(** The costing loop appends one block per item, in order, and adds the
    block's figures to the running totals. *)
Lemma costing_loop_blocks (required_tests : list scalar)
    (items : list Tech.match_result) (acc t : totals) :
  costing_loop db cfg required_tests items acc = Ok t ->
  exists new,
    blocks t = (blocks acc ++ new)%list
    /\ Forall2 (fun item b => item_qty item = Ok (pb_qty b)) items new
    /\ total_mfg t == total_mfg acc + Qsum (List.map pb_cost new)
    /\ total_pkg t == total_pkg acc + Qsum (List.map pb_pkg new)
    /\ total_test t == total_test acc + Qsum (List.map pb_test new).
Proof.
  revert acc. induction items as [|item items IH]; intros acc; simpl.
  - intros [= <-]. exists []. rewrite app_nil_r.
    split; [reflexivity|]. split; [constructor|].
    unfold Qsum. simpl. repeat split; ring.
  - unfold costing_step.
    destruct (item_qty item) as [qty|] eqn:Eq; simpl; [|discriminate].
    destruct (calculate_micro_bom_cost _ _ _ _) as [[[[[mfg wt] bd] rk] oh]|];
      simpl; [|discriminate].
    intro H. apply IH in H. simpl in H.
    destruct H as (new & Hb & Hq & Hm & Hp & Ht).
    eexists (_ :: new). rewrite Hb, <- app_assoc. simpl.
    split; [reflexivity|]. split; [constructor; [exact Eq|exact Hq]|].
    rewrite !Qsum_cons, Hm, Hp, Ht. cbn [pb_cost pb_pkg pb_test].
    repeat split; ring.
Qed.

(** The per-product blocks of a bid: one block per matched item, in
    order, holding the quantity priced for the item; the material,
    packaging and testing totals of the bid are the sums over the
    blocks. *)
Theorem bid_totals_are_block_sums (rfp : rfp_record) (out : pricing_output) :
  process_pricing db cfg rfp = Ok out ->
  Forall2 (fun item b => item_qty item = Ok (pb_qty b))
          (matched_line_items rfp) (product_breakdowns out)
  /\ total_material_cost out = trunc (Qsum (List.map pb_cost (product_breakdowns out)))
  /\ total_packaging_cost out = trunc (Qsum (List.map pb_pkg (product_breakdowns out)))
  /\ total_testing_cost out = trunc (Qsum (List.map pb_test (product_breakdowns out))).
Proof.
  unfold process_pricing.
  destruct (float _) as [dist_km|]; [|discriminate]. simpl.
  destruct (costing_loop _ _ _ _ _) as [t|] eqn:Ec; [|discriminate]. simpl.
  destruct (calculate_logistics _ _ _ _ _) as [[[log_cost log_risk] zn]|];
    [|discriminate]. simpl.
  destruct (analyze_factory_load _ _ _) as [fact_adj fact_reason].
  destruct (analyze_financials _ _ _ _) as [[fin_cost credit_days] loy_disc].
  destruct (solve_game_theory _ _) as [comp_adj comp_notes].
  destruct (final_margin_stage _ _ _ _ _ _) as [fm ns].
  intros [= <-]. simpl.
  apply costing_loop_blocks in Ec. simpl in Ec.
  destruct Ec as (new & -> & Hq & Hm & Hp & Ht).
  split; [exact Hq|].
  repeat split; apply trunc_comp; [rewrite Hm|rewrite Hp|rewrite Ht]; ring.
Qed.

End BlockFacts.

Section RerankFacts.
Import Py Priority Spec.
Local Open Scope Q_scope.

Variable inventory_tokens : list (gset string).
Variable clients : list client.
Variable max_urgency_days : Q.
Variable days_left_of : string -> option Z.

Local Abbreviation score := (score_rfp inventory_tokens clients max_urgency_days days_left_of).
Local Abbreviation scored_rfps l :=
  (sort_desc (score_active inventory_tokens clients max_urgency_days days_left_of l)).
Local Abbreviation ranked l :=
  (recalculate_all_priorities inventory_tokens clients max_urgency_days days_left_of l).

(** Every entry of the sorted list has a rank in the rank map. *)
Lemma build_rank_map_in (l : list scored) (i : nat) (m : gmap string Z) (k : string) :
  In k (List.map sid l) -> is_Some (build_rank_map l i m !! k).
Proof.
  revert i m. induction l as [|x l IH]; intros i m Hk; simpl in *; [tauto|].
  destruct (in_dec string_dec k (List.map sid l)) as [Hin|Hin].
  - apply IH, Hin.
  - rewrite build_rank_map_notin by exact Hin.
    destruct Hk as [<-|Hk]; [|tauto]. rewrite lookup_insert_eq. eexists. reflexivity.
Qed.

(** An active record always gets a rank and score data, whether or not
    identifiers repeat. *)
Lemma active_has_entry (l : list rfp) (r : rfp) :
  In r l -> active r = true ->
  exists k sd,
    rank_map_of (scored_rfps l) !! rfp_unique_id r = Some k
    /\ List.find (fun x => (sid x =? rfp_unique_id r)%string) (scored_rfps l) = Some sd.
Proof.
  intros Hr Ha.
  assert (Hin : In (score r) (scored_rfps l)).
  { apply scored_elements. exists r. repeat split; assumption. }
  destruct (build_rank_map_in (scored_rfps l) 0 ∅ (rfp_unique_id r)) as [k Hk].
  { change (rfp_unique_id r) with (sid (score r)). apply in_map, Hin. }
  destruct (List.find _ (scored_rfps l)) as [sd|] eqn:E.
  - exists k, sd. split; [exact Hk|reflexivity].
  - exfalso. pose proof (find_none _ _ E _ Hin) as Hn. simpl in Hn.
    rewrite String.eqb_refl in Hn. discriminate.
Qed.

(** Two records that differ at most in the stored ranking output. *)
Local Abbreviation same_input r r' := (set_output r Archived = set_output r' Archived).

Lemma same_input_output (r r' : rfp) (o : priority_output) :
  same_input r r' -> set_output r o = set_output r' o.
Proof.
  destruct r, r'. unfold set_output. simpl. intros [= -> -> -> -> -> ->]. reflexivity.
Qed.

Lemma same_input_fields (r r' : rfp) :
  same_input r r' ->
  rfp_unique_id r = rfp_unique_id r' /\ is_archived r = is_archived r'
  /\ score r = score r'.
Proof.
  intro H. split; [|split].
  - apply (f_equal rfp_unique_id) in H. exact H.
  - apply (f_equal is_archived) in H. exact H.
  - rewrite <- (score_set_output _ _ _ _ r Archived), H. apply score_set_output.
Qed.

Lemma score_active_same (l l' : list rfp) :
  Forall2 (fun r r' => same_input r r') l l' ->
  score_active inventory_tokens clients max_urgency_days days_left_of l
  = score_active inventory_tokens clients max_urgency_days days_left_of l'.
Proof.
  unfold score_active. induction 1 as [|r r' l l' H _ IH]; simpl; [reflexivity|].
  destruct (same_input_fields r r' H) as (_ & Ha & Hs).
  rewrite <- Ha. destruct (negb (truthy (is_archived r))); simpl; rewrite IH; [|reflexivity].
  f_equal. exact Hs.
Qed.

Lemma assign_rank_same_input (sc : list scored) (m : gmap string Z) (r : rfp) :
  same_input r (assign_rank sc m (stamp_archived r)).
Proof.
  unfold assign_rank, stamp_archived.
  destruct (truthy (is_archived r)); simpl;
    destruct (m !! rfp_unique_id r); try reflexivity;
    destruct (List.find _ sc); reflexivity.
Qed.

(** The ranking reads nothing of the ranking stored before: collections
    that differ only in the stored output are ranked alike. *)
Lemma ranking_ignores_stored_output (l l' : list rfp) :
  Forall2 (fun r r' => same_input r r') l l' -> ranked l = ranked l'.
Proof.
  intro H. rewrite !ranked_entries. rewrite <- (score_active_same l l' H).
  assert (Hgen : forall l0 la lb,
    Forall2 (fun r r' => same_input r r') la lb ->
    (forall r, In r la -> In r l0) ->
    List.map (fun r => assign_rank (scored_rfps l0) (rank_map_of (scored_rfps l0))
                                   (stamp_archived r)) la
    = List.map (fun r => assign_rank (scored_rfps l0) (rank_map_of (scored_rfps l0))
                                     (stamp_archived r)) lb).
  { intros l0 la lb Hf.
    induction Hf as [|r r' la lb Hr _ IH]; intro Hin; simpl; [reflexivity|].
    f_equal; [|apply IH; intros x Hx; apply Hin; right; exact Hx].
    destruct (same_input_fields r r' Hr) as (Hid & Ha & _).
    unfold stamp_archived. rewrite <- Ha.
    destruct (truthy (is_archived r)) eqn:Et.
    - rewrite (same_input_output r r' Archived Hr). reflexivity.
    - destruct (active_has_entry l0 r) as (k & sd & Hk & Hf').
      + apply Hin. left. reflexivity.
      + unfold active. rewrite Et. reflexivity.
      + unfold assign_rank. rewrite <- Hid, Hk, Hf'.
        apply same_input_output, Hr. }
  apply Hgen; [exact H|auto].
Qed.

(** Ranking a collection that has just been ranked changes nothing. *)
Theorem recalculate_all_priorities_idempotent (rfp_list : list rfp) :
  ranked (ranked rfp_list) = ranked rfp_list.
Proof.
  symmetry. apply ranking_ignores_stored_output.
  rewrite ranked_entries.
  induction rfp_list as [|r l IH]; simpl; constructor.
  - apply assign_rank_same_input.
  - clear IH. generalize (r :: l) as l0. intro l0.
    induction l as [|r' l IH]; simpl; constructor; [apply assign_rank_same_input|exact IH].
Qed.

Lemma assign_rank_active (sc : list scored) (m : gmap string Z) (r : rfp) :
  active (assign_rank sc m (stamp_archived r)) = active r.
Proof.
  unfold active. f_equal. f_equal.
  pose proof (assign_rank_same_input sc m r) as H.
  apply (f_equal is_archived) in H. symmetry. exact H.
Qed.

Lemma filter_active_twice (l : list rfp) :
  score_active inventory_tokens clients max_urgency_days days_left_of
    (List.filter active l)
  = score_active inventory_tokens clients max_urgency_days days_left_of l.
Proof.
  unfold score_active. f_equal.
  induction l as [|r l IH]; simpl; [reflexivity|].
  unfold active at 1. destruct (negb (truthy (is_archived r))) eqn:E; simpl.
  - rewrite E. f_equal. exact IH.
  - exact IH.
Qed.

(** Archived records have no effect on the others: ranking the active
    records alone gives them the ranks, scores and breakdowns they get
    when the archived records are present. *)
Theorem archived_records_do_not_affect_ranking (rfp_list : list rfp) :
  ranked (List.filter active rfp_list) = List.filter active (ranked rfp_list).
Proof.
  rewrite !ranked_entries, filter_active_twice.
  symmetry. apply filter_map_same.
  intros r _. apply assign_rank_active.
Qed.

End RerankFacts.

Section ScoreRangeFacts.
Import Py Priority Spec.
Local Open Scope Q_scope.

Variable inventory_tokens : list (gset string).
Variable clients : list client.
Variable max_urgency_days : Q.
Variable days_left_of : string -> option Z.

Local Abbreviation score := (score_rfp inventory_tokens clients max_urgency_days days_left_of).

(** The urgency score lies between 0 and 1, whatever the window. *)
Lemma get_urgency_score_range (deadline_str : value) :
  0 <= get_urgency_score max_urgency_days days_left_of deadline_str <= 1.
Proof.
  unfold get_urgency_score.
  destruct (negb (truthy deadline_str)); [split; discriminate|].
  destruct (days_left_of _) as [d|]; [|split; discriminate].
  destruct (d <? 0)%Z; [split; discriminate|].
  destruct (Qeq_bool max_urgency_days 0) eqn:E; [split; discriminate|].
  apply Qeq_bool_neq in E.
  set (c := Qmax 0 (Qmin (inject_Z d) max_urgency_days)).
  assert (Hc0 : 0 <= c) by apply Q.le_max_l.
  destruct (Qlt_le_dec 0 max_urgency_days) as [Hpos|Hneg].
  - assert (Hc1 : c <= max_urgency_days).
    { apply Q.max_lub; [apply Qlt_le_weak, Hpos|apply Q.le_min_r]. }
    assert (H0 : 0 <= c / max_urgency_days).
    { apply Qle_shift_div_l; [exact Hpos|]. rewrite Qmult_0_l. exact Hc0. }
    assert (H1 : c / max_urgency_days <= 1).
    { apply Qle_shift_div_r; [exact Hpos|]. rewrite Qmult_1_l. exact Hc1. }
    set (t := c / max_urgency_days) in *. clearbody t. split; lra.
  - assert (Hc : c == 0).
    { apply Q.max_l. eapply Qle_trans; [apply Q.le_min_r|exact Hneg]. }
    assert (Ht : c / max_urgency_days == 0).
    { rewrite Hc. unfold Qdiv. apply Qmult_0_l. }
    rewrite Ht. split; discriminate.
Qed.

(** The similarity of two token sets is a proportion. *)
Lemma _calculate_similarity_range (text_a : value) (tokens_b : gset string) :
  0 <= _calculate_similarity text_a tokens_b <= 1.
Proof.
  unfold _calculate_similarity.
  destruct (bool_decide (_tokenize text_a = ∅)) eqn:Ea; [split; discriminate|].
  destruct (bool_decide (tokens_b = ∅)) eqn:Eb; [split; discriminate|].
  simpl. apply bool_decide_eq_false in Ea.
  set (a := _tokenize text_a) in *.
  assert (Hle : (size (a ∩ tokens_b) <= size (a ∪ tokens_b))%nat).
  { apply subseteq_size. etrans; [apply intersection_subseteq_l|apply union_subseteq_l]. }
  assert (Hpos : (0 < size (a ∪ tokens_b))%nat).
  { destruct (size (a ∪ tokens_b)) eqn:Es; [|lia].
    exfalso. apply Ea. apply size_empty_inv in Es.
    apply leibniz_equiv. set_solver. }
  assert (Hu : 0 < inject_Z (Z.of_nat (size (a ∪ tokens_b)))).
  { change 0 with (inject_Z 0). rewrite <- Zlt_Qlt. lia. }
  split.
  - apply Qle_shift_div_l; [exact Hu|]. rewrite Qmult_0_l.
    change 0 with (inject_Z 0). rewrite <- Zle_Qle. lia.
  - apply Qle_shift_div_r; [exact Hu|]. rewrite Qmult_1_l.
    rewrite <- Zle_Qle. lia.
Qed.

Lemma item_fit_score_range (desc : value) :
  0 <= item_fit_score inventory_tokens desc <= 1.
Proof.
  unfold item_fit_score.
  repeat (destruct (Qle_bool _ _); [split; discriminate|]). split; discriminate.
Qed.

Lemma Qsum_range (l : list Q) (a b : Q) :
  Forall (fun x => a <= x <= b) l ->
  inject_Z (Z.of_nat (List.length l)) * a <= Qsum l
  /\ Qsum l <= inject_Z (Z.of_nat (List.length l)) * b.
Proof.
  unfold Qsum.
  assert (Hgen : forall acc,
    Forall (fun x => a <= x <= b) l ->
    acc + inject_Z (Z.of_nat (List.length l)) * a <= fold_left Qplus l acc
    /\ fold_left Qplus l acc <= acc + inject_Z (Z.of_nat (List.length l)) * b).
  { induction l as [|x l IH]; intros acc H; simpl fold_left.
    - change (inject_Z (Z.of_nat (List.length (@nil Q)))) with 0. split; lra.
    - inversion H as [|? ? [Hx1 Hx2] Hl]; subst.
      destruct (IH (acc + x) Hl) as [I1 I2]. clear IH.
      simpl List.length. rewrite Nat2Z.inj_succ, <- Z.add_1_r, inject_Z_plus.
      set (n := inject_Z (Z.of_nat (List.length l))) in *. clearbody n.
      set (f := fold_left Qplus l (acc + x)) in *. clearbody f.
      change (inject_Z 1) with 1. split; lra. }
  intro H. destruct (Hgen 0 H) as [H1 H2]. split; lra.
Qed.

Lemma mean_range (l : list Q) (a b : Q) :
  l <> [] -> Forall (fun x => a <= x <= b) l ->
  a <= Qsum l / inject_Z (Z.of_nat (List.length l)) <= b.
Proof.
  intros Hne H. destruct (Qsum_range l a b H) as [H1 H2].
  assert (Hn : 0 < inject_Z (Z.of_nat (List.length l))).
  { change 0 with (inject_Z 0). rewrite <- Zlt_Qlt.
    destruct l; [congruence|simpl; lia]. }
  split.
  - apply Qle_shift_div_l; [exact Hn|]. rewrite Qmult_comm. exact H1.
  - apply Qle_shift_div_r; [exact Hn|]. rewrite Qmult_comm. exact H2.
Qed.

Lemma get_product_fit_score_range (rfp_items : list value) :
  0 <= get_product_fit_score inventory_tokens rfp_items <= 1.
Proof.
  unfold get_product_fit_score.
  destruct rfp_items as [|d ds]; [split; discriminate|].
  apply mean_range; [discriminate|].
  apply List.Forall_forall. intros x Hx.
  apply List.in_map_iff in Hx as (y & <- & _). apply item_fit_score_range.
Qed.

Lemma get_relationship_score_range (name_in : value) :
  1 # 2 <= get_relationship_score clients name_in <= 9 # 10.
Proof.
  unfold get_relationship_score.
  destruct (List.find _ clients); [|split; discriminate].
  unfold tier_score.
  repeat (destruct (Pricing.py_eq _ _); [split; discriminate|]). split; discriminate.
Qed.

(** The composite score of an RFP whose match scores are percentages
    lies between 0.25 and 1.425. *)
Lemma score_rfp_range (r : rfp) :
  Forall (fun s => 0 <= s <= 100) (matched_line_items r) ->
  1 # 4 <= total (score r) <= 57 # 40.
Proof.
  intro H. unfold score_rfp. cbn [total].
  pose proof (get_relationship_score_range (default (VStr "") (summary_client_name r)))
    as [Hr1 Hr2].
  pose proof (get_urgency_score_range (submission_deadline r)) as [Hu1 Hu2].
  set (rel := get_relationship_score clients _) in *. clearbody rel.
  set (u := get_urgency_score max_urgency_days days_left_of _) in *. clearbody u.
  match goal with |- context [(?m + rel) / 2] => set (p := m) end.
  assert (Hp : 0 <= p <= 1).
  { unfold p. destruct (matched_line_items r) as [|s ss] eqn:E.
    - apply get_product_fit_score_range.
    - destruct (mean_range (s :: ss) 0 100 ltac:(discriminate) H) as [M1 M2].
      set (m := Priority.Qsum (s :: ss) / _) in *. clearbody m.
      split.
      + apply Qle_shift_div_l; [reflexivity|]. lra.
      + apply Qle_shift_div_r; [reflexivity|]. lra. }
  clearbody p. destruct Hp as [Hp0 Hp1].
  assert (Ew : (p + rel) / 2 == (p + rel) * (1 # 2)) by field.
  rewrite Ew.
  set (w := (p + rel) * (1 # 2)).
  assert (Hw : 1 # 4 <= w <= 19 # 20) by (unfold w; split; lra).
  clearbody w. destruct Hw as [Hw0 Hw1].
  set (t := 1 + (1 # 2) * u).
  assert (Ht : 1 <= t <= 3 # 2) by (unfold t; split; lra).
  clearbody t. destruct Ht as [Ht0 Ht1].
  split.
  - apply Qle_trans with (w * 1); [lra|].
    apply Qmult_le_l; [lra|exact Ht0].
  - apply Qle_trans with (w * (3 # 2)); [|lra].
    apply Qmult_le_l; [lra|exact Ht1].
Qed.

(** The components of the priority score are proportions: the similarity
    of an item to a product and the product fit of an RFP lie between 0
    and 1, the relationship score between 0.5 and 0.9, the urgency between
    0 and 1 whatever the window and the deadline. *)
Theorem score_components_ranges (text_a : value) (tokens_b : gset string)
    (rfp_items : list value) (name_in deadline_str : value) :
  0 <= _calculate_similarity text_a tokens_b <= 1
  /\ 0 <= get_product_fit_score inventory_tokens rfp_items <= 1
  /\ 1 # 2 <= get_relationship_score clients name_in <= 9 # 10
  /\ 0 <= get_urgency_score max_urgency_days days_left_of deadline_str <= 1.
Proof.
  split; [apply _calculate_similarity_range|].
  split; [apply get_product_fit_score_range|].
  split; [apply get_relationship_score_range|apply get_urgency_score_range].
Qed.

End ScoreRangeFacts.

Section PriorityScoreFacts.
Import Py Priority Spec.
Local Open Scope Q_scope.

Variable inventory_tokens : list (gset string).
Variable clients : list client.
Variable max_urgency_days : Q.
Variable days_left_of : string -> option Z.

Local Abbreviation score := (score_rfp inventory_tokens clients max_urgency_days days_left_of).
Local Abbreviation scored_rfps l :=
  (sort_desc (score_active inventory_tokens clients max_urgency_days days_left_of l)).
Local Abbreviation ranked l :=
  (recalculate_all_priorities inventory_tokens clients max_urgency_days days_left_of l).

Lemma priority_score_of_total (t : Q) :
  1 # 4 <= t <= 57 # 40 -> 25 <= round (t * 100) 1 <= 1425 # 10.
Proof.
  intros [H1 H2]. split.
  - apply Qle_trans with (round 25 1).
    + rewrite (round_int 25 1). apply Qle_refl.
    + apply round_mono. lra.
  - apply Qle_trans with (round (1425 # 10) 1).
    + apply round_mono. lra.
    + vm_compute. discriminate.
Qed.

(** When the match scores are percentages, every priority score written
    is between 25 and 142.5. *)
Theorem priority_score_range (rfp_list : list rfp) :
  Forall (fun r => Forall (fun s => 0 <= s <= 100) (matched_line_items r)) rfp_list ->
  Forall (fun r => forall k ps bd,
            sales_agent_2_output r = Some (Ranked k ps bd) ->
            25 <= ps <= 1425 # 10)
         (ranked rfp_list).
Proof.
  intro H. rewrite ranked_entries. apply List.Forall_forall. intros x Hx.
  apply List.in_map_iff in Hx as (r & <- & Hr).
  assert (Hsd : forall sd,
    List.find (fun x => (sid x =? rfp_unique_id r)%string) (scored_rfps rfp_list) = Some sd ->
    25 <= round (total sd * 100) 1 <= 1425 # 10).
  { intros sd Hf. apply find_some in Hf as [Hin _].
    apply scored_elements in Hin as (r' & Hr' & _ & ->).
    apply priority_score_of_total, score_rfp_range.
    rewrite List.Forall_forall in H. apply H, Hr'. }
  unfold stamp_archived. destruct (truthy (is_archived r)) eqn:Et.
  - unfold assign_rank. simpl rfp_unique_id.
    destruct (rank_map_of _ !! rfp_unique_id r); [|simpl; discriminate].
    destruct (List.find _ _) as [sd|] eqn:Ef; [|simpl; discriminate].
    simpl. intros k ps bd [= <- <- <-]. apply Hsd. reflexivity.
  - destruct (active_has_entry inventory_tokens clients max_urgency_days days_left_of
                rfp_list r Hr) as (k0 & sd & Hk & Hf).
    { unfold active. rewrite Et. reflexivity. }
    unfold assign_rank. rewrite Hk, Hf. simpl.
    intros k ps bd [= <- <- <-]. apply Hsd, Hf.
Qed.

End PriorityScoreFacts.

Section CompetitorReportFacts.
Import Py Tech TechPipeline Spec.
Local Open Scope Q_scope.

Variable competitors : list competitor.

(** The row written for an item and a competitor. *)
Local Abbreviation row_of item comp :=
  {| cr_lot_id := m_lot_id item;
     cr_competitor := comp_name comp;
     cr_comment := String.append "Direct competitor for " (str (matched_sku_id item)) |}.

Local Abbreviation collides item comp :=
  (py_in (matched_sku_id item) (default (VList []) (colliding_internal_skus comp)) = Ok true).

Lemma scan_competitors_spec (item : match_result) (comps : list competitor)
    (rep rep' : list competitor_row) :
  scan_competitors item comps rep = Ok rep' ->
  exists new,
    rep' = (rep ++ new)%list
    /\ forall row, In row new <->
                   exists comp, In comp comps /\ collides item comp /\ row = row_of item comp.
Proof.
  revert rep. induction comps as [|comp comps IH]; intros rep; simpl.
  - intros [= <-]. exists []. rewrite app_nil_r. split; [reflexivity|].
    intro row. split; [intros []|intros (c & [] & _)].
  - destruct (py_in _ _) as [hit|] eqn:Eh; simpl; [|discriminate].
    intro H. apply IH in H as (new & -> & Hnew).
    destruct hit.
    + exists (row_of item comp :: new). rewrite <- app_assoc. split; [reflexivity|].
      intro row. simpl. rewrite Hnew. split.
      * intros [<-|(c & Hc & Hh & ->)].
        -- exists comp. repeat split; auto.
        -- exists c. repeat split; auto.
      * intros (c & [<-|Hc] & Hh & ->); [left; reflexivity|].
        right. exists c. repeat split; auto.
    + exists new. split; [reflexivity|].
      intro row. rewrite Hnew. split.
      * intros (c & Hc & Hh & ->). exists c. repeat split; auto.
      * intros (c & [<-|Hc] & Hh & ->); [congruence|].
        exists c. repeat split; auto.
Qed.

Lemma competitors_loop_spec (items : list match_result) (rep rep' : list competitor_row) :
  competitors_loop competitors items rep = Ok rep' ->
  exists new,
    rep' = (rep ++ new)%list
    /\ forall row, In row new <->
                   exists item comp, In item items /\ In comp competitors
                                     /\ collides item comp /\ row = row_of item comp.
Proof.
  revert rep. induction items as [|item items IH]; intros rep; simpl.
  - intros [= <-]. exists []. rewrite app_nil_r. split; [reflexivity|].
    intro row. split; [intros []|intros (i & c & [] & _)].
  - destruct (scan_competitors item competitors rep) as [rep1|] eqn:Es; simpl; [|discriminate].
    apply scan_competitors_spec in Es as (new1 & -> & H1).
    intro H. apply IH in H as (new2 & -> & H2).
    exists (new1 ++ new2)%list. rewrite app_assoc. split; [reflexivity|].
    intro row. rewrite in_app_iff, H1, H2. split.
    + intros [(c & Hc & Hh & ->)|(i & c & Hi & Hc & Hh & ->)].
      * exists item, c. repeat split; auto.
      * exists i, c. repeat split; auto.
    + intros (i & c & [<-|Hi] & Hc & Hh & ->).
      * left. exists c. repeat split; auto.
      * right. exists i, c. repeat split; auto.
Qed.

(** The competitor report holds exactly one kind of row: the lot of a
    matched item with the name of a competitor whose list of colliding
    products contains the product matched to the item. *)
Theorem analyze_competitors_rows (matched_items : list match_result)
    (report : list competitor_row) :
  analyze_competitors competitors matched_items = Ok report ->
  forall row,
    In row report <->
    exists item comp,
      In item matched_items /\ In comp competitors
      /\ collides item comp /\ row = row_of item comp.
Proof.
  intro H. apply competitors_loop_spec in H as (new & -> & Hnew). exact Hnew.
Qed.

End CompetitorReportFacts.

Section TestingCostFacts.
Import Py Tech TechPipeline Spec.
Local Open Scope Q_scope.

Variable tests : list test.

Lemma set_add_elements (x : scalar) (s : list scalar) (c : scalar) :
  In c (set_add x s) -> In c s \/ c = x.
Proof.
  unfold set_add. destruct (existsb _ s); [left; assumption|].
  rewrite in_app_iff. simpl. intros [H|[H|[]]]; [left; exact H|right; symmetry; exact H].
Qed.

(** The inner loop charges only tests of the list, never a negative
    amount when no base cost is negative, and reports only their codes. *)
Lemma tests_loop_spec (ht ar fr : bool) (drums : Q) (l : list test)
    (cost : Q) (codes : list scalar) (cost' : Q) (codes' : list scalar) :
  tests_loop ht ar fr drums l (cost, codes) = Ok (cost', codes') ->
  (forall c, In c codes' -> In c codes \/ In c (List.map test_id l))
  /\ (1 <= drums -> Forall (fun t => 0 <= default 0 (base_test_cost t)) l ->
      cost <= cost').
Proof.
  revert cost codes. induction l as [|t l IH]; intros cost codes; simpl.
  - intros [= <- <-]. split; [auto|]. intros _ _. apply Qle_refl.
  - unfold test_step.
    destruct (applies _ _ _ _) as [a|]; simpl; [|discriminate].
    destruct a.
    + intro H. apply IH in H as [Hc Hn]. split.
      * intros c Hin. apply Hc in Hin as [Hin|Hin]; [|right; right; exact Hin].
        apply set_add_elements in Hin as [Hin| ->]; [left; exact Hin|right; left; reflexivity].
      * intros Hd Hall. inversion Hall as [|? ? Ht Hl]; subst.
        eapply Qle_trans; [|apply Hn; assumption].
        set (b := default 0 (base_test_cost t)) in *. clearbody b.
        destruct (contains _ _); [|lra].
        assert (0 <= b * drums) by (apply Qmult_le_0_compat; lra). lra.
    + intro H. apply IH in H as [Hc Hn]. split.
      * intros c Hin. apply Hc in Hin as [Hin|Hin]; [left; exact Hin|right; right; exact Hin].
      * intros Hd Hall. inversion Hall; subst. apply Hn; assumption.
Qed.

Lemma testing_loop_spec (items : list match_result)
    (total : Q) (details : list test_detail) (codes : list scalar)
    (total' : Q) (details' : list test_detail) (codes' : list scalar) :
  testing_loop tests items (total, details, codes) = Ok (total', details', codes') ->
  exists new,
    details' = (details ++ new)%list
    /\ List.map td_lot_id new = List.map m_lot_id items
    /\ total' == total + Pricing.Qsum (List.map test_cost new)
    /\ (forall c, In c codes' -> In c codes \/ In c (List.map test_id tests))
    /\ (Forall (fun t => 0 <= default 0 (base_test_cost t)) tests ->
        Forall (fun d => 0 <= test_cost d) new).
Proof.
  revert total details codes.
  induction items as [|item items IH]; intros total details codes; simpl.
  - intros [= <- <- <-]. exists []. rewrite app_nil_r.
    repeat split; auto. unfold Pricing.Qsum. simpl. ring.
  - unfold testing_step.
    destruct (upper_of (matched_sku_name item)) as [sku_name|]; simpl; [|discriminate].
    destruct (upper_of (rfp_description item)) as [desc|]; simpl; [|discriminate].
    destruct (testing_qty item) as [qty|]; simpl; [|discriminate].
    destruct (tests_loop _ _ _ _ _ _) as [[item_cost codes1]|] eqn:Et; simpl; [|discriminate].
    apply tests_loop_spec in Et as [Hc1 Hn1].
    intro H. apply IH in H as (new & -> & Hl & Hs & Hc & Hn).
    eexists (_ :: new). rewrite <- app_assoc. simpl.
    split; [reflexivity|]. split; [f_equal; exact Hl|].
    split; [|split].
    + rewrite Hs, Qsum_cons. simpl. ring.
    + intros c Hin. apply Hc in Hin as [Hin|Hin]; [|right; exact Hin].
      apply Hc1 in Hin. exact Hin.
    + intro Hall. constructor; [|apply Hn, Hall].
      simpl. apply Hn1; [apply testing_drums_floor|exact Hall].
Qed.

(** The testing estimate: one detail row per matched item, in order,
    under the lot of the item; the total is the sum of the rows; every
    code reported is the code of a test of the test master; and with no
    negative base cost no row is negative. *)
Theorem calculate_testing_costs_rows (matched_items : list match_result)
    (total : Q) (details : list test_detail) (codes : list scalar) :
  calculate_testing_costs tests matched_items = Ok (total, details, codes) ->
  List.map td_lot_id details = List.map m_lot_id matched_items
  /\ total == Pricing.Qsum (List.map test_cost details)
  /\ Forall (fun c => In c (List.map test_id tests)) codes
  /\ (Forall (fun t => 0 <= default 0 (base_test_cost t)) tests ->
      Forall (fun d => 0 <= test_cost d) details).
Proof.
  intro H. apply testing_loop_spec in H as (new & -> & Hl & Hs & Hc & Hn).
  simpl. split; [exact Hl|]. split; [rewrite Hs; ring|]. split; [|exact Hn].
  apply List.Forall_forall. intros c Hin. apply Hc in Hin as [[]|Hin]. exact Hin.
Qed.

End TestingCostFacts.

Section EntryPointFacts.
Import Py Tech TechPipeline Spec.
Local Open Scope Q_scope.

Variable inventory : list sku.
Variable competitors : list competitor.
Variable tests : list test.

Lemma set_of_elements (l : list value) (acc codes : list scalar) :
  set_of l acc = Ok codes ->
  forall c, In c codes -> In c acc \/ In (VScalar c) l.
Proof.
  revert acc. induction l as [|v l IH]; intros acc; simpl.
  - intros [= <-] c Hc. left. exact Hc.
  - destruct v as [x|xs]; [|discriminate].
    intros H c Hc. apply (IH _ H) in Hc as [Hc|Hc]; [|right; right; exact Hc].
    apply set_add_elements in Hc as [Hc| ->]; [left; exact Hc|right; left; reflexivity].
Qed.

(** What the matcher hands to the pricing stage: one matched item per
    extracted line item, in order and under its lot; as competitor codes
    only names of competitors of the competitor table that list a matched
    product; as test codes only codes of the test master. *)
Theorem process_rfp_data_codes (line_items : list line_item) (out : tech_output) :
  process_rfp_data inventory competitors tests line_items = Ok out ->
  find_best_matches inventory line_items = Ok (matched_line_items out)
  /\ List.map m_lot_id (matched_line_items out) = List.map lot_id line_items
  /\ Forall (fun c => exists item comp,
               In item (matched_line_items out) /\ In comp competitors
               /\ comp_name comp = VScalar c
               /\ py_in (matched_sku_id item)
                        (default (VList []) (colliding_internal_skus comp)) = Ok true)
            (competitor_codes out)
  /\ Forall (fun c => In c (List.map test_id tests)) (required_test_codes out).
Proof.
  unfold process_rfp_data.
  destruct (find_best_matches inventory line_items) as [matches|] eqn:Em; simpl; [|discriminate].
  destruct (analyze_competitors competitors matches) as [rep|] eqn:Ea; simpl; [|discriminate].
  destruct (set_of _ _) as [cc|] eqn:Es; simpl; [|discriminate].
  destruct (calculate_testing_costs tests matches) as [[[cost det] tcodes]|] eqn:Et;
    simpl; [|discriminate].
  intros [= <-]. simpl.
  split; [reflexivity|].
  split; [apply (find_best_matches_lots _ _ _ Em)|].
  split.
  - apply List.Forall_forall. intros c Hc.
    apply (set_of_elements _ _ _ Es) in Hc as [[]|Hc].
    apply List.filter_In in Hc as [Hc _].
    apply List.in_map_iff in Hc as (row & Hrow & Hin).
    apply competitors_loop_spec in Ea as (new & -> & Hnew).
    apply Hnew in Hin as (item & comp & Hi & Hcm & Hh & ->).
    exists item, comp. repeat split; auto.
  - apply testing_loop_spec in Et as (new & _ & _ & _ & Hc & _).
    apply List.Forall_forall. intros c Hin. apply Hc in Hin as [[]|Hin]. exact Hin.
Qed.

End EntryPointFacts.

Section LegacyGameFacts.
Import Py Pricing Spec.
Local Open Scope Q_scope.

Variable db : database.

Lemma Qsum_app_one (l : list Q) (x : Q) : Qsum (l ++ [x]) == Qsum l + x.
Proof. unfold Qsum. rewrite fold_left_app. reflexivity. Qed.

Lemma legacy_game_step_spec (adj : Q) (notes : list note) (n : string)
    (adj' : Q) (notes' : list note) :
  LegacyPricing.game_step db (adj, notes) n = Ok (adj', notes') ->
  adj' - adj == - (Qsum (List.map note_concession notes')
                   - Qsum (List.map note_concession notes))
  /\ (List.length notes' <= List.length notes + 1)%nat.
Proof.
  unfold LegacyPricing.game_step.
  destruct (first_match _ _) as [rival|].
  2:{ intros [= <- <-]. split; [ring|lia]. }
  destruct (LegacyPricing.subscript2 _ _) as [a|]; simpl; [|discriminate].
  destruct (LegacyPricing.subscript2 _ _) as [w|]; simpl; [|discriminate].
  destruct (LegacyPricing.number a) as [aggression|]; simpl; [|discriminate].
  destruct (Qle_bool 8 aggression).
  { intros [= <- <-]. rewrite List.map_app, length_app. cbn [List.map List.length note_concession].
    rewrite Qsum_app_one.
    split; [ring|lia]. }
  destruct (LegacyPricing.number w) as [win_rate|]; simpl; [|discriminate].
  destruct (Qltb (6 # 10) win_rate).
  { intros [= <- <-]. rewrite List.map_app, length_app. cbn [List.map List.length note_concession].
    rewrite Qsum_app_one.
    split; [ring|lia]. }
  destruct (tier rival) as [t|]; simpl; [|discriminate].
  destruct (tier3_in t) as [[|]|]; simpl; [| |discriminate].
  - intros [= <- <-]. rewrite List.map_app, length_app. cbn [List.map List.length note_concession].
    rewrite Qsum_app_one.
    split; [ring|lia].
  - intros [= <- <-]. split; [ring|lia].
Qed.

Lemma legacy_game_loop_spec (names : list string) (adj : Q) (notes : list note)
    (adj' : Q) (notes' : list note) :
  LegacyPricing.game_loop db names (adj, notes) = Ok (adj', notes') ->
  adj' - adj == - (Qsum (List.map note_concession notes')
                   - Qsum (List.map note_concession notes))
  /\ (List.length notes' <= List.length notes + List.length names)%nat.
Proof.
  revert adj notes. induction names as [|n names IH]; intros adj notes.
  - simpl. intros [= <- <-]. split; [ring|lia].
  - cbn [LegacyPricing.game_loop].
    destruct (LegacyPricing.game_step db (adj, notes) n) as [[adj1 notes1]|] eqn:E;
      cbn [bind]; [|discriminate].
    apply legacy_game_step_spec in E as [E1 E2].
    intro H. apply IH in H as [H1 H2]. split; [|simpl; lia].
    assert (Ha : adj' - adj == (adj' - adj1) + (adj1 - adj)) by ring.
    rewrite Ha, H1, E1. ring.
Qed.

(** The superseded engine adds the concessions up: when it returns, its
    adjustment is minus the sum of the concessions of its notes, one note
    at most per competitor name. *)
Theorem legacy_adjustment_is_the_sum (names : list string) (adj : Q) (notes : list note) :
  LegacyPricing.solve_game_theory db names = Ok (adj, notes) ->
  adj == - Qsum (List.map note_concession notes)
  /\ (List.length notes <= List.length names)%nat.
Proof.
  intro H. apply legacy_game_loop_spec in H as [H1 H2]. simpl in H2.
  split; [|exact H2].
  assert (Ha : adj == adj - 0) by ring.
  rewrite Ha, H1. unfold Qsum at 2. simpl. ring.
Qed.

End LegacyGameFacts.

Section ExtraSamples.
Import Py Tech Pricing Priority TechPipeline Spec.
Local Open Scope Q_scope.

(** The sample requirements against the product of a smaller
    cross-section. *)
Lemma weighted_score_range_witness :
  exists q,
    calculate_weighted_score sample_specs (technical_specs smaller_sku) = Ok q
    /\ 0 <= q /\ q <= 100.
Proof.
  eexists. split; [vm_compute; reflexivity|].
  match goal with
  | |- 0 <= ?q /\ _ =>
      destruct (weighted_score_range sample_specs (technical_specs smaller_sku) q)
        as [H0 H1]; [vm_compute; reflexivity|]
  end.
  split; [exact H0|]. apply H1.
  intros r Hr. vm_compute in Hr. injection Hr as <-. vm_compute. discriminate.
Defined.

Lemma match_standards_range_witness :
  exists s,
    match_standards (VList [SStr "IS 7098 (Part 1):1988"; SStr "IEC 61034"])
                    (VList [SStr "is 7098"; SStr "IEC 60502"]) = Ok s
    /\ 0 <= s <= 1.
Proof.
  eexists. split; [vm_compute; reflexivity|].
  apply (match_standards_range
           (VList [SStr "IS 7098 (Part 1):1988"; SStr "IEC 61034"])
           (VList [SStr "is 7098"; SStr "IEC 60502"])).
  vm_compute. reflexivity.
Defined.


Lemma find_best_matches_keeps_items_witness :
  exists rs,
    find_best_matches [smaller_sku; sample_sku] [sample_item sample_specs (VInt 1000)]
    = Ok rs
    /\ List.map m_quantity rs = [VInt 1000].
Proof.
  eexists. split; [vm_compute; reflexivity|].
  match goal with
  | |- List.map m_quantity ?rs = _ =>
      destruct (find_best_matches_keeps_items [smaller_sku; sample_sku]
                  [sample_item sample_specs (VInt 1000)] rs)
        as (_ & _ & Hq); [vm_compute; reflexivity|]
  end.
  exact Hq.
Defined.

(** A cross-section requirement written "0". *)
Lemma zero_cross_section_aborts_witness :
  find_best_matches [sample_sku]
    [sample_item (<["cross_section_sqmm" := VStr "0"]> sample_specs) (VInt 100)]
  = Raise ZeroDivisionError.
Proof.
  eapply zero_cross_section_aborts;
    [vm_compute; reflexivity|vm_compute; reflexivity|vm_compute; reflexivity].
Defined.

Lemma bid_not_below_cost_witness :
  exists out,
    process_pricing cable_db (engine_config None) (cable_rfp (VInt 1000)) = Ok out
    /\ (total_cost_base out <= final_bid_value out)%Z.
Proof.
  eexists. split; [vm_compute; reflexivity|].
  apply (bid_not_below_cost cable_db None (cable_rfp (VInt 1000)));
    vm_compute; reflexivity.
Defined.

Lemma competitor_adjustment_order_witness :
  fst (solve_game_theory two_rivals_db (VList [SStr "Polycab"; SStr "KEI"]))
  == fst (solve_game_theory two_rivals_db (VList [SStr "KEI"; SStr "Polycab"])).
Proof.
  apply competitor_adjustment_order. apply perm_swap.
Defined.

(** Twice the quantity of the sample product. *)
Lemma bom_cost_proportional_witness :
  exists cost wt lines risk overhead,
    calculate_micro_bom_cost cable_db CONFIG (VStr "AP-HT-001") 1000
    = Ok (cost, wt, lines, risk, overhead)
    /\ exists cost' wt' lines' risk' overhead',
         calculate_micro_bom_cost cable_db CONFIG (VStr "AP-HT-001") (2 * 1000)
         = Ok (cost', wt', lines', risk', overhead')
         /\ cost' == 2 * cost.
Proof.
  do 5 eexists. split; [vm_compute; reflexivity|].
  match goal with
  | |- context [2 * ?c] =>
      destruct (bom_cost_proportional cable_db CONFIG (VStr "AP-HT-001") 2 1000
                  c _ _ _ _ eq_refl)
        as (c' & w' & l' & r' & o' & E' & Hc & _)
  end.
  exists c', w', l', r', o'. split; [exact E'|exact Hc].
Defined.

Lemma bid_totals_are_block_sums_witness :
  exists out,
    process_pricing cable_db CONFIG (cable_rfp (VInt 1000)) = Ok out
    /\ total_material_cost out
       = trunc (Pricing.Qsum (List.map pb_cost (product_breakdowns out))).
Proof.
  eexists. split; [vm_compute; reflexivity|].
  apply (bid_totals_are_block_sums cable_db CONFIG (cable_rfp (VInt 1000))).
  vm_compute. reflexivity.
Defined.

Lemma process_pricing_returns_a_bid_witness :
  is_ok (process_pricing cable_db CONFIG (cable_rfp (VInt 1000))) = true.
Proof.
  apply process_pricing_returns_a_bid.
  - discriminate.
  - reflexivity.
  - repeat constructor.
  - repeat constructor.
Defined.

Lemma no_zone_no_bid_witness :
  is_ok (process_pricing empty_db CONFIG (sample_rfp (VInt 1000))) = false.
Proof. apply no_zone_no_bid. reflexivity. Defined.

Lemma priority_score_range_witness :
  Forall (fun r => forall k ps bd,
            Priority.sales_agent_2_output r = Some (Ranked k ps bd) ->
            25 <= ps <= 1425 # 10)
         (sample_ranking [sample_record "RFP-A" false [80; 90];
                          sample_record "RFP-B" true [];
                          sample_record "RFP-C" false [100]]).
Proof.
  apply (priority_score_range [] [] 90 (fun _ => None)).
  repeat constructor; vm_compute; discriminate.
Defined.

Lemma analyze_competitors_rows_witness :
  exists report,
    analyze_competitors sample_competitors [matched_sample (VInt 1000)] = Ok report
    /\ forall row, In row report -> cr_lot_id row = VStr "LOT-1".
Proof.
  eexists. split; [vm_compute; reflexivity|].
  intros row Hin.
  match type of Hin with
  | In _ ?rep =>
      apply (proj1 (analyze_competitors_rows sample_competitors
                      [matched_sample (VInt 1000)] rep eq_refl row)) in Hin
  end.
  destruct Hin as (item & comp & [<-|[]] & _ & _ & ->). reflexivity.
Defined.

Lemma calculate_testing_costs_rows_witness :
  exists total details codes,
    calculate_testing_costs sample_tests [matched_sample (VInt 1000)]
    = Ok (total, details, codes)
    /\ total == Pricing.Qsum (List.map test_cost details).
Proof.
  do 3 eexists. split; [vm_compute; reflexivity|].
  match goal with
  | |- ?t == Pricing.Qsum (List.map test_cost ?d) =>
      destruct (calculate_testing_costs_rows sample_tests [matched_sample (VInt 1000)]
                  t d _ eq_refl) as (_ & Hs & _)
  end.
  exact Hs.
Defined.

Lemma process_rfp_data_codes_witness :
  exists out,
    process_rfp_data [smaller_sku; sample_sku] sample_competitors sample_tests
      [sample_item sample_specs (VInt 1000)] = Ok out
    /\ Forall (fun c => In c (List.map TechPipeline.test_id sample_tests))
              (required_test_codes out).
Proof.
  eexists. split; [vm_compute; reflexivity|].
  match goal with
  | |- Forall _ (required_test_codes ?o) =>
      destruct (process_rfp_data_codes [smaller_sku; sample_sku] sample_competitors
                  sample_tests [sample_item sample_specs (VInt 1000)] o)
        as (_ & _ & _ & Ht); [vm_compute; reflexivity|]
  end.
  exact Ht.
Defined.

Lemma legacy_adjustment_is_the_sum_witness :
  exists adj notes,
    LegacyPricing.solve_game_theory two_rivals_db ["Polycab"; "KEI"]%string
    = Ok (adj, notes)
    /\ adj == - Pricing.Qsum (List.map note_concession notes).
Proof.
  do 2 eexists. split; [vm_compute; reflexivity|].
  match goal with
  | |- ?a == - Pricing.Qsum (List.map note_concession ?n) =>
      destruct (legacy_adjustment_is_the_sum two_rivals_db ["Polycab"; "KEI"]%string
                  a n eq_refl) as [Hs _]
  end.
  exact Hs.
Defined.

End ExtraSamples.

Section MarginCeilingFacts.
Import Py Pricing Spec.
Local Open Scope Q_scope.

Variable db : database.

(** The factory-load adjustment is the overload premium, minus the idle
    discount, or nothing. *)
Lemma analyze_factory_load_values (cfg : config) (product_id : value) :
  let adj := fst (analyze_factory_load db cfg product_id) in
  adj = OVERLOAD_PREMIUM cfg \/ adj = - IDLE_DISCOUNT cfg \/ adj = 0.
Proof.
  unfold analyze_factory_load.
  destruct (List.filter _ (FACTORY db)) as [|b bs]; [right; right; reflexivity|].
  destruct (Qltb 90 _); [left; reflexivity|].
  destruct (Qltb _ 30); [right; left; reflexivity|right; right; reflexivity].
Qed.

(** Credit days are 0, 30, 60 or 90, the loyalty adjustment is a
    discount of 3%, 1.5% or nothing, and the interest is charged on the
    credit days at the annual cost of capital. *)
Lemma analyze_financials_values (cfg : config) (client_name_in : value) (total_value : Q) :
  let '(interest_cost, credit_days, loyalty_disc) :=
    analyze_financials db cfg client_name_in total_value in
  (credit_days = 0 \/ credit_days = 30 \/ credit_days = 60 \/ credit_days = 90)%Z
  /\ (loyalty_disc = - (3 # 100) \/ loyalty_disc = - (15 # 1000) \/ loyalty_disc = 0)
  /\ interest_cost
     = total_value * (ANNUAL_COST_OF_CAPITAL cfg * inject_Z credit_days / 365).
Proof.
  unfold analyze_financials.
  destruct (first_match _ (CLIENTS db)) as [c|].
  2:{ split; [right; left; reflexivity|]. split; [right; right; reflexivity|reflexivity]. }
  split; [|split; [|reflexivity]].
  - destruct (contains "90" _); [right; right; right; reflexivity|].
    destruct (contains "60" _); [right; right; left; reflexivity|].
    destruct (contains "Advance" _); [left; reflexivity|right; left; reflexivity].
  - destruct (py_eq (loyalty_status c) (VStr "Silver")); [right; left; reflexivity|].
    destruct (py_eq (loyalty_status c) (VStr "Gold")); [left; reflexivity|right; right; reflexivity].
Qed.

Lemma solve_game_theory_nonpos (competitor_codes : value) :
  fst (solve_game_theory db competitor_codes) <= 0.
Proof.
  destruct competitor_codes as [x|codes]; [vm_compute; discriminate|].
  destruct (solve_game_theory_parts db codes) as (m & rs & Hm & Hl & ->).
  pose proof (largest_nonneg (matched_concessions db codes)) as H0.
  rewrite <- Hm in H0.
  assert (Hk0 : 0 <= inject_Z (Z.of_nat (List.length rs - 1))).
  { change 0 with (inject_Z 0). rewrite <- Zle_Qle. lia. }
  destruct (1 <? List.length rs)%nat; simpl; lra.
Qed.

(** The margin of a bid is the margin stage applied to the four
    adjustments computed for the record. *)
Lemma process_pricing_adjustments (cfg : config) (rfp : rfp_record) (out : pricing_output) :
  process_pricing db cfg rfp = Ok out ->
  exists first_pid base_cost notes,
    (final_margin out, rationale out)
    = final_margin_stage cfg
        (fst (analyze_factory_load db cfg first_pid))
        (snd (analyze_financials db cfg
                (default (VStr "Unknown") (summary_client_name rfp)) base_cost))
        (fst (solve_game_theory db (competitor_codes rfp)))
        (zone_risk out) notes
    /\ competitor_impact out = fst (solve_game_theory db (competitor_codes rfp)).
Proof.
  unfold process_pricing.
  destruct (float _) as [dist_km|]; [|discriminate]. simpl.
  destruct (costing_loop _ _ _ _ _) as [t|]; [|discriminate]. simpl.
  destruct (calculate_logistics _ _ _ _ _) as [[[log_cost log_risk] zn]|];
    [|discriminate]. simpl.
  match goal with
  | |- context [analyze_factory_load db cfg ?pid] =>
      match goal with
      | |- context [analyze_financials db cfg ?c ?b] =>
          intro H; exists pid, b; revert H
      end
  end.
  destruct (analyze_factory_load _ _ _) as [fact_adj fact_reason].
  destruct (analyze_financials _ _ _ _) as [[fin_cost credit_days] loy_disc].
  destruct (solve_game_theory _ _) as [comp_adj comp_notes].
  match goal with
  | |- context [final_margin_stage cfg ?f ?l ?c ?r ?n] =>
      intro H; exists n; revert H;
      destruct (final_margin_stage cfg f l c r n) as [fm ns] eqn:E
  end.
  intros [= <-]. simpl. split; [symmetry; exact E|reflexivity].
Qed.

Lemma engine_config_load_rates (settings : option pricing_settings) :
  OVERLOAD_PREMIUM (engine_config settings) = 5 # 100
  /\ IDLE_DISCOUNT (engine_config settings) = 3 # 100.
Proof. destruct settings as [[[m|] [d|]]|]; split; reflexivity. Qed.

(** Neither the competition nor the loyalty of the client ever raises
    the margin: the margin of a bid is at most the target margin plus the
    5% overload premium and the risk of the delivery zone, or the 4%
    floor if that is larger. *)
Theorem margin_never_above_ceiling (settings : option pricing_settings)
    (rfp : rfp_record) (out : pricing_output) :
  process_pricing db (engine_config settings) rfp = Ok out ->
  final_margin out
  <= Qmax (4 # 100)
          (TARGET_NET_MARGIN (engine_config settings) + (5 # 100) + zone_risk out).
Proof.
  intro H.
  destruct (process_pricing_adjustments _ _ _ H) as (pid & base & notes & Hm & _).
  set (cfg := engine_config settings) in *.
  pose proof (analyze_factory_load_values cfg pid) as Hf. simpl in Hf.
  pose proof (analyze_financials_values cfg
                (default (VStr "Unknown") (summary_client_name rfp)) base) as Hl.
  pose proof (solve_game_theory_nonpos (competitor_codes rfp)) as Hc.
  destruct (engine_config_load_rates settings) as [Ep Ei].
  fold cfg in Ep, Ei. rewrite Ep, Ei in Hf.
  destruct (analyze_financials db cfg _ base) as [[ic cd] ld]. simpl in Hm.
  destruct Hl as (_ & Hl & _).
  set (f := fst (analyze_factory_load db cfg pid)) in *. clearbody f.
  set (c := fst (solve_game_theory db (competitor_codes rfp))) in *. clearbody c.
  assert (Hf' : f <= 5 # 100).
  { destruct Hf as [->|[->| ->]]; vm_compute; discriminate. }
  assert (Hl' : ld <= 0).
  { destruct Hl as [->|[->| ->]]; vm_compute; discriminate. }
  unfold final_margin_stage in Hm.
  assert (Efl : MIN_SURVIVAL_MARGIN cfg = 4 # 100) by apply engine_config_floor.
  rewrite Efl in Hm.
  destruct (Qltb _ (4 # 100)) eqn:E; injection Hm as -> _.
  - apply Q.le_max_l.
  - eapply Qle_trans; [|apply Q.le_max_r].
    set (t := TARGET_NET_MARGIN cfg) in *. clearbody t.
    set (z := zone_risk out) in *. clearbody z. lra.
Qed.

End MarginCeilingFacts.

Section MarginCeilingSample.
Import Py Pricing Spec.
Local Open Scope Q_scope.

Lemma margin_never_above_ceiling_witness :
  exists out,
    process_pricing cable_db (engine_config None) (cable_rfp (VInt 1000)) = Ok out
    /\ final_margin out <= Qmax (4 # 100) ((22 # 100) + (5 # 100) + zone_risk out).
Proof.
  eexists. split; [vm_compute; reflexivity|].
  apply (margin_never_above_ceiling cable_db None (cable_rfp (VInt 1000))).
  vm_compute. reflexivity.
Defined.

End MarginCeilingSample.
